(** * TDS challan processor: extraction merge and validation engine

    A shallow embedding of the reconciliation pipeline
    ([extraction/pipeline.py]), of the post-processing of the text strategy
    ([extraction/text_extractor.py]), of the record model
    ([models/challan.py]) and of the rule-based validator
    ([validation/validator.py]), followed by the properties the design
    document states about them.

    Conventions.
    - A Python [float] is a binary64 number: [PrimFloat.float], with the
      kernel's IEEE-754 operations.
    - A Python [str] is a [string] of ASCII text; the rupee sign of the
      patterns is held as its UTF-8 bytes.
    - A [dict] is an insertion-ordered association list with unique keys
      ([PyDict]); a [set] of strings is a [gset string].
    - [Optional[T]] is [option T]; a value typed [Any] is a [PyVal].
    - A method that mutates [self], its argument or a result object returns
      the new objects; a function that may raise returns an [outcome].
    - The library functions the program calls ([hashlib], [float], [repr],
      [strptime], [re], [pdfplumber], the clock) are parameters, gathered
      in the classes [Builtins], [Regex] and [Documents]. The modules
      [SHA256], [FloatRepr], [FloatParse] and [Strptime] compute the
      built-ins, for the examples on concrete records. *)

From Stdlib Require Import ZArith List String Ascii Bool Lia Floats.
From Stdlib Require Import DecimalString.
From stdpp Require Import base decidable option list gmap strings.

Import ListNotations.
Set Warnings "-inexact-float".
Local Open Scope string_scope.
Local Open Scope Z_scope.

(** ** Python built-ins on strings *)

Module PyStr.

Definition of_Z (z : Z) : string := NilZero.string_of_int (Z.to_int z).

Definition is_upper (c : ascii) : bool :=
  let n := nat_of_ascii c in (Nat.leb 65 n && Nat.leb n 90)%bool.

Definition is_lower (c : ascii) : bool :=
  let n := nat_of_ascii c in (Nat.leb 97 n && Nat.leb n 122)%bool.

Definition is_digit (c : ascii) : bool :=
  let n := nat_of_ascii c in (Nat.leb 48 n && Nat.leb n 57)%bool.

(** [str.isspace] on the ASCII range: tab, line feed, vertical tab, form
    feed, carriage return, the four separators 0x1c-0x1f and the space. *)
Definition is_space (c : ascii) : bool :=
  let n := nat_of_ascii c in
  ((Nat.leb 9 n && Nat.leb n 13) || (Nat.leb 28 n && Nat.leb n 32))%bool.

Definition to_upper (c : ascii) : ascii :=
  if is_lower c then ascii_of_nat (nat_of_ascii c - 32) else c.

Definition to_lower (c : ascii) : ascii :=
  if is_upper c then ascii_of_nat (nat_of_ascii c + 32) else c.

Fixpoint map (f : ascii -> ascii) (s : string) : string :=
  match s with
  | EmptyString => EmptyString
  | String c s' => String (f c) (map f s')
  end.

Definition upper : string -> string := map to_upper.

Fixpoint lstrip (s : string) : string :=
  match s with
  | String c s' => if is_space c then lstrip s' else s
  | EmptyString => EmptyString
  end.

Fixpoint rstrip (s : string) : string :=
  match s with
  | EmptyString => EmptyString
  | String c s' =>
      match rstrip s' with
      | EmptyString => if is_space c then EmptyString else String c EmptyString
      | r => String c r
      end
  end.

Definition strip (s : string) : string := rstrip (lstrip s).

(** [s.replace(old, new)] for a one-character [old]. *)
Fixpoint replace_char (old new : ascii) (s : string) : string :=
  match s with
  | EmptyString => EmptyString
  | String c s' =>
      String (if Ascii.eqb c old then new else c) (replace_char old new s')
  end.

(** [s.title()]: a cased character is upper-cased when it follows an
    uncased one and lower-cased otherwise. *)
Fixpoint title_from (prev_cased : bool) (s : string) : string :=
  match s with
  | EmptyString => EmptyString
  | String c s' =>
      let cased := (is_upper c || is_lower c)%bool in
      String (if cased then (if prev_cased then to_lower c else to_upper c) else c)
             (title_from cased s')
  end.

Definition title : string -> string := title_from false.

(** [sep.join(parts)]. *)
Fixpoint join (sep : string) (parts : list string) : string :=
  match parts with
  | [] => ""
  | [p] => p
  | p :: rest => p ++ sep ++ join sep rest
  end.

(** [s.split()]: the maximal runs of non-space characters. *)
Fixpoint split_from (cur : string) (s : string) : list string :=
  match s with
  | EmptyString => if String.eqb cur "" then [] else [cur]
  | String c s' =>
      if is_space c
      then (if String.eqb cur "" then split_from "" s' else cur :: split_from "" s')
      else split_from (cur ++ String c "") s'
  end.

Definition split : string -> list string := split_from "".

(** [s[:n]]. *)
Definition take (n : nat) (s : string) : string := substring 0 n s.

(** Truth value of a [str]: the empty string is false. *)
Definition truthy (s : string) : bool := negb (String.eqb s "").

Fixpoint contains (needle hay : string) : bool :=
  (String.prefix needle hay ||
   match hay with
   | EmptyString => false
   | String _ hay' => contains needle hay'
   end)%bool.

End PyStr.

(** ** Python floats *)

Module PyFloat.

Local Open Scope float_scope.

Definition of_Z (z : Z) : float :=
  SF2Prim (binary_normalize prec emax z 0 false).

(** [x > y], [x < y] and [x == y]. *)
Definition gt (x y : float) : bool := y <? x.
Definition lt (x y : float) : bool := x <? y.
Definition eq (x y : float) : bool := x =? y.

(** Round [n / d] to the nearest integer, ties to the even one
    ([0 <= n], [0 < d]). *)
Definition div_half_even (n d : Z) : Z :=
  let q := (n / d)%Z in
  let r := (n mod d)%Z in
  match (2 * r ?= d)%Z with
  | Lt => q
  | Gt => (q + 1)%Z
  | Eq => if Z.even q then q else (q + 1)%Z
  end.

(** [|x| * 10^digits] rounded to the nearest integer, for a finite [x]
    with mantissa [m] and exponent [e]. *)
Definition scaled (digits : Z) (m : positive) (e : Z) : Z :=
  let n := (Z.pos m * 10 ^ digits)%Z in
  if (0 <=? e)%Z then (n * 2 ^ e)%Z else div_half_even n (2 ^ (- e)).

Definition pad2 (z : Z) : string :=
  if (z <? 10)%Z then ("0" ++ PyStr.of_Z z)%string else PyStr.of_Z z.

Definition fixed2 (n : Z) : string :=
  (PyStr.of_Z (n / 100) ++ "." ++ pad2 (n mod 100))%string.

(** [format(x, ".2f")]: the exact binary value of [x] correctly rounded
    to two decimals. *)
Definition format_2f (x : float) : string :=
  match Prim2SF x with
  | S754_nan => "nan"%string
  | S754_infinity s => (if s then "-inf" else "inf")%string
  | S754_zero s => (if s then "-0.00" else "0.00")%string
  | S754_finite s m e =>
      ((if s then "-" else "") ++ fixed2 (scaled 2 m e))%string
  end.

(** [format(x, ".2%")]: the product [x * 100] in fixed notation,
    followed by a percent sign. *)
Definition format_2pct (x : float) : string :=
  (format_2f (x * 100) ++ "%")%string.

End PyFloat.

(** ** Calendar dates ([datetime.date]) *)

Record date : Type := mkDate { year : Z; month : Z; day : Z }.

Module PyDate.

Definition is_leap (y : Z) : bool :=
  ((y mod 4 =? 0) && (negb (y mod 100 =? 0) || (y mod 400 =? 0)))%bool.

Definition days_before_year (y : Z) : Z :=
  let y1 := y - 1 in y1 * 365 + y1 / 4 - y1 / 100 + y1 / 400.

Definition days_in_month (y m : Z) : Z :=
  if m =? 2 then (if is_leap y then 29 else 28)
  else if ((m =? 4) || (m =? 6) || (m =? 9) || (m =? 11))%bool then 30
  else 31.

Fixpoint days_before_month_aux (y : Z) (k : nat) : Z :=
  match k with
  | O => 0
  | S k' => days_before_month_aux y k' + days_in_month y (Z.of_nat k)
  end.

Definition days_before_month (y m : Z) : Z :=
  days_before_month_aux y (Z.to_nat (m - 1)).

(** [d.toordinal()]. *)
Definition toordinal (d : date) : Z :=
  days_before_year (year d) + days_before_month (year d) (month d) + day d.

(** [a > b]: dates compare as (year, month, day) triples. *)
Definition gt (a b : date) : bool :=
  ((year b <? year a) ||
   ((year b =? year a) &&
    ((month b <? month a) || ((month b =? month a) && (day b <? day a)))))%bool.

(** [(a - b).days]. *)
Definition days_between (a b : date) : Z := toordinal a - toordinal b.

Definition pad (width : nat) (z : Z) : string :=
  let s := PyStr.of_Z z in
  (string_of_list_ascii (repeat "0"%char (width - String.length s)) ++ s)%string.

(** [str(d)], the ISO form [YYYY-MM-DD]. *)
Definition isoformat (d : date) : string :=
  (pad 4 (year d) ++ "-" ++ pad 2 (month d) ++ "-" ++ pad 2 (day d))%string.

(** [d.strftime("%Y-%m-%d")]: the C library writes the year of [%Y] as a
    plain decimal number, without padding (glibc), so a year below 1000
    gives a text of fewer than ten characters, [999-02-01] where the ISO
    form is [0999-02-01]; [%m] and [%d] are written on two digits. *)
Definition strftime_ymd (d : date) : string :=
  (PyStr.of_Z (year d) ++ "-" ++ pad 2 (month d) ++ "-" ++ pad 2 (day d))%string.

(** A date the [datetime.date] constructor accepts. *)
Definition valid (d : date) : bool :=
  ((1 <=? year d) && (year d <=? 9999) && (1 <=? month d) && (month d <=? 12)
   && (1 <=? day d) && (day d <=? days_in_month (year d) (month d)))%bool.

End PyDate.

(** ** Dictionaries

    A [dict] keeps its keys in insertion order: assigning to a key that is
    present replaces its value in place, assigning to a new key appends. *)

Module PyDict.

Section Dict.

Context {V : Type}.

(** [d.get(k)] *)
Fixpoint get (k : string) (d : list (string * V)) : option V :=
  match d with
  | [] => None
  | (k', v) :: d' => if String.eqb k' k then Some v else get k d'
  end.

(** [k in d] *)
Definition contains (k : string) (d : list (string * V)) : bool :=
  match get k d with
  | Some _ => true
  | None => false
  end.

(** [d[k] = v] *)
Fixpoint set (k : string) (v : V) (d : list (string * V)) : list (string * V) :=
  match d with
  | [] => [(k, v)]
  | (k', v') :: d' =>
      if String.eqb k' k then (k', v) :: d' else (k', v') :: set k v d'
  end.

Definition keys (d : list (string * V)) : list string := List.map fst d.

(** [d.update(other)] *)
Definition update (d other : list (string * V)) : list (string * V) :=
  fold_left (fun acc kv => set (fst kv) (snd kv) acc) other d.

(** The invariant of a [dict]: no key occurs twice. *)
Definition wf (d : list (string * V)) : Prop := NoDup (keys d).

End Dict.

End PyDict.

(** ** Exceptions

    A computation that may raise returns an [outcome]. [PyException]
    stands for an instance of [Exception], the class that the handlers of
    the pipeline catch; [exc_str e] is [str(e)]. *)

Record PyException : Type := mkException {
  exc_class : string;
  exc_str : string
}.

Inductive outcome (A : Type) : Type :=
| Returned (a : A)
| Raised (e : PyException).

Arguments Returned {A} a.
Arguments Raised {A} e.

#[global] Instance outcome_ret : MRet outcome := fun A a => Returned a.

#[global] Instance outcome_bind : MBind outcome := fun A B k m =>
  match m with
  | Returned a => k a
  | Raised e => Raised e
  end.

(** [try: body / except Exception as e: handler(e)] *)
Definition try_except {A : Type} (body : outcome A) (handler : PyException -> outcome A)
    : outcome A :=
  match body with
  | Returned a => Returned a
  | Raised e => handler e
  end.

(** ** Data model ([models/challan.py]) *)

Inductive ValidationStatus : Type := OK | FLAG | PENDING.

Inductive ReviewStatus : Type := PENDING_REVIEW | ACCEPTED | REJECTED | CORRECTED.

(** The values the extractors store in a field typed [Any]. *)
Inductive PyVal : Type :=
| VNone
| VStr (s : string)
| VFloat (x : float)
| VInt (z : Z).

Module PyVal.

(** Truth value: [None], the empty string and a zero are false. *)
Definition truthy (v : PyVal) : bool :=
  match v with
  | VNone => false
  | VStr s => PyStr.truthy s
  | VFloat x => negb (PyFloat.eq x 0)
  | VInt z => negb (z =? 0)
  end.

Definition is_none (v : PyVal) : bool :=
  match v with VNone => true | _ => false end.

End PyVal.

(** Truth value of an [Optional[str]]. *)
Definition opt_truthy (o : option string) : bool :=
  match o with
  | Some s => PyStr.truthy s
  | None => false
  end.

(** [o or ''] inside an f-string. *)
Definition or_empty (o : option string) : string :=
  match o with
  | Some s => s
  | None => ""
  end.

Record FieldConfidence : Type := mkFieldConfidence {
  value : PyVal;
  confidence : float;
  extraction_method : string;
  raw_text : option string
}.

Record TaxBreakup : Type := mkTaxBreakup {
  tax_a : float;
  tax_b : float;
  tax_c : float;
  tax_d : float;
  tax_e : float;
  tax_f : float
}.

(** [TaxBreakup.total] *)
Definition total (t : TaxBreakup) : float :=
  (tax_a t + tax_b t + tax_c t + tax_d t + tax_e t + tax_f t)%float.

Definition TaxBreakup_default : TaxBreakup :=
  mkTaxBreakup 0 0 0 0 0 0.

Record ChallanRecord : Type := mkChallanRecord {
  tan : option string;
  deductor_name : option string;
  assessment_year : option string;
  financial_year : option string;
  major_head : option string;
  minor_head : option string;
  nature_of_payment : option string;
  total_amount : option float;
  amount_in_words : option string;
  cin : option string;
  bsr_code : option string;
  challan_no : option string;
  date_of_deposit : option date;
  tender_date : option date;
  bank_name : option string;
  bank_ref_no : option string;
  mode_of_payment : option string;
  tax_breakup : TaxBreakup;
  source_file : string;
  row_confidence : float;
  validation_flag : ValidationStatus;
  review_status : ReviewStatus;
  notes : string;
  field_confidences : list (string * FieldConfidence);
  record_hash : option string
}.

(** A record built with no argument: every field at its declared default. *)
Definition ChallanRecord_default : ChallanRecord :=
  {| tan := None; deductor_name := None; assessment_year := None;
     financial_year := None; major_head := None; minor_head := None;
     nature_of_payment := None; total_amount := None; amount_in_words := None;
     cin := None; bsr_code := None; challan_no := None; date_of_deposit := None;
     tender_date := None; bank_name := None; bank_ref_no := None;
     mode_of_payment := None; tax_breakup := TaxBreakup_default;
     source_file := ""; row_confidence := 0; validation_flag := PENDING;
     review_status := PENDING_REVIEW; notes := ""; field_confidences := [];
     record_hash := None |}.

(** Attribute assignments [record.x = v]. *)
Definition set_record_hash (h : option string) (r : ChallanRecord) : ChallanRecord :=
  {| tan := tan r; deductor_name := deductor_name r;
     assessment_year := assessment_year r; financial_year := financial_year r;
     major_head := major_head r; minor_head := minor_head r;
     nature_of_payment := nature_of_payment r; total_amount := total_amount r;
     amount_in_words := amount_in_words r; cin := cin r; bsr_code := bsr_code r;
     challan_no := challan_no r; date_of_deposit := date_of_deposit r;
     tender_date := tender_date r; bank_name := bank_name r;
     bank_ref_no := bank_ref_no r; mode_of_payment := mode_of_payment r;
     tax_breakup := tax_breakup r; source_file := source_file r;
     row_confidence := row_confidence r; validation_flag := validation_flag r;
     review_status := review_status r; notes := notes r;
     field_confidences := field_confidences r; record_hash := h |}.

Definition set_validation_flag (f : ValidationStatus) (r : ChallanRecord) : ChallanRecord :=
  {| tan := tan r; deductor_name := deductor_name r;
     assessment_year := assessment_year r; financial_year := financial_year r;
     major_head := major_head r; minor_head := minor_head r;
     nature_of_payment := nature_of_payment r; total_amount := total_amount r;
     amount_in_words := amount_in_words r; cin := cin r; bsr_code := bsr_code r;
     challan_no := challan_no r; date_of_deposit := date_of_deposit r;
     tender_date := tender_date r; bank_name := bank_name r;
     bank_ref_no := bank_ref_no r; mode_of_payment := mode_of_payment r;
     tax_breakup := tax_breakup r; source_file := source_file r;
     row_confidence := row_confidence r; validation_flag := f;
     review_status := review_status r; notes := notes r;
     field_confidences := field_confidences r; record_hash := record_hash r |}.

Definition set_notes (n : string) (r : ChallanRecord) : ChallanRecord :=
  {| tan := tan r; deductor_name := deductor_name r;
     assessment_year := assessment_year r; financial_year := financial_year r;
     major_head := major_head r; minor_head := minor_head r;
     nature_of_payment := nature_of_payment r; total_amount := total_amount r;
     amount_in_words := amount_in_words r; cin := cin r; bsr_code := bsr_code r;
     challan_no := challan_no r; date_of_deposit := date_of_deposit r;
     tender_date := tender_date r; bank_name := bank_name r;
     bank_ref_no := bank_ref_no r; mode_of_payment := mode_of_payment r;
     tax_breakup := tax_breakup r; source_file := source_file r;
     row_confidence := row_confidence r; validation_flag := validation_flag r;
     review_status := review_status r; notes := n;
     field_confidences := field_confidences r; record_hash := record_hash r |}.

Definition set_row_confidence (c : float) (r : ChallanRecord) : ChallanRecord :=
  {| tan := tan r; deductor_name := deductor_name r;
     assessment_year := assessment_year r; financial_year := financial_year r;
     major_head := major_head r; minor_head := minor_head r;
     nature_of_payment := nature_of_payment r; total_amount := total_amount r;
     amount_in_words := amount_in_words r; cin := cin r; bsr_code := bsr_code r;
     challan_no := challan_no r; date_of_deposit := date_of_deposit r;
     tender_date := tender_date r; bank_name := bank_name r;
     bank_ref_no := bank_ref_no r; mode_of_payment := mode_of_payment r;
     tax_breakup := tax_breakup r; source_file := source_file r;
     row_confidence := c; validation_flag := validation_flag r;
     review_status := review_status r; notes := notes r;
     field_confidences := field_confidences r; record_hash := record_hash r |}.

Definition set_field_confidences (d : list (string * FieldConfidence))
    (r : ChallanRecord) : ChallanRecord :=
  {| tan := tan r; deductor_name := deductor_name r;
     assessment_year := assessment_year r; financial_year := financial_year r;
     major_head := major_head r; minor_head := minor_head r;
     nature_of_payment := nature_of_payment r; total_amount := total_amount r;
     amount_in_words := amount_in_words r; cin := cin r; bsr_code := bsr_code r;
     challan_no := challan_no r; date_of_deposit := date_of_deposit r;
     tender_date := tender_date r; bank_name := bank_name r;
     bank_ref_no := bank_ref_no r; mode_of_payment := mode_of_payment r;
     tax_breakup := tax_breakup r; source_file := source_file r;
     row_confidence := row_confidence r; validation_flag := validation_flag r;
     review_status := review_status r; notes := notes r;
     field_confidences := d; record_hash := record_hash r |}.

(** The text that [compute_hash] digests,
    [f"{self.cin or ''}{self.challan_no or ''}{self.date_of_deposit or ''}"]:
    [x or ''] is [x] when [x] is true and the empty string otherwise, which
    for an optional string is [or_empty]; a date is always true and prints
    in ISO form. *)
Definition hash_input (r : ChallanRecord) : string :=
  or_empty (cin r) ++ or_empty (challan_no r) ++
  match date_of_deposit r with
  | Some d => PyDate.isoformat d
  | None => ""
  end.

(** The identifying triple of a record. *)
Definition dedupe_key (r : ChallanRecord) : option string * option string * option date :=
  (cin r, challan_no r, date_of_deposit r).

(** ** Configuration ([config/settings.py]) *)

(** [tan_pattern] is held as the matcher it denotes: [tan_pattern cfg s]
    is whether [re.match(pattern, s)] finds a match. *)
Record ValidationConfig : Type := mkValidationConfig {
  sum_check_tolerance : float;
  date_formats : list string;
  tan_pattern : string -> bool;
  cin_min_length : Z
}.

(** [re.match(r"^[A-Z]{4}[0-9]{5}[A-Z]$", s)]: four capitals, five digits,
    one capital, then the end of the string or its final line feed. *)
Definition default_tan_pattern (s : string) : bool :=
  match list_ascii_of_string s with
  | [a; b; c; d; e; f; g; h; i; j] | [a; b; c; d; e; f; g; h; i; j; "010"%char] =>
      (PyStr.is_upper a && PyStr.is_upper b && PyStr.is_upper c && PyStr.is_upper d
       && PyStr.is_digit e && PyStr.is_digit f && PyStr.is_digit g
       && PyStr.is_digit h && PyStr.is_digit i && PyStr.is_upper j)%bool
  | _ => false
  end.

Definition validation_config : ValidationConfig :=
  {| sum_check_tolerance := 1.0;
     date_formats := ["%d-%b-%Y"; "%d/%m/%Y"; "%Y-%m-%d"; "%d-%m-%Y";
                      "%d %b %Y"; "%d %B %Y"];
     tan_pattern := default_tan_pattern;
     cin_min_length := 15 |}.

(** ** Validation results ([validation/validator.py]) *)

Record ValidationIssue : Type := mkValidationIssue {
  field : string;
  issue_type : string;
  message : string;
  severity : string
}.

Record ValidationResult : Type := mkValidationResult {
  record_id : string;
  is_valid : bool;
  issues : list ValidationIssue;
  original_values : list (string * float);
  corrected_values : list (string * PyVal)
}.

Definition is_error (i : ValidationIssue) : bool := String.eqb (severity i) "error".
Definition is_warning (i : ValidationIssue) : bool := String.eqb (severity i) "warning".
Definition has_type (t : string) (i : ValidationIssue) : bool := String.eqb (issue_type i) t.

(** [ValidationResult.has_errors] and [has_warnings] *)
Definition has_errors (result : ValidationResult) : bool :=
  existsb is_error (issues result).

Definition has_warnings (result : ValidationResult) : bool :=
  existsb is_warning (issues result).

(** [result.issues.append(issue)] *)
Definition append_issue (i : ValidationIssue) (result : ValidationResult) : ValidationResult :=
  {| record_id := record_id result; is_valid := is_valid result;
     issues := issues result ++ [i];
     original_values := original_values result;
     corrected_values := corrected_values result |}.

(** [result.original_values[k] = v] *)
Definition set_original_value (k : string) (v : float) (result : ValidationResult) : ValidationResult :=
  {| record_id := record_id result; is_valid := is_valid result;
     issues := issues result;
     original_values := PyDict.set k v (original_values result);
     corrected_values := corrected_values result |}.

Definition set_is_valid (b : bool) (result : ValidationResult) : ValidationResult :=
  {| record_id := record_id result; is_valid := b;
     issues := issues result;
     original_values := original_values result;
     corrected_values := corrected_values result |}.

(** [len([i for i in issues if i.issue_type == t])] *)
Definition count_type (t : string) (l : list ValidationIssue) : nat :=
  List.length (List.filter (has_type t) l).

(** The validator object: its configuration and its set of seen hashes. *)
Record ChallanValidator : Type := mkChallanValidator {
  config : ValidationConfig;
  _seen_hashes : gset string
}.

(** [ChallanValidator()] *)
Definition new_validator (cfg : ValidationConfig) : ChallanValidator :=
  {| config := cfg; _seen_hashes := ∅ |}.

(** [reset_dedupe_cache] *)
Definition reset_dedupe_cache (self : ChallanValidator) : ChallanValidator :=
  {| config := config self; _seen_hashes := ∅ |}.

(** ** Built-ins of the Python runtime

    The library functions the program calls and this development leaves
    open; every property below holds whatever they compute.
    - [sha256_hexdigest s] is [hashlib.sha256(s.encode()).hexdigest()];
    - [float_repr x] is the text an f-string prints for the float [x];
    - [float_of_str s] is [float(s)], [None] when it raises [ValueError];
    - [strptime s fmt] is the date of [datetime.strptime(s, fmt)], [None]
      when it raises [ValueError];
    - [fromisoformat s] is the date of [datetime.fromisoformat(s)], [None]
      when it raises [ValueError];
    - [validation_error args] is the exception the constructor of a
      pydantic model raises for the arguments that fail validation. *)
Class Builtins : Type := mkBuiltins {
  sha256_hexdigest : string -> string;
  float_repr : float -> string;
  float_of_str : string -> option float;
  strptime : string -> string -> option date;
  fromisoformat : string -> option date;
  validation_error : list (string * PyVal) -> PyException
}.

Section Validator.

Context `{Builtins}.

(** [ChallanRecord.compute_hash]: stores and returns the digest prefix. *)
Definition compute_hash (self : ChallanRecord) : string * ChallanRecord :=
  let h := PyStr.take 16 (sha256_hexdigest (hash_input self)) in
  (h, set_record_hash (Some h) self).

Definition _validate_tan (self : ChallanValidator) (record : ChallanRecord)
    (result : ValidationResult) : ValidationResult :=
  if negb (opt_truthy (tan record)) then
    append_issue (mkValidationIssue "tan" "missing" "TAN is missing" "error") result
  else if negb (tan_pattern (config self) (or_empty (tan record))) then
    append_issue (mkValidationIssue "tan" "format"
                    ("Invalid TAN format: " ++ or_empty (tan record)) "error") result
  else result.

Definition _validate_cin (self : ChallanValidator) (record : ChallanRecord)
    (result : ValidationResult) : ValidationResult :=
  if negb (opt_truthy (cin record)) then
    append_issue (mkValidationIssue "cin" "missing" "CIN is missing" "error") result
  else if Z.of_nat (String.length (or_empty (cin record))) <? cin_min_length (config self) then
    append_issue (mkValidationIssue "cin" "format"
                    ("CIN too short: " ++ or_empty (cin record) ++ " (min " ++
                     PyStr.of_Z (cin_min_length (config self)) ++ " chars)")
                    "warning") result
  else result.

Definition _validate_amounts (self : ChallanValidator) (record : ChallanRecord)
    (result : ValidationResult) : ValidationResult :=
  match total_amount record with
  | None =>
      append_issue (mkValidationIssue "total_amount" "missing"
                      "Total amount is missing" "error") result
  | Some amount =>
      let result :=
        if PyFloat.lt amount 0 then
          append_issue (mkValidationIssue "total_amount" "invalid"
                          ("Negative total amount: " ++ float_repr amount) "error") result
        else result in
      if PyFloat.eq amount 0 then
        append_issue (mkValidationIssue "total_amount" "suspicious"
                        "Total amount is zero" "warning") result
      else result
  end.

(** The message of a failed sum check. *)
Definition sum_mismatch_message (tax_sum amount difference : float) : string :=
  "Tax breakup sum (" ++ PyFloat.format_2f tax_sum ++ ") != Total amount (" ++
  PyFloat.format_2f amount ++ "), diff=" ++ PyFloat.format_2f difference.

Definition _validate_sum_check (self : ChallanValidator) (record : ChallanRecord)
    (result : ValidationResult) : ValidationResult :=
  match total_amount record with
  | None => result
  | Some amount =>
      let tax_sum := total (tax_breakup record) in
      let difference := PrimFloat.abs (tax_sum - amount) in
      if PyFloat.gt difference (sum_check_tolerance (config self)) then
        set_original_value "total_amount" amount
          (set_original_value "tax_sum" tax_sum
             (append_issue (mkValidationIssue "tax_breakup" "sum_mismatch"
                              (sum_mismatch_message tax_sum amount difference)
                              "error") result))
      else result
  end.

(** [today] is what [date.today()] returns during the call. *)
Definition _validate_dates (today : date) (self : ChallanValidator)
    (record : ChallanRecord) (result : ValidationResult) : ValidationResult :=
  match date_of_deposit record with
  | None =>
      append_issue (mkValidationIssue "date_of_deposit" "missing"
                      "Date of deposit is missing" "error") result
  | Some deposit_date =>
      let result :=
        if PyDate.gt deposit_date today then
          append_issue (mkValidationIssue "date_of_deposit" "future_date"
                          ("Date of deposit is in future: " ++
                           PyDate.isoformat deposit_date) "warning") result
        else result in
      if 3650 <? PyDate.days_between today deposit_date then
        append_issue (mkValidationIssue "date_of_deposit" "old_date"
                        ("Date of deposit is more than 10 years old: " ++
                         PyDate.isoformat deposit_date) "warning") result
      else result
  end.

(** One turn of the loop over the [required] dict. *)
Definition check_required (result : ValidationResult)
    (item : string * option string) : ValidationResult :=
  let '(field_name, v) := item in
  if negb (opt_truthy v) then
    append_issue (mkValidationIssue field_name "missing"
                    (PyStr.title (PyStr.replace_char "_" " " field_name) ++ " is missing")
                    "warning") result
  else result.

Definition _validate_required_fields (self : ChallanValidator)
    (record : ChallanRecord) (result : ValidationResult) : ValidationResult :=
  let required := [("challan_no", challan_no record);
                   ("bsr_code", bsr_code record);
                   ("bank_name", bank_name record);
                   ("deductor_name", deductor_name record)] in
  fold_left check_required required result.

Definition _check_duplicate (self : ChallanValidator) (record : ChallanRecord)
    (result : ValidationResult)
    : ChallanValidator * ChallanRecord * ValidationResult :=
  let '(record_hash, record) := compute_hash record in
  if bool_decide (record_hash ∈ _seen_hashes self) then
    (self, record,
     append_issue (mkValidationIssue "record" "duplicate"
                     ("Duplicate record detected (hash: " ++ record_hash ++ ")")
                     "error") result)
  else
    ({| config := config self; _seen_hashes := {[record_hash]} ∪ _seen_hashes self |},
     record, result).

(** [f"{i.field}: {i.message}"] *)
Definition issue_text (i : ValidationIssue) : string :=
  field i ++ ": " ++ message i.

(** [record.record_hash or record.cin or "unknown"] *)
Definition initial_record_id (record : ChallanRecord) : string :=
  if opt_truthy (record_hash record) then or_empty (record_hash record)
  else if opt_truthy (cin record) then or_empty (cin record)
  else "unknown".

(** The seven rule checks of [validate], run in order. *)
Definition run_rules (today : date) (self : ChallanValidator) (record : ChallanRecord)
    : ChallanValidator * ChallanRecord * ValidationResult :=
  let result := mkValidationResult (initial_record_id record) true [] [] [] in
  let result := _validate_tan self record result in
  let result := _validate_cin self record result in
  let result := _validate_amounts self record result in
  let result := _validate_sum_check self record result in
  let result := _validate_dates today self record result in
  let result := _validate_required_fields self record result in
  _check_duplicate self record result.

(** [ChallanValidator.validate]: the validator, the record and the result
    after the call. *)
Definition validate (today : date) (self : ChallanValidator) (record : ChallanRecord)
    : ChallanValidator * ChallanRecord * ValidationResult :=
  let '(self, record, result) := run_rules today self record in
  let '(record, result) :=
    if has_errors result
    then (set_validation_flag FLAG record, set_is_valid false result)
    else (set_validation_flag OK record, result) in
  let record :=
    match issues result with
    | [] => record
    | _ :: _ => set_notes (PyStr.join "; " (List.map issue_text (issues result))) record
    end in
  (self, record, result).

(** [ChallanValidator.validate_batch] on a list of distinct objects: each
    position has a record of its own, and the list after the loop holds
    every record as its validation left it. For a list that holds one
    object at several positions, see [validate_objects]. *)
Fixpoint validate_loop (today : date) (self : ChallanValidator) (records : list ChallanRecord)
    : ChallanValidator * list ChallanRecord * list ValidationResult :=
  match records with
  | [] => (self, [], [])
  | record :: rest =>
      let '(self, record, result) := validate today self record in
      let '(self, rest, results) := validate_loop today self rest in
      (self, record :: rest, result :: results)
  end.

Definition validate_batch (today : date) (self : ChallanValidator)
    (records : list ChallanRecord)
    : ChallanValidator * list ChallanRecord * list ValidationResult :=
  validate_loop today (reset_dedupe_cache self) records.

(** [validate] assigns to the record it is given, which is the object of
    the caller: when a list holds one object at two positions, what the
    second validation assigns shows at the first position too. A store
    gives the state of the object at each address, and a list of records
    is the list of the addresses of its objects. *)
Definition Store : Type := nat -> ChallanRecord.

(** [record.attribute = value] for the object at [address]. *)
Definition store_set (store : Store) (address : nat) (record : ChallanRecord) : Store :=
  fun a => if Nat.eqb a address then record else store a.

(** The list as its holder reads it. *)
Definition objects (store : Store) (records : list nat) : list ChallanRecord :=
  List.map store records.

(** The loop of [validate_batch] on the objects of the caller. *)
Fixpoint validate_objects (today : date) (self : ChallanValidator) (store : Store)
    (records : list nat) : ChallanValidator * Store * list ValidationResult :=
  match records with
  | [] => (self, store, [])
  | address :: rest =>
      let '(self, record, result) := validate today self (store address) in
      let '(self, store, results) :=
        validate_objects today self (store_set store address record) rest in
      (self, store, result :: results)
  end.

(** [ChallanValidator.validate_batch] on the objects of the caller. *)
Definition validate_batch_objects (today : date) (self : ChallanValidator) (store : Store)
    (records : list nat) : ChallanValidator * Store * list ValidationResult :=
  validate_objects today (reset_dedupe_cache self) store records.

End Validator.

(** ** Text strategy ([extraction/text_extractor.py]) *)

(** [re.search(pattern, text, flags)]: the first capture group of the first
    match, [None] when the pattern matches nowhere. *)
Inductive re_flags : Type := NoFlags | IgnoreCaseMultiline.

Class Regex : Type := mkRegex {
  re_search_group1 : string -> string -> re_flags -> option string
}.

(** [str(v)] for a field value. *)
Definition py_str `{Builtins} (v : PyVal) : string :=
  match v with
  | VNone => "None"
  | VStr s => s
  | VFloat x => float_repr x
  | VInt z => PyStr.of_Z z
  end.

Module TextExtractor.

Definition FIELD_PATTERNS : list (string * string) :=
  [("tan", "TAN\s*:?\s*([A-Z]{4}[0-9]{5}[A-Z])");
   ("deductor_name", "Name\s*:?\s*([A-Z][A-Za-z0-9\s&.,()-]+?)(?=\n|Assessment|$)");
   ("assessment_year", "Assessment\s*Year\s*:?\s*(\d{4}-\d{2})");
   ("financial_year", "Financial\s*Year\s*:?\s*(\d{4}-\d{2})");
   ("major_head", "Major\s*Head\s*:?\s*(.+?)(?=\n|Minor|$)");
   ("minor_head", "Minor\s*Head\s*:?\s*(.+?)(?=\n|Nature|$)");
   ("nature_of_payment", "Nature\s*of\s*Payment\s*:?\s*(\d{2,3}[A-Z]?|\w+)");
   ("total_amount", "Amount\s*\(in\s*Rs\.\)\s*:?\s*[₹Rs.\s]*([0-9,]+(?:\.\d{2})?)");
   ("amount_in_words", "Amount\s*\(in\s*words\)\s*:?\s*(.+?)(?=\n|CIN|$)");
   ("cin", "CIN\s*:?\s*([A-Z0-9]+)");
   ("bsr_code", "BSR\s*[Cc]ode\s*:?\s*(\d+)");
   ("challan_no", "Challan\s*No\.?\s*:?\s*(\d+)");
   ("date_of_deposit", "Date\s*of\s*Deposit\s*:?\s*(\d{2}[-/][A-Za-z]{3}[-/]\d{4}|\d{2}[-/]\d{2}[-/]\d{4})");
   ("tender_date", "Tender\s*Date\s*:?\s*(\d{2}[-/][A-Za-z]{3}[-/]\d{4}|\d{2}[-/]\d{2}[-/]\d{4})");
   ("bank_name", "Bank\s*Name\s*:?\s*([A-Za-z\s]+Bank)");
   ("bank_ref_no", "Bank\s*Reference\s*Number\s*:?\s*([A-Z0-9]+)");
   ("mode_of_payment", "Mode\s*of\s*Payment\s*:?\s*([A-Za-z\s]+)")].

Definition TAX_PATTERNS : list (string * string) :=
  [("tax_a", "A\s+Tax\s+[₹Rs.\s]*([0-9,]+(?:\.\d{2})?)");
   ("tax_b", "B\s+Surcharge\s+[₹Rs.\s]*([0-9,]+(?:\.\d{2})?)");
   ("tax_c", "C\s+Cess\s+[₹Rs.\s]*([0-9,]+(?:\.\d{2})?)");
   ("tax_d", "D\s+Interest\s+[₹Rs.\s]*([0-9,]+(?:\.\d{2})?)");
   ("tax_e", "E\s+Penalty\s+[₹Rs.\s]*([0-9,]+(?:\.\d{2})?)");
   ("tax_f", "F\s+Fee\s+under\s+section\s+234E\s+[₹Rs.\s]*([0-9,]+(?:\.\d{2})?)")].

(** [re.sub(r"[₹Rs.,\s]", "", value)]: drops every rupee sign (three
    bytes in UTF-8), [R], [s], full stop, comma and white space. *)
Fixpoint drop_amount_noise (skip : nat) (value : string) : string :=
  match value with
  | EmptyString => EmptyString
  | String c rest =>
      match skip with
      | S skip' => drop_amount_noise skip' rest
      | O =>
          if String.prefix "₹" value then drop_amount_noise 2 rest
          else if (Ascii.eqb c "R" || Ascii.eqb c "s" || Ascii.eqb c "."
                   || Ascii.eqb c "," || PyStr.is_space c)%bool
          then drop_amount_noise 0 rest
          else String c (drop_amount_noise 0 rest)
      end
  end.

(** The first match of [(\d{2,3}[A-Z]?)]: two digits, a third when there
    is one, then a capital letter when there is one. *)
Fixpoint payment_code (value : string) : option string :=
  match value with
  | String a ((String b rest) as tail) =>
      if (PyStr.is_digit a && PyStr.is_digit b)%bool then
        let '(digits, rest) :=
          match rest with
          | String c rest' =>
              if PyStr.is_digit c
              then (String a (String b (String c "")), rest')
              else (String a (String b ""), rest)
          | EmptyString => (String a (String b ""), rest)
          end in
        match rest with
        | String l _ =>
            if PyStr.is_upper l then Some (digits ++ String l "") else Some digits
        | EmptyString => Some digits
        end
      else payment_code tail
  | _ => None
  end.

Section Methods.

Context `{Builtins} `{Regex}.

(** The module-level configuration object the extractor reads. *)
Variable validation_config : ValidationConfig.

Definition _parse_amount (value : string) : option float :=
  if negb (PyStr.truthy value) then None
  else float_of_str (drop_amount_noise 0 value).

(** The loop over the configured formats: the first one under which the
    text parses decides, and the date is written back with
    [strftime("%Y-%m-%d")]. *)
Fixpoint parse_date_formats (value : string) (formats : list string) : option string :=
  match formats with
  | [] => None
  | fmt :: formats' =>
      match strptime value fmt with
      | Some parsed => Some (PyDate.strftime_ymd parsed)
      | None => parse_date_formats value formats'
      end
  end.

Definition _parse_date (value : string) : option string :=
  if negb (PyStr.truthy value) then None
  else parse_date_formats value (date_formats validation_config).

Definition of_opt_float (o : option float) : PyVal :=
  match o with
  | Some x => VFloat x
  | None => VNone
  end.

Definition of_opt_str (o : option string) : PyVal :=
  match o with
  | Some s => VStr s
  | None => VNone
  end.

Definition _clean_value (field_name value : string) : PyVal :=
  if negb (PyStr.truthy value) then VNone
  else
    let value := PyStr.strip value in
    if String.eqb field_name "total_amount" then of_opt_float (_parse_amount value)
    else if (String.eqb field_name "date_of_deposit"
             || String.eqb field_name "tender_date")%bool
    then of_opt_str (_parse_date value)
    else if String.eqb field_name "tan" then VStr (PyStr.strip (PyStr.upper value))
    else if String.eqb field_name "cin" then VStr (PyStr.strip (PyStr.upper value))
    else if String.eqb field_name "nature_of_payment" then
      match payment_code value with
      | Some code => VStr code
      | None => VStr value
      end
    else if String.eqb field_name "deductor_name"
    then VStr (PyStr.join " " (PyStr.split value))
    else if (String.eqb field_name "major_head"
             || String.eqb field_name "minor_head")%bool
    then VStr (PyStr.join " " (PyStr.split value))
    else VStr value.

(** [isinstance(v, (int, float)) and v > 0] *)
Definition positive_number (v : PyVal) : bool :=
  match v with
  | VFloat x => PyFloat.gt x 0
  | VInt z => 0 <? z
  | _ => false
  end.

Definition _calculate_field_confidence (field_name raw_value : string)
    (cleaned_value : PyVal) : float :=
  if PyVal.is_none cleaned_value then 0.3
  else if String.eqb field_name "tan" then
    (if tan_pattern validation_config (py_str cleaned_value) then 0.98 else 0.6)
  else if String.eqb field_name "cin" then
    (if cin_min_length validation_config <=?
          Z.of_nat (String.length (py_str cleaned_value))
     then 0.95 else 0.7)
  else if String.eqb field_name "total_amount" then
    (if positive_number cleaned_value then 0.95 else 0.6)
  else if (String.eqb field_name "date_of_deposit"
           || String.eqb field_name "tender_date")%bool then
    (if PyVal.truthy cleaned_value then 0.95 else 0.5)
  else 0.9.

(** The field stored when the pattern of [field_name] matched and its
    group captured [captured]. *)
Definition matched_field (field_name captured : string) : FieldConfidence :=
  let raw_value := PyStr.strip captured in
  let cleaned_value := _clean_value field_name raw_value in
  let confidence := _calculate_field_confidence field_name raw_value cleaned_value in
  mkFieldConfidence cleaned_value confidence "text_regex" (Some raw_value).

Definition _extract_fields (text : string) : list (string * FieldConfidence) :=
  fold_left
    (fun fields '(field_name, pattern) =>
       match re_search_group1 pattern text IgnoreCaseMultiline with
       | Some captured =>
           PyDict.set field_name (matched_field field_name captured) fields
       | None => fields
       end)
    FIELD_PATTERNS [].

(** The tax field stored when its pattern captured [captured]. *)
Definition matched_tax_field (captured : string) : FieldConfidence :=
  let raw_value := PyStr.strip captured in
  let numeric_value := _parse_amount raw_value in
  mkFieldConfidence (of_opt_float numeric_value)
    (match numeric_value with Some _ => 0.95 | None => 0.5 end)
    "text_regex" (Some raw_value).

Definition _extract_tax_breakup (text : string) : list (string * FieldConfidence) :=
  fold_left
    (fun fields '(field_name, pattern) =>
       match re_search_group1 pattern text IgnoreCaseMultiline with
       | Some captured => PyDict.set field_name (matched_tax_field captured) fields
       | None =>
           PyDict.set field_name (mkFieldConfidence (VFloat 0.0) 0.8 "default" None) fields
       end)
    TAX_PATTERNS [].

End Methods.

End TextExtractor.

(** ** Extraction pipeline ([extraction/pipeline.py]) *)

Module ExtractionResult.

Record t : Type := mk {
  success : bool;
  record : option ChallanRecord;
  error_message : option string;
  extraction_method : string;
  processing_time_ms : float;
  warnings : list string
}.

End ExtractionResult.

(** [s.replace(old, new)] for a non-empty [old]: [skip] counts the
    characters of a replaced occurrence still to pass over. *)
Fixpoint str_replace_from (old new : string) (skip : nat) (s : string) : string :=
  match s with
  | EmptyString => EmptyString
  | String c rest =>
      match skip with
      | S skip' => str_replace_from old new skip' rest
      | O =>
          if String.prefix old s
          then new ++ str_replace_from old new (String.length old - 1) rest
          else String c (str_replace_from old new 0 rest)
      end
  end.

Definition str_replace (old new s : string) : string := str_replace_from old new 0 s.

(** The OCR strategy object; [is_available] is what its method returns. *)
Record OCRExtractor : Type := mkOCRExtractor { is_available : bool }.

Record ExtractionPipeline : Type := mkExtractionPipeline {
  ocr_extractor : option OCRExtractor
}.

Definition REQUIRED_FIELDS : list string :=
  ["tan"; "cin"; "total_amount"; "date_of_deposit"; "challan_no"].

Definition FIELD_WEIGHTS : list (string * float) :=
  [("tan", 3.0%float); ("cin", 3.0%float); ("total_amount", 3.0%float);
   ("date_of_deposit", 2.0%float); ("challan_no", 2.0%float);
   ("deductor_name", 1.5%float); ("nature_of_payment", 1.5%float);
   ("bsr_code", 1.0%float)].

(** One turn of the loop of [_merge_fields] over [secondary.items()]. *)
Definition merge_step (merged : list (string * FieldConfidence))
    (item : string * FieldConfidence) : list (string * FieldConfidence) :=
  let '(field_name, sec_field) := item in
  match PyDict.get field_name merged with
  | None => PyDict.set field_name sec_field merged
  | Some pri_field =>
      if PyFloat.gt (confidence sec_field) (confidence pri_field) then
        PyDict.set field_name sec_field merged
      else if PyFloat.eq (confidence sec_field) (confidence pri_field) then
        (if (negb (PyVal.truthy (value pri_field)) && PyVal.truthy (value sec_field))%bool
         then PyDict.set field_name sec_field merged
         else merged)
      else merged
  end.

(** [ExtractionPipeline._merge_fields] *)
Definition _merge_fields (primary secondary : list (string * FieldConfidence))
    : list (string * FieldConfidence) :=
  fold_left merge_step secondary primary.

(** [ExtractionPipeline._calculate_completeness]; the list of required
    fields is not empty, so the early return is never taken. *)
Definition _calculate_completeness (fields : list (string * FieldConfidence)) : float :=
  let found :=
    List.length
      (List.filter
         (fun f =>
            match PyDict.get f fields with
            | Some fc => negb (PyVal.is_none (value fc))
            | None => false
            end)
         REQUIRED_FIELDS) in
  (PyFloat.of_Z (Z.of_nat found) / PyFloat.of_Z (Z.of_nat (List.length REQUIRED_FIELDS)))%float.

(** [ExtractionPipeline._calculate_row_confidence] *)
Definition _calculate_row_confidence (fields : list (string * FieldConfidence)) : float :=
  let '(total_weight, weighted_sum) :=
    fold_left
      (fun '(total_weight, weighted_sum) '(field_name, field) =>
         let weight :=
           match PyDict.get field_name FIELD_WEIGHTS with
           | Some w => w
           | None => 1.0%float
           end in
         ((total_weight + weight)%float,
          (weighted_sum + weight * confidence field)%float))
      fields (0.0%float, 0.0%float) in
  if PyFloat.eq total_weight 0 then 0.0%float
  else (weighted_sum / total_weight)%float.

(** The document handle and the libraries that read it. [open_pdf] is
    [pdfplumber.open(path).pages], [extract_text] the method of a page,
    [layout_extract] and [ocr_extract] the [extract] methods of the layout
    and OCR strategies, [path_name] the attribute [pdf_path.name]. *)
Class Documents : Type := mkDocuments {
  Path : Type;
  Page : Type;
  path_name : Path -> string;
  open_pdf : Path -> outcome (list Page);
  extract_text : Page -> outcome (option string);
  layout_extract : Path -> outcome (list (string * FieldConfidence));
  ocr_extract : Path -> outcome (list (string * FieldConfidence) * string * float)
}.

Section Pipeline.

Context `{Builtins} `{Regex} `{Documents}.

(** The module-level configuration object. *)
Variable validation_config : ValidationConfig.

(** [TextExtractor.extract]; the handler around its body re-raises. *)
Definition text_extract (pdf_path : Path)
    : outcome (list (string * FieldConfidence) * string) :=
  pages ← open_pdf pdf_path;
  match pages with
  | [] => Raised (mkException "ValueError" "PDF has no pages")
  | page :: _ =>
      extracted ← extract_text page;
      let text := match extracted with Some t => t | None => "" end in
      if negb (PyStr.truthy (PyStr.strip text)) then mret ([], "")
      else
        let fields := TextExtractor._extract_fields validation_config text in
        let tax_fields := TextExtractor._extract_tax_breakup text in
        mret (PyDict.update fields tax_fields, text)
  end.

Definition _try_text_extraction (pdf_path : Path)
    : outcome (list (string * FieldConfidence) * string) :=
  try_except (text_extract pdf_path) (fun _ => mret ([], "")).

Definition _try_layout_extraction (pdf_path : Path)
    : outcome (list (string * FieldConfidence)) :=
  try_except (layout_extract pdf_path) (fun _ => mret []).

Definition _try_ocr_extraction (pdf_path : Path)
    : outcome (list (string * FieldConfidence) * string * float) :=
  try_except (ocr_extract pdf_path) (fun _ => mret ([], "", 0.0%float)).

(** The helpers local to [_build_record]. *)
Definition get_value (fields : list (string * FieldConfidence)) (field_name : string)
    : PyVal :=
  match PyDict.get field_name fields with
  | Some fc => value fc
  | None => VNone
  end.

(** [float(z)] for an [int]: [OverflowError] beyond the float range. *)
Definition float_of_int (z : Z) : outcome float :=
  let x := PyFloat.of_Z z in
  if PrimFloat.is_infinity x
  then Raised (mkException "OverflowError" "int too large to convert to float")
  else mret x.

Definition get_float (fields : list (string * FieldConfidence)) (field_name : string)
    : outcome float :=
  match get_value fields field_name with
  | VNone => mret 0.0%float
  | VInt z => float_of_int z
  | VFloat x => mret x
  | VStr s =>
      let cleaned :=
        PyStr.strip (str_replace "Rs." "" (str_replace "â‚¹" "" (str_replace "," "" s))) in
      if PyStr.truthy cleaned then
        match float_of_str cleaned with
        | Some x => mret x
        | None => mret 0.0%float
        end
      else mret 0.0%float
  end.

Fixpoint first_format (val : string) (formats : list string) : option date :=
  match formats with
  | [] => None
  | fmt :: formats' =>
      match strptime val fmt with
      | Some d => Some d
      | None => first_format val formats'
      end
  end.

Definition parse_date (fields : list (string * FieldConfidence)) (field_name : string)
    : option date :=
  match get_value fields field_name with
  | VStr val =>
      match first_format val (date_formats validation_config) with
      | Some d => Some d
      | None => fromisoformat val
      end
  | _ => None
  end.

(** Validation of a constructor argument typed [Optional[str]]. *)
Definition optional_str (v : PyVal) : option (option string) :=
  match v with
  | VNone => Some None
  | VStr s => Some (Some s)
  | _ => None
  end.

Definition str_field_names : list string :=
  ["tan"; "deductor_name"; "assessment_year"; "financial_year"; "major_head";
   "minor_head"; "nature_of_payment"; "amount_in_words"; "cin"; "bsr_code";
   "challan_no"; "bank_name"; "bank_ref_no"; "mode_of_payment"].

(** The arguments of [ChallanRecord(...)] that are not optional strings. *)
Definition invalid_arguments (fields : list (string * FieldConfidence))
    : list (string * PyVal) :=
  List.filter
    (fun kv => match optional_str (snd kv) with Some _ => false | None => true end)
    (List.map (fun f => (f, get_value fields f)) str_field_names).

Definition str_arg (fields : list (string * FieldConfidence)) (field_name : string)
    : option string :=
  match optional_str (get_value fields field_name) with
  | Some o => o
  | None => None
  end.

(** [ExtractionPipeline._build_record] *)
Definition _build_record (fields : list (string * FieldConfidence)) (source_file : string)
    : outcome ChallanRecord :=
  a ← get_float fields "tax_a";
  b ← get_float fields "tax_b";
  c ← get_float fields "tax_c";
  d ← get_float fields "tax_d";
  e ← get_float fields "tax_e";
  f ← get_float fields "tax_f";
  let tax_breakup := mkTaxBreakup a b c d e f in
  amount ← get_float fields "total_amount";
  let date_of_deposit := parse_date fields "date_of_deposit" in
  let tender_date := parse_date fields "tender_date" in
  match invalid_arguments fields with
  | _ :: _ as bad => Raised (validation_error bad)
  | [] =>
      let record :=
        {| tan := str_arg fields "tan";
           deductor_name := str_arg fields "deductor_name";
           assessment_year := str_arg fields "assessment_year";
           financial_year := str_arg fields "financial_year";
           major_head := str_arg fields "major_head";
           minor_head := str_arg fields "minor_head";
           nature_of_payment := str_arg fields "nature_of_payment";
           total_amount := Some amount;
           amount_in_words := str_arg fields "amount_in_words";
           cin := str_arg fields "cin";
           bsr_code := str_arg fields "bsr_code";
           challan_no := str_arg fields "challan_no";
           date_of_deposit := date_of_deposit;
           tender_date := tender_date;
           bank_name := str_arg fields "bank_name";
           bank_ref_no := str_arg fields "bank_ref_no";
           mode_of_payment := str_arg fields "mode_of_payment";
           tax_breakup := tax_breakup;
           source_file := source_file;
           row_confidence := 0.0;
           validation_flag := PENDING;
           review_status := PENDING_REVIEW;
           notes := "";
           field_confidences := [];
           record_hash := None |} in
      mret (snd (compute_hash record))
  end.

(** The body of the [try] block of [process]. *)
Definition process_body (self : ExtractionPipeline) (pdf_path : Path)
    (start_time end_time : float) : outcome ExtractionResult.t :=
  '(text_fields, raw_text) ← _try_text_extraction pdf_path;
  let extraction_method := "text" in
  layout_fields ← _try_layout_extraction pdf_path;
  let merged_fields := _merge_fields text_fields layout_fields in
  let completeness := _calculate_completeness merged_fields in
  '(merged_fields, extraction_method, warnings) ←
    (if (PyFloat.lt completeness 0.7
         && match ocr_extractor self with
            | Some ocr => is_available ocr
            | None => false
            end)%bool
     then
       let warnings :=
         ["Low text extraction completeness (" ++
          PyFloat.format_2pct completeness ++ "), used OCR fallback"] in
       '(ocr_fields, ocr_text, ocr_conf) ← _try_ocr_extraction pdf_path;
       mret (_merge_fields merged_fields ocr_fields, "text+ocr", warnings)
     else mret (merged_fields, extraction_method, []));
  record ← _build_record merged_fields (path_name pdf_path);
  let record := set_row_confidence (_calculate_row_confidence merged_fields) record in
  let record := set_field_confidences merged_fields record in
  let processing_time := ((end_time - start_time) * 1000)%float in
  mret (ExtractionResult.mk true (Some record) None extraction_method
          processing_time warnings).

(** [ExtractionPipeline.process]; [start_time] and [end_time] are the two
    readings of the clock. *)
Definition process (self : ExtractionPipeline) (pdf_path : Path)
    (start_time end_time : float) : outcome ExtractionResult.t :=
  try_except (process_body self pdf_path start_time end_time)
    (fun e =>
       let processing_time := ((end_time - start_time) * 1000)%float in
       mret (ExtractionResult.mk false None (Some (exc_str e)) "failed"
               processing_time [])).

(** [process_batch], for the pipeline object it creates; each document
    has its own clock readings. *)
Fixpoint process_batch (self : ExtractionPipeline)
    (jobs : list (Path * float * float)) : outcome (list ExtractionResult.t) :=
  match jobs with
  | [] => mret []
  | (pdf_path, start_time, end_time) :: rest =>
      result ← process self pdf_path start_time end_time;
      results ← process_batch self rest;
      mret (result :: results)
  end.

End Pipeline.

(** ** Sorting ([sorted]) *)

Module PyList.

Section Sort.

Context {A : Type}.

(** [x] goes before the first element it is less than: elements that
    compare equal keep their order. *)
Fixpoint insert_by (lt : A -> A -> bool) (x : A) (l : list A) : list A :=
  match l with
  | [] => [x]
  | y :: l' => if lt x y then x :: l else y :: insert_by lt x l'
  end.

(** [sorted(l, key=...)], a stable sort, for keys that are totally
    ordered ([lt a b] is [key(a) < key(b)]). *)
Definition sorted_by (lt : A -> A -> bool) (l : list A) : list A :=
  fold_left (fun acc x => insert_by lt x acc) l [].

End Sort.

End PyList.

(** ** Layout strategy ([extraction/layout_extractor.py]) *)

(** [s.lower()] *)
Definition str_lower (s : string) : string := PyStr.map PyStr.to_lower s.

(** [s.split(sep, 1)[1]] for a one-character [sep] that occurs in [s]:
    what follows its first occurrence; [None] when [sep] is not in [s]. *)
Fixpoint after_first (sep : ascii) (s : string) : option string :=
  match s with
  | EmptyString => None
  | String c s' => if Ascii.eqb c sep then Some s' else after_first sep s'
  end.

Module LayoutExtractor.

Record TextBlock : Type := mkTextBlock {
  text : string;
  x0 : float;
  y0 : float;
  x1 : float;
  y1 : float;
  confidence : float
}.

(** [TextBlock(text=..., x0=..., y0=..., x1=..., y1=...)]: the confidence
    takes its default. *)
Definition new_block (text : string) (x0 y0 x1 y1 : float) : TextBlock :=
  mkTextBlock text x0 y0 x1 y1 1.0.

Definition LABEL_KEYWORDS : list (string * list string) :=
  [("tan", ["TAN"]);
   ("deductor_name", ["Name"]);
   ("assessment_year", ["Assessment Year"]);
   ("financial_year", ["Financial Year"]);
   ("major_head", ["Major Head"]);
   ("minor_head", ["Minor Head"]);
   ("nature_of_payment", ["Nature of Payment"]);
   ("total_amount", ["Amount (in Rs.)"; "Amount(in Rs.)"]);
   ("amount_in_words", ["Amount (in words)"; "Amount(in words)"]);
   ("cin", ["CIN"]);
   ("bsr_code", ["BSR code"; "BSR Code"]);
   ("challan_no", ["Challan No"; "Challan No."]);
   ("date_of_deposit", ["Date of Deposit"]);
   ("tender_date", ["Tender Date"]);
   ("bank_name", ["Bank Name"]);
   ("bank_ref_no", ["Bank Reference Number"]);
   ("mode_of_payment", ["Mode of Payment"])].

(** The order of the key [(b.y0, b.x0)]: the first components decide
    unless they are equal. *)
Definition lt_y0_x0 (a b : TextBlock) : bool :=
  if PyFloat.eq (y0 a) (y0 b) then PyFloat.lt (x0 a) (x0 b)
  else PyFloat.lt (y0 a) (y0 b).

Definition lt_x0 (a b : TextBlock) : bool := PyFloat.lt (x0 a) (x0 b).

(** The loop of [_group_into_lines] over the sorted blocks after the
    first. *)
Fixpoint group_loop (y_tolerance : float) (lines : list (list TextBlock))
    (current_line : list TextBlock) (current_y : float) (blocks : list TextBlock)
    : list (list TextBlock) :=
  match blocks with
  | [] =>
      match current_line with
      | [] => lines
      | _ :: _ => lines ++ [PyList.sorted_by lt_x0 current_line]
      end
  | block :: rest =>
      if PrimFloat.leb (PrimFloat.abs (y0 block - current_y)) y_tolerance
      then group_loop y_tolerance lines (current_line ++ [block]) current_y rest
      else group_loop y_tolerance (lines ++ [PyList.sorted_by lt_x0 current_line])
             [block] (y0 block) rest
  end%list.

(** [LayoutExtractor._group_into_lines], with its default tolerance when
    [y_tolerance] is [5]. *)
Definition _group_into_lines (blocks : list TextBlock) (y_tolerance : float)
    : list (list TextBlock) :=
  match PyList.sorted_by lt_y0_x0 blocks with
  | [] => []
  | first :: rest => group_loop y_tolerance [] [first] (y0 first) rest
  end.

(** [" ".join(b.text for b in line)] *)
Definition line_text (line : list TextBlock) : string :=
  PyStr.join " " (List.map text line).

(** Whether a text holds one of the label keywords, in any case. *)
Definition holds_keyword (s : string) : bool :=
  existsb (fun kw => PyStr.contains (str_lower kw) (str_lower s))
    (concat (List.map snd LABEL_KEYWORDS)).

(** The blocks of a line from the first one that holds a colon. *)
Fixpoint from_colon (line : list TextBlock) : option (TextBlock * list TextBlock) :=
  match line with
  | [] => None
  | block :: rest =>
      if PyStr.contains ":" (text block) then Some (block, rest) else from_colon rest
  end.

(** Strategy 1 of [_find_value_for_label] on the line of the label. *)
Definition value_after_colon (line : list TextBlock) : option TextBlock :=
  match from_colon line with
  | None => None
  | Some (colon_block, remaining) =>
      let after_colon :=
        match after_first ":" (text colon_block) with
        | Some s => s
        | None => ""
        end in
      if PyStr.truthy (PyStr.strip after_colon) then
        Some (new_block (PyStr.strip after_colon) (x0 colon_block) (y0 colon_block)
                (x1 colon_block) (y1 colon_block))
      else
        match remaining with
        | [] => None
        | first :: _ =>
            let value_text := line_text remaining in
            if PyStr.truthy (PyStr.strip value_text) then
              Some (new_block (PyStr.strip value_text) (x0 first) (y0 first)
                      (x1 (List.last remaining first)) (y1 (List.last remaining first)))
            else None
        end
  end.

(** Strategy 2: the next line, when it holds no label; [next_line[0]]
    raises [IndexError] on an empty line. *)
Definition value_on_next_line (next_line : list TextBlock) : outcome (option TextBlock) :=
  let next_text := line_text next_line in
  if negb (holds_keyword next_text) then
    match next_line with
    | [] => Raised (mkException "IndexError" "list index out of range")
    | first :: _ =>
        mret (Some (new_block (PyStr.strip next_text) (x0 first) (y0 first)
                      (x1 (List.last next_line first)) (y1 (List.last next_line first))))
    end
  else mret None.

(** [LayoutExtractor._find_value_for_label]; the list of all blocks it is
    also given is not read. *)
Fixpoint _find_value_for_label (label : string) (lines : list (list TextBlock))
    : outcome (option TextBlock) :=
  match lines with
  | [] => mret None
  | line :: rest =>
      if PyStr.contains (str_lower label) (str_lower (line_text line)) then
        match value_after_colon line with
        | Some value_block => mret (Some value_block)
        | None =>
            found ←
              match rest with
              | [] => mret None
              | next_line :: _ => value_on_next_line next_line
              end;
            match found with
            | Some value_block => mret (Some value_block)
            | None => _find_value_for_label label rest
            end
        end
      else _find_value_for_label label rest
  end.

(** The loop over the keywords of one field: the first keyword that has
    a value decides. *)
Fixpoint first_keyword_value (keywords : list string) (lines : list (list TextBlock))
    : outcome (option TextBlock) :=
  match keywords with
  | [] => mret None
  | keyword :: keywords' =>
      found ← _find_value_for_label keyword lines;
      match found with
      | Some value_block => mret (Some value_block)
      | None => first_keyword_value keywords' lines
      end
  end.

(** [LayoutExtractor._extract_fields_from_layout] *)
Fixpoint layout_fields_loop (labels : list (string * list string))
    (lines : list (list TextBlock)) (fields : list (string * FieldConfidence))
    : outcome (list (string * FieldConfidence)) :=
  match labels with
  | [] => mret fields
  | (field_name, label_keywords) :: labels' =>
      found ← first_keyword_value label_keywords lines;
      layout_fields_loop labels' lines
        match found with
        | Some value_block =>
            PyDict.set field_name
              (mkFieldConfidence (VStr (PyStr.strip (text value_block))) 0.85 "layout"
                 (Some (text value_block))) fields
        | None => fields
        end
  end.

Definition _extract_fields_from_layout (lines : list (list TextBlock))
    : outcome (list (string * FieldConfidence)) :=
  layout_fields_loop LABEL_KEYWORDS lines [].

Definition tax_labels : list (string * (string * string)) :=
  [("tax_a", ("A", "Tax")); ("tax_b", ("B", "Surcharge")); ("tax_c", ("C", "Cess"));
   ("tax_d", ("D", "Interest")); ("tax_e", ("E", "Penalty")); ("tax_f", ("F", "Fee"))].

Section Methods.

Context `{Builtins} `{Regex}.

(** One turn of the inner loop of [_extract_tax_table], for a line and a
    tax label. *)
Definition tax_table_step (line : list TextBlock)
    (fields : list (string * FieldConfidence)) (label : string * (string * string))
    : list (string * FieldConfidence) :=
  let '(field_name, (letter, word)) := label in
  if PyDict.contains field_name fields then fields
  else if (existsb (String.eqb letter) (List.map (fun b => PyStr.strip (text b)) line)
           || PyStr.contains (str_lower word) (str_lower (line_text line)))%bool then
    match re_search_group1 "[â‚¹Rs.\s]*([0-9,]+(?:\.\d{2})?)\s*$" (line_text line) NoFlags with
    | Some amount_str =>
        match float_of_str (str_replace "," "" amount_str) with
        | Some amount =>
            PyDict.set field_name
              (mkFieldConfidence (VFloat amount) 0.9 "layout_table" (Some amount_str)) fields
        | None => fields
        end
    | None => fields
    end
  else fields.

Definition tax_table_default (fields : list (string * FieldConfidence))
    (label : string * (string * string)) : list (string * FieldConfidence) :=
  if PyDict.contains (fst label) fields then fields
  else PyDict.set (fst label) (mkFieldConfidence (VFloat 0.0) 0.7 "default" None) fields.

(** [LayoutExtractor._extract_tax_table]; the list of all blocks it is
    also given is not read. *)
Definition _extract_tax_table (lines : list (list TextBlock))
    : list (string * FieldConfidence) :=
  let fields :=
    fold_left (fun fields line => fold_left (tax_table_step line) tax_labels fields)
      lines [] in
  fold_left tax_table_default tax_labels fields.

(** The part of [LayoutExtractor.extract] that follows the reading of the
    words of the page, from their blocks; a page without a word gives the
    empty map. *)
Definition extract_from_blocks (text_blocks : list TextBlock)
    : outcome (list (string * FieldConfidence)) :=
  match text_blocks with
  | [] => mret []
  | _ :: _ =>
      let lines := _group_into_lines text_blocks 5 in
      fields ← _extract_fields_from_layout lines;
      let tax_fields := _extract_tax_table lines in
      mret (PyDict.update fields tax_fields)
  end.

End Methods.

End LayoutExtractor.

(** ** OCR strategy ([extraction/ocr_extractor.py]) *)

Module OCRExtractor.

Section Methods.

Context `{Builtins} `{Regex}.

(** The three loops of [_extract_fields_from_ocr]. *)
Definition ocr_field (fields : list (string * FieldConfidence))
    (text : string) (item : string * string) : list (string * FieldConfidence) :=
  let '(field_name, pattern) := item in
  match re_search_group1 pattern text IgnoreCaseMultiline with
  | Some captured =>
      let raw_value := PyStr.strip captured in
      PyDict.set field_name (mkFieldConfidence (VStr raw_value) 0.7 "ocr" (Some raw_value))
        fields
  | None => fields
  end.

Definition ocr_tax_field (fields : list (string * FieldConfidence))
    (text : string) (item : string * string) : list (string * FieldConfidence) :=
  let '(field_name, pattern) := item in
  match re_search_group1 pattern text IgnoreCaseMultiline with
  | Some captured =>
      let raw_value := PyStr.strip captured in
      match float_of_str (str_replace "," "" raw_value) with
      | Some numeric =>
          PyDict.set field_name
            (mkFieldConfidence (VFloat numeric) 0.75 "ocr" (Some raw_value)) fields
      | None => fields
      end
  | None => fields
  end.

Definition ocr_tax_default (fields : list (string * FieldConfidence))
    (item : string * string) : list (string * FieldConfidence) :=
  let '(field_name, _) := item in
  if PyDict.contains field_name fields then fields
  else PyDict.set field_name (mkFieldConfidence (VFloat 0.0) 0.6 "ocr_default" None) fields.

(** [OCRExtractor._extract_fields_from_ocr]; the per-word data it is also
    given is not read. *)
Definition _extract_fields_from_ocr (text : string) : list (string * FieldConfidence) :=
  let fields := fold_left (fun fields => ocr_field fields text) TextExtractor.FIELD_PATTERNS [] in
  let fields := fold_left (fun fields => ocr_tax_field fields text) TextExtractor.TAX_PATTERNS fields in
  fold_left ocr_tax_default TextExtractor.TAX_PATTERNS fields.

End Methods.

End OCRExtractor.

(** ** Excel export ([models/challan.py], [export/excel_writer.py]) *)

(** [round(x, ndigits)] on a float. *)
Class Rounding : Type := mkRounding {
  py_round : float -> Z -> float
}.

(** The [value] of a member of the two string enumerations. *)
Definition ValidationStatus_value (s : ValidationStatus) : string :=
  match s with
  | OK => "OK"
  | FLAG => "FLAG"
  | PENDING => "PENDING"
  end.

Definition ReviewStatus_value (s : ReviewStatus) : string :=
  match s with
  | PENDING_REVIEW => "PENDING_REVIEW"
  | ACCEPTED => "ACCEPTED"
  | REJECTED => "REJECTED"
  | CORRECTED => "CORRECTED"
  end.

Definition ValidationStatus_eqb (a b : ValidationStatus) : bool :=
  String.eqb (ValidationStatus_value a) (ValidationStatus_value b).

Definition ReviewStatus_eqb (a b : ReviewStatus) : bool :=
  String.eqb (ReviewStatus_value a) (ReviewStatus_value b).

(** [x or 0.0] for an optional float: a zero and [None] give [0.0]. *)
Definition or_zero (o : option float) : float :=
  match o with
  | Some x => if PyFloat.eq x 0 then 0.0%float else x
  | None => 0.0%float
  end.

(** [ChallanRecord.to_excel_row] *)
Definition to_excel_row `{Rounding} (self : ChallanRecord) : list (string * PyVal) :=
  [("TAN", VStr (or_empty (tan self)));
   ("Deductor Name", VStr (or_empty (deductor_name self)));
   ("Assessment Year", VStr (or_empty (assessment_year self)));
   ("Financial Year", VStr (or_empty (financial_year self)));
   ("Major Head", VStr (or_empty (major_head self)));
   ("Minor Head", VStr (or_empty (minor_head self)));
   ("Nature of Payment", VStr (or_empty (nature_of_payment self)));
   ("Total Amount", VFloat (or_zero (total_amount self)));
   ("Amount in Words", VStr (or_empty (amount_in_words self)));
   ("CIN", VStr (or_empty (cin self)));
   ("BSR Code", VStr (or_empty (bsr_code self)));
   ("Challan No", VStr (or_empty (challan_no self)));
   ("Date of Deposit",
    VStr match date_of_deposit self with
         | Some d => PyDate.isoformat d
         | None => ""
         end);
   ("Bank Name", VStr (or_empty (bank_name self)));
   ("Bank Ref No", VStr (or_empty (bank_ref_no self)));
   ("Tax", VFloat (tax_a (tax_breakup self)));
   ("Surcharge", VFloat (tax_b (tax_breakup self)));
   ("Cess", VFloat (tax_c (tax_breakup self)));
   ("Interest", VFloat (tax_d (tax_breakup self)));
   ("Penalty", VFloat (tax_e (tax_breakup self)));
   ("Fee u/s 234E", VFloat (tax_f (tax_breakup self)));
   ("Source File", VStr (source_file self));
   ("Row Confidence", VFloat (py_round (row_confidence self) 4));
   ("Validation Flag", VStr (ValidationStatus_value (validation_flag self)));
   ("Notes", VStr (notes self))].

Definition EXCEL_COLUMNS : list string :=
  ["TAN"; "Deductor Name"; "Assessment Year"; "Financial Year"; "Major Head";
   "Minor Head"; "Nature of Payment"; "Total Amount"; "Amount in Words"; "CIN";
   "BSR Code"; "Challan No"; "Date of Deposit"; "Bank Name"; "Bank Ref No";
   "Tax_A"; "Tax_B"; "Tax_C"; "Tax_D"; "Tax_E"; "Tax_F";
   "Source File"; "Row Confidence"; "Validation Flag"; "Notes"].

(** A cell of a worksheet: its value, its number format when one is set,
    and the colour of its fill when one is set. *)
Record Cell : Type := mkCell {
  cell_value : PyVal;
  number_format : option string;
  fill : option string
}.

Definition PyVal_eqb_str (v : PyVal) (s : string) : bool :=
  match v with
  | VStr t => String.eqb t s
  | _ => false
  end.

Module ExcelWriter.

Definition header_fill : string := "4472C4".
Definition flag_fill : string := "FFC7CE".
Definition ok_fill : string := "C6EFCE".

Section Methods.

Context `{Rounding}.

(** The cell [_write_data_sheet] writes for a record under a header. *)
Definition data_cell (row_data : list (string * PyVal)) (header : string) : Cell :=
  let value :=
    match PyDict.get header row_data with
    | Some v => v
    | None => VStr ""
    end in
  {| cell_value := value;
     number_format :=
       if existsb (String.eqb header)
            ["Total Amount"; "Tax_A"; "Tax_B"; "Tax_C"; "Tax_D"; "Tax_E"; "Tax_F"]
       then Some "#,##0.00"
       else if String.eqb header "Row Confidence" then Some "0.00%"
       else None;
     fill :=
       if String.eqb header "Validation Flag"
       then (if PyVal_eqb_str value "FLAG" then Some flag_fill else Some ok_fill)
       else None |}.

(** [ExcelWriter._write_data_sheet]: the header row, then one row for each
    record; fonts, borders, column widths and the frozen pane are left
    out. *)
Definition _write_data_sheet (records : list ChallanRecord) : list (list Cell) :=
  List.map (fun header => mkCell (VStr header) None (Some header_fill)) EXCEL_COLUMNS ::
  List.map (fun record => List.map (data_cell (to_excel_row record)) EXCEL_COLUMNS) records.

(** The records of the sheet [Flagged Records]. *)
Definition flagged_records (records : list ChallanRecord) : list ChallanRecord :=
  List.filter (fun r => ValidationStatus_eqb (validation_flag r) FLAG) records.

(** The counts of the list [stats] of [_write_summary_sheet]. *)
Definition count_flag (flag : ValidationStatus) (records : list ChallanRecord) : Z :=
  Z.of_nat (List.length
              (List.filter (fun r => ValidationStatus_eqb (validation_flag r) flag) records)).

End Methods.

End ExcelWriter.

(** ** The processing loop of the applications
    ([process_pdfs] of [streamlit_app.py], [_process_files] of [api/main.py]) *)

Section Application.

Context `{Builtins} `{Regex} `{Documents}.

Variable validation_config : ValidationConfig.

(** One turn of the loop, on the validator, the records and the errors
    gathered so far. [fallback] is the message stored for a failed result
    that carries none: [Extraction failed] in the first application,
    [Unknown error] in the second. *)
Definition process_file (fallback : string) (today : date) (pipeline : ExtractionPipeline)
    (state : ChallanValidator * list ChallanRecord * list (string * string))
    (job : Path * float * float)
    : ChallanValidator * list ChallanRecord * list (string * string) :=
  let '(validator, records, errors) := state in
  let '(pdf_path, start_time, end_time) := job in
  let attempt :=
    result ← process validation_config pipeline pdf_path start_time end_time;
    match ExtractionResult.success result, ExtractionResult.record result with
    | true, Some record =>
        let '(validator, record, _) := validate today validator record in
        mret (validator, (records ++ [record])%list, errors)
    | _, _ =>
        let message :=
          if opt_truthy (ExtractionResult.error_message result)
          then or_empty (ExtractionResult.error_message result)
          else fallback in
        mret (validator, records, PyDict.set (path_name pdf_path) message errors)
    end in
  match attempt with
  | Returned state => state
  | Raised e => (validator, records, PyDict.set (path_name pdf_path) (exc_str e) errors)
  end.

(** The loop: a new validator, no record and no error to begin with. *)
Definition process_pdfs (fallback : string) (today : date) (pipeline : ExtractionPipeline)
    (jobs : list (Path * float * float)) : list ChallanRecord * list (string * string) :=
  let '(_, records, errors) :=
    fold_left (process_file fallback today pipeline) jobs
      (new_validator validation_config, [], []) in
  (records, errors).

End Application.

(** ** SHA-256 (FIPS 180-4) on byte strings *)

Module SHA256.

Definition mask : Z := Z.ones 32.

Definition add32 (a b : Z) : Z := Z.land (a + b) mask.

Definition rotr (n x : Z) : Z :=
  Z.lor (Z.shiftr x n) (Z.land (Z.shiftl x (32 - n)) mask).

Definition Ch (x y z : Z) : Z :=
  Z.lxor (Z.land x y) (Z.land (Z.lxor x mask) z).

Definition Maj (x y z : Z) : Z :=
  Z.lxor (Z.lxor (Z.land x y) (Z.land x z)) (Z.land y z).

Definition Sigma0 (x : Z) : Z := Z.lxor (Z.lxor (rotr 2 x) (rotr 13 x)) (rotr 22 x).
Definition Sigma1 (x : Z) : Z := Z.lxor (Z.lxor (rotr 6 x) (rotr 11 x)) (rotr 25 x).
Definition sigma0 (x : Z) : Z := Z.lxor (Z.lxor (rotr 7 x) (rotr 18 x)) (Z.shiftr x 3).
Definition sigma1 (x : Z) : Z := Z.lxor (Z.lxor (rotr 17 x) (rotr 19 x)) (Z.shiftr x 10).

Definition primes : list Z :=
  [2; 3; 5; 7; 11; 13; 17; 19; 23; 29; 31; 37; 41; 43; 47; 53; 59; 61; 67; 71; 73; 79;
   83; 89; 97; 101; 103; 107; 109; 113; 127; 131; 137; 139; 149; 151; 157; 163; 167;
   173; 179; 181; 191; 193; 197; 199; 211; 223; 227; 229; 233; 239; 241; 251; 257; 263;
   269; 271; 277; 281; 283; 293; 307; 311].

(** The largest [r' >= r] with [r' ^ k <= x] that adds to [r] bits below
    [2 ^ bit]. *)
Fixpoint root_bits (bit : nat) (k x r : Z) : Z :=
  match bit with
  | O => r
  | S bit' =>
      let r' := r + 2 ^ Z.of_nat bit' in
      root_bits bit' k x (if r' ^ k <=? x then r' else r)
  end.

(** The first 32 bits of the fractional part of the [k]-th root of [p]. *)
Definition root_fraction (k p : Z) : Z :=
  Z.land (root_bits 40 k (p * 2 ^ (32 * k)) 0) mask.

(** The round constants come from the cube roots of the first 64 primes,
    the initial hash value from the square roots of the first 8. *)
Definition K : list Z := List.map (root_fraction 3) primes.

Definition H0 : list Z := List.map (root_fraction 2) (firstn 8 primes).

(** The message followed by the bit 1, zero bytes up to 56 modulo 64, and
    its bit length on eight bytes. *)
Definition pad (message : list Z) : list Z :=
  let len := Z.of_nat (List.length message) in
  let zeros := Z.to_nat ((55 - len) mod 64) in
  let bits := 8 * len in
  (message ++ [128] ++ repeat 0 zeros ++
   List.map (fun i => Z.land (Z.shiftr bits (8 * (7 - Z.of_nat i))) 255) (seq 0 8))%list.

(** Big-endian words of four bytes. *)
Fixpoint words (bytes : list Z) : list Z :=
  match bytes with
  | a :: b :: c :: d :: rest =>
      (Z.shiftl a 24 + Z.shiftl b 16 + Z.shiftl c 8 + d) :: words rest
  | _ => []
  end.

(** The message schedule, newest word first. *)
Fixpoint extend (n : nat) (w : list Z) : list Z :=
  match n with
  | O => w
  | S n' =>
      extend n'
        (add32 (add32 (sigma1 (nth 1 w 0)) (nth 6 w 0))
               (add32 (sigma0 (nth 14 w 0)) (nth 15 w 0)) :: w)
  end.

Definition schedule (block : list Z) : list Z := rev (extend 48 (rev block)).

Definition round (s : list Z) (kw : Z * Z) : list Z :=
  match s with
  | [a; b; c; d; e; f; g; h] =>
      let t1 := add32 (add32 (add32 h (Sigma1 e)) (add32 (Ch e f g) (fst kw))) (snd kw) in
      let t2 := add32 (Sigma0 a) (Maj a b c) in
      [add32 t1 t2; a; b; c; add32 d t1; e; f; g]
  | _ => s
  end.

Definition compress (h : list Z) (block : list Z) : list Z :=
  List.map (fun p => add32 (fst p) (snd p))
    (combine h (fold_left round (combine K (schedule block)) h)).

Fixpoint blocks (n : nat) (ws : list Z) : list (list Z) :=
  match n with
  | O => []
  | S n' => firstn 16 ws :: blocks n' (skipn 16 ws)
  end.

Definition digest (message : list Z) : list Z :=
  let ws := words (pad message) in
  fold_left compress (blocks (List.length ws / 16) ws) H0.

Definition hex_digit (n : Z) : ascii :=
  ascii_of_nat (Z.to_nat (if n <? 10 then 48 + n else 87 + n)).

Definition hex_word (w : Z) : string :=
  string_of_list_ascii
    (List.map (fun i => hex_digit (Z.land (Z.shiftr w (4 * (7 - Z.of_nat i))) 15)) (seq 0 8)).

Definition bytes_of (s : string) : list Z :=
  List.map (fun c => Z.of_nat (nat_of_ascii c)) (list_ascii_of_string s).

(** [hashlib.sha256(s.encode()).hexdigest()] *)
Definition hexdigest (s : string) : string :=
  String.concat "" (List.map hex_word (digest (bytes_of s))).

End SHA256.

(** ** The shortest text that reads back as a float ([repr]) *)

Module FloatRepr.

(** [d * 10^q] compared with [n * 2^e]. *)
Definition cmp_dec_bin (d q n e : Z) : comparison :=
  (d * 10 ^ Z.max q 0 * 2 ^ Z.max (- e) 0 ?= n * 2 ^ Z.max e 0 * 10 ^ Z.max (- q) 0).

(** The least [k] from [k0] on with [m * 2^e < 10^k]. *)
Fixpoint decimal_point (fuel : nat) (k m e : Z) : Z :=
  match fuel with
  | O => k
  | S fuel' =>
      match cmp_dec_bin 1 k m e with
      | Gt => k
      | _ => decimal_point fuel' (k + 1) m e
      end
  end.

(** [floor (m * 2^e / 10^q)] *)
Definition floor_scaled (q m e : Z) : Z :=
  (m * 2 ^ Z.max e 0 * 10 ^ Z.max (- q) 0) / (2 ^ Z.max (- e) 0 * 10 ^ Z.max q 0).

(** Whether [c * 10^q] reads back as the float [m * 2^e]: it lies between
    the midpoints to its two neighbours, which count when [m] is even. *)
Definition reads_back (c q m e : Z) : bool :=
  let below := if ((m =? 2 ^ 52) && (-1074 <? e))%bool then 1 else 2 in
  (match cmp_dec_bin c q (4 * m - below) (e - 2) with
   | Gt => true
   | Eq => Z.even m
   | Lt => false
   end &&
   match cmp_dec_bin c q (4 * m + 2) (e - 2) with
   | Lt => true
   | Eq => Z.even m
   | Gt => false
   end)%bool.

(** The digits of the shortest decimal that reads back, tried with 1 to 17
    digits, and the position of its decimal point. *)
Fixpoint shortest (fuel : nat) (n k m e : Z) : Z * Z :=
  let q := k - n in
  let low := floor_scaled q m e in
  let high := low + 1 in
  let pick c := if c =? 10 ^ n then (1, k + 1) else (c, k) in
  match fuel with
  | O => pick low
  | S fuel' =>
      match reads_back low q m e, reads_back high q m e with
      | true, true =>
          match cmp_dec_bin (2 * low + 1) q (2 * m) e with
          | Gt => pick low
          | Lt => pick high
          | Eq => if Z.even low then pick low else pick high
          end
      | true, false => pick low
      | false, true => pick high
      | false, false => shortest fuel' (n + 1) k m e
      end
  end.

Fixpoint strip_zeros (fuel : nat) (c : Z) : Z :=
  match fuel with
  | O => c
  | S fuel' => if ((c mod 10 =? 0) && negb (c =? 0))%bool then strip_zeros fuel' (c / 10) else c
  end.

Definition zeros (n : Z) : string := string_of_list_ascii (repeat "0"%char (Z.to_nat n)).

(** The layout of [repr]: scientific notation when the decimal point lies
    more than 16 places right or 4 or more places left of the first digit. *)
Definition layout (digits : string) (k : Z) : string :=
  let n := Z.of_nat (String.length digits) in
  if ((16 <? k) || (k <? -3))%bool then
    let exponent := k - 1 in
    let mantissa :=
      match digits with
      | String d EmptyString => digits
      | String d rest => String d ("." ++ rest)
      | EmptyString => digits
      end in
    mantissa ++ "e" ++ (if exponent <? 0 then "-" else "+") ++
    (if Z.abs exponent <? 10 then "0" else "") ++ PyStr.of_Z (Z.abs exponent)
  else if k <=? 0 then "0." ++ zeros (- k) ++ digits
  else if n <=? k then digits ++ zeros (k - n) ++ ".0"
  else substring 0 (Z.to_nat k) digits ++ "." ++
       substring (Z.to_nat k) (Z.to_nat (n - k)) digits.

(** [repr(x)] *)
Definition repr (x : float) : string :=
  match Prim2SF x with
  | S754_nan => "nan"
  | S754_infinity s => if s then "-inf" else "inf"
  | S754_zero s => if s then "-0.0" else "0.0"
  | S754_finite s m e =>
      let estimate := (Z.log2 (Z.pos m) + e) * 30103 / 100000 - 1 in
      let k := decimal_point 4 estimate (Z.pos m) e in
      let '(c, k) := shortest 17 1 k (Z.pos m) e in
      (if s then "-" else "") ++ layout (PyStr.of_Z (strip_zeros 20 c)) k
  end.

End FloatRepr.

(** ** Reading a float from text ([float(s)]) *)

Module FloatParse.

Definition digit_value (c : ascii) : Z := Z.of_nat (nat_of_ascii c) - 48.

(** A run of digits in which single underscores may separate digits:
    its value, its number of digits and what follows it. [after_digit]
    tells whether the previous character was a digit. *)
Fixpoint digitpart (after_digit : bool) (acc count : Z) (s : string)
    : option (Z * Z * string) :=
  match s with
  | String c rest =>
      if PyStr.is_digit c then digitpart true (10 * acc + digit_value c) (count + 1) rest
      else if (Ascii.eqb c "_" && after_digit)%bool then
        match rest with
        | String d _ => if PyStr.is_digit d then digitpart false acc count rest else None
        | EmptyString => None
        end
      else if after_digit then Some (acc, count, s) else None
  | EmptyString => if after_digit then Some (acc, count, s) else None
  end.

Definition starts_with_digit (s : string) : bool :=
  match s with
  | String c _ => PyStr.is_digit c
  | EmptyString => false
  end.

(** [number]: the integer its digits spell, how many of them follow the
    point, and the rest. *)
Definition number (s : string) : option (Z * Z * string) :=
  match s with
  | String "." rest =>
      match digitpart false 0 0 rest with
      | Some (v, n, rest') => Some (v, n, rest')
      | None => None
      end
  | _ =>
      match digitpart false 0 0 s with
      | Some (v, _, String "." rest) =>
          if starts_with_digit rest then
            match digitpart false v 0 rest with
            | Some (v', n, rest') => Some (v', n, rest')
            | None => None
            end
          else Some (v, 0, rest)
      | Some (v, _, rest) => Some (v, 0, rest)
      | None => None
      end
  end.

(** [exponent], when there is one. *)
Definition exponent (s : string) : option (Z * string) :=
  match s with
  | String c rest =>
      if (Ascii.eqb c "e" || Ascii.eqb c "E")%bool then
        let '(negative, rest) :=
          match rest with
          | String "-" r => (true, r)
          | String "+" r => (false, r)
          | _ => (false, rest)
          end in
        match digitpart false 0 0 rest with
        | Some (v, _, rest') => Some (if negative then - v else v, rest')
        | None => None
        end
      else Some (0, s)
  | EmptyString => Some (0, s)
  end.

(** The binary64 number nearest to [i * 10^e10], ties to even. *)
Definition round_decimal (negative : bool) (i e10 : Z) : float :=
  if i =? 0 then (if negative then (-0)%float else 0%float)
  else
    let digits := Z.log2 i * 30103 / 100000 + 1 in
    if 310 <? digits + e10 - 1 then (if negative then neg_infinity else infinity)
    else if digits + e10 + 1 <? -330 then (if negative then (-0)%float else 0%float)
    else if 0 <=? e10 then
      SF2Prim (binary_normalize prec emax (if negative then - (i * 10 ^ e10) else i * 10 ^ e10)
                 0 false)
    else
      let '(q, e, loc) := SFdiv_core_binary prec emax i 0 (10 ^ (- e10)) 0 in
      SF2Prim (binary_round_aux prec emax negative q e loc).

Definition lower : string -> string := PyStr.map PyStr.to_lower.

(** [float(s)]; [None] stands for [ValueError]. *)
Definition float_of_str (s : string) : option float :=
  let s := PyStr.strip s in
  let '(negative, s) :=
    match s with
    | String "-" r => (true, r)
    | String "+" r => (false, r)
    | _ => (false, s)
    end in
  if (String.eqb (lower s) "inf" || String.eqb (lower s) "infinity")%bool
  then Some (if negative then neg_infinity else infinity)
  else if String.eqb (lower s) "nan" then Some nan
  else
    match number s with
    | Some (i, decimals, rest) =>
        match exponent rest with
        | Some (x, EmptyString) => Some (round_decimal negative i (x - decimals))
        | _ => None
        end
    | None => None
    end.

End FloatParse.

(** ** Reading a date under a format ([datetime.strptime])

    The directives of the configured formats are covered: [%d], [%m], [%Y],
    [%b], [%B] and [%%], with the month names of the C locale. The format
    is matched as the regular expression [_strptime] builds from it, case
    ignored: alternatives are tried in its order, and the first match must
    use up the text. *)

Module Strptime.

Inductive directive : Type :=
| Lit (c : ascii)
| Spaces
| Day
| Month
| Year
| MonthAbbr
| MonthName.

(** The directives of a format; [None] for one that is not covered. *)
Fixpoint directives (after_space : bool) (fmt : string) : option (list directive) :=
  match fmt with
  | EmptyString => Some []
  | String "%" (String c rest) =>
      let d :=
        if Ascii.eqb c "d" then Some Day
        else if Ascii.eqb c "m" then Some Month
        else if Ascii.eqb c "Y" then Some Year
        else if Ascii.eqb c "b" then Some MonthAbbr
        else if Ascii.eqb c "B" then Some MonthName
        else if Ascii.eqb c "%" then Some (Lit "%")
        else None in
      match d, directives false rest with
      | Some d, Some ds => Some (d :: ds)
      | _, _ => None
      end
  | String "%" EmptyString => None
  | String c rest =>
      if PyStr.is_space c then
        (if after_space then directives true rest
         else match directives true rest with
              | Some ds => Some (Spaces :: ds)
              | None => None
              end)
      else
        match directives false rest with
        | Some ds => Some (Lit c :: ds)
        | None => None
        end
  end.

Record fields : Type := mkFields { f_year : Z; f_month : Z; f_day : Z }.

Definition month_names : list string :=
  ["january"; "february"; "march"; "april"; "may"; "june"; "july"; "august";
   "september"; "october"; "november"; "december"].

Definition digit (c : ascii) : Z := Z.of_nat (nat_of_ascii c) - 48.

Definition in_range (lo hi : ascii) (c : ascii) : bool :=
  (Nat.leb (nat_of_ascii lo) (nat_of_ascii c) && Nat.leb (nat_of_ascii c) (nat_of_ascii hi))%bool.

(** The text after a prefix, compared without case. *)
Fixpoint after_prefix (p s : string) : option string :=
  match p, s with
  | EmptyString, _ => Some s
  | String a p', String b s' =>
      if Ascii.eqb (PyStr.to_lower a) (PyStr.to_lower b) then after_prefix p' s' else None
  | _, EmptyString => None
  end.

(** The names, numbered from [i], that start the text. *)
Fixpoint named_months (shorten : bool) (i : Z) (names : list string) (s : string)
    : list (Z * string) :=
  match names with
  | [] => []
  | name :: names' =>
      match after_prefix (if shorten then substring 0 3 name else name) s with
      | Some rest => (i, rest) :: named_months shorten (i + 1) names' s
      | None => named_months shorten (i + 1) names' s
      end
  end.

(** The suffixes left by a run of one or more spaces, the longest run first. *)
Fixpoint after_spaces (s : string) : list string :=
  match s with
  | String c rest => if PyStr.is_space c then (after_spaces rest ++ [rest])%list else []
  | EmptyString => []
  end.

(** The ways a directive can match at the start of the text, in the order
    its expression tries them: the fields it sets and what is left. *)
Definition alternatives (d : directive) (acc : fields) (s : string) : list (fields * string) :=
  let set_day v := mkFields (f_year acc) (f_month acc) v in
  let set_month v := mkFields (f_year acc) v (f_day acc) in
  match d with
  | Lit c =>
      match s with
      | String c' rest =>
          if Ascii.eqb (PyStr.to_lower c) (PyStr.to_lower c') then [(acc, rest)] else []
      | EmptyString => []
      end
  | Spaces => List.map (fun rest => (acc, rest)) (after_spaces s)
  | Day =>
      (match s with
       | String a (String b rest) =>
           (if (Ascii.eqb a "3" && in_range "0" "1" b)%bool
            then [(set_day (30 + digit b), rest)] else []) ++
           (if (in_range "1" "2" a && PyStr.is_digit b)%bool
            then [(set_day (10 * digit a + digit b), rest)] else []) ++
           (if (Ascii.eqb a "0" && in_range "1" "9" b)%bool
            then [(set_day (digit b), rest)] else [])
       | _ => []
       end ++
       match s with
       | String a rest => if in_range "1" "9" a then [(set_day (digit a), rest)] else []
       | EmptyString => []
       end ++
       match s with
       | String " " (String b rest) =>
           if in_range "1" "9" b then [(set_day (digit b), rest)] else []
       | _ => []
       end)%list
  | Month =>
      (match s with
       | String a (String b rest) =>
           (if (Ascii.eqb a "1" && in_range "0" "2" b)%bool
            then [(set_month (10 + digit b), rest)] else []) ++
           (if (Ascii.eqb a "0" && in_range "1" "9" b)%bool
            then [(set_month (digit b), rest)] else [])
       | _ => []
       end ++
       match s with
       | String a rest => if in_range "1" "9" a then [(set_month (digit a), rest)] else []
       | EmptyString => []
       end)%list
  | Year =>
      match s with
      | String a (String b (String c (String d rest))) =>
          if (PyStr.is_digit a && PyStr.is_digit b && PyStr.is_digit c && PyStr.is_digit d)%bool
          then [(mkFields (1000 * digit a + 100 * digit b + 10 * digit c + digit d)
                   (f_month acc) (f_day acc), rest)]
          else []
      | _ => []
      end
  | MonthAbbr =>
      List.map (fun ir => (set_month (fst ir), snd ir)) (named_months true 1 month_names s)
  | MonthName =>
      List.map (fun ir => (set_month (fst ir), snd ir)) (named_months false 1 month_names s)
  end.

(** The first match of the directives, alternatives tried in order. *)
Fixpoint first_match (ds : list directive) (acc : fields) (s : string)
    : option (fields * string) :=
  match ds with
  | [] => Some (acc, s)
  | d :: ds' =>
      (fix try (alts : list (fields * string)) : option (fields * string) :=
         match alts with
         | [] => None
         | (acc', rest) :: alts' =>
             match first_match ds' acc' rest with
             | Some r => Some r
             | None => try alts'
             end
         end) (alternatives d acc s)
  end.

(** The date of [datetime.strptime(s, fmt)]; [None] stands for
    [ValueError]. *)
Definition strptime (s fmt : string) : option date :=
  match directives false fmt with
  | Some ds =>
      match first_match ds (mkFields 1900 1 1) s with
      | Some (f, EmptyString) =>
          let d := mkDate (f_year f) (f_month f) (f_day f) in
          if PyDate.valid d then Some d else None
      | _ => None
      end
  | None => None
  end.

(** [datetime.fromisoformat(s)] for the date-only form [YYYY-MM-DD]. *)
Definition fromisoformat (s : string) : option date :=
  match list_ascii_of_string s with
  | [a; b; c; d; "-"%char; e; f; "-"%char; g; h] =>
      if forallb PyStr.is_digit [a; b; c; d; e; f; g; h] then
        let r := mkDate (1000 * digit a + 100 * digit b + 10 * digit c + digit d)
                        (10 * digit e + digit f) (10 * digit g + digit h) in
        if PyDate.valid r then Some r else None
      else None
  | _ => None
  end.

End Strptime.

(** ** The built-ins, computed

    The instance the closed examples run on. *)

Module Reference.

(** The heading line of the message of a pydantic validation error. *)
Definition pydantic_error (args : list (string * PyVal)) : PyException :=
  let n := Z.of_nat (List.length args) in
  mkException "ValidationError"
    (PyStr.of_Z n ++ " validation error" ++ (if n =? 1 then "" else "s") ++
     " for ChallanRecord").

Definition python : Builtins :=
  {| sha256_hexdigest := SHA256.hexdigest;
     float_repr := FloatRepr.repr;
     float_of_str := FloatParse.float_of_str;
     strptime := Strptime.strptime;
     fromisoformat := Strptime.fromisoformat;
     validation_error := pydantic_error |}.

End Reference.

(** ** [round], computed *)

Module FloatRound.

(** [round(x, ndigits)] for [0 <= ndigits]: the decimal number with
    [ndigits] digits after the point that is nearest to [x], ties to
    even, read back as a float; zeros, infinities and NaN are kept. *)
Definition round (x : float) (ndigits : Z) : float :=
  match Prim2SF x with
  | S754_finite s m e => FloatParse.round_decimal s (PyFloat.scaled ndigits m e) (- ndigits)
  | _ => x
  end.

End FloatRound.

Definition python_rounding : Rounding := {| py_round := FloatRound.round |}.

(** ** Vocabulary of the properties *)

(** The components of what [validate] returns. *)
Definition validator_after (out : ChallanValidator * ChallanRecord * ValidationResult)
    : ChallanValidator := fst (fst out).
Definition record_after (out : ChallanValidator * ChallanRecord * ValidationResult)
    : ChallanRecord := snd (fst out).
Definition result_of (out : ChallanValidator * ChallanRecord * ValidationResult)
    : ValidationResult := snd out.

(** A result object that holds no issue yet, and the issues a rule adds to it. *)
Definition blank_result : ValidationResult := mkValidationResult "" true [] [] [].

Definition emitted (rule : ValidationResult -> ValidationResult) : list ValidationIssue :=
  issues (rule blank_result).

(** The issues of severity [error] in a list. *)
Definition errors_in (l : list ValidationIssue) : list ValidationIssue :=
  List.filter is_error l.

(** [abs(tax_sum - total_amount)], the quantity the sum check compares. *)
Definition sum_difference (record : ChallanRecord) (amount : float) : float :=
  PrimFloat.abs (total (tax_breakup record) - amount).

(** The issue a failed sum check appends. *)
Definition sum_mismatch_issue (record : ChallanRecord) (amount : float) : ValidationIssue :=
  mkValidationIssue "tax_breakup" "sum_mismatch"
    (sum_mismatch_message (total (tax_breakup record)) amount (sum_difference record amount))
    "error".

(** The text [validate] writes into the notes for a list of issues. *)
Definition notes_text (l : list ValidationIssue) : string :=
  PyStr.join "; " (List.map issue_text l).

Section RuleVocabulary.

Context `{Builtins}.

(** The digest prefix [compute_hash] returns for a record. *)
Definition hash_of (record : ChallanRecord) : string := fst (compute_hash record).

(** The issue [_check_duplicate] appends for a hash that was seen. *)
Definition duplicate_issue (record_hash : string) : ValidationIssue :=
  mkValidationIssue "record" "duplicate"
    ("Duplicate record detected (hash: " ++ record_hash ++ ")") "error".

(** What [_check_duplicate] adds for a record, given the hashes seen. *)
Definition duplicate_issues (self : ChallanValidator) (record : ChallanRecord)
    : list ValidationIssue :=
  if bool_decide (hash_of record ∈ _seen_hashes self)
  then [duplicate_issue (hash_of record)]
  else [].

(** What the six rules before the duplicate check add, in order. *)
Definition rule_issues (today : date) (self : ChallanValidator) (record : ChallanRecord)
    : list ValidationIssue :=
  (emitted (_validate_tan self record) ++ emitted (_validate_cin self record) ++
   emitted (_validate_amounts self record) ++ emitted (_validate_sum_check self record) ++
   emitted (_validate_dates today self record) ++
   emitted (_validate_required_fields self record))%list.

(** The issues of the amount rule. *)
Definition missing_amount_issue : ValidationIssue :=
  mkValidationIssue "total_amount" "missing" "Total amount is missing" "error".

Definition negative_amount_issue (amount : float) : ValidationIssue :=
  mkValidationIssue "total_amount" "invalid"
    ("Negative total amount: " ++ float_repr amount) "error".

Definition zero_amount_issue : ValidationIssue :=
  mkValidationIssue "total_amount" "suspicious" "Total amount is zero" "warning".

(** The issues of every rule except the amount rule. *)
Definition other_rule_issues (today : date) (self : ChallanValidator)
    (record : ChallanRecord) : list ValidationIssue :=
  (emitted (_validate_tan self record) ++ emitted (_validate_cin self record) ++
   emitted (_validate_sum_check self record) ++
   emitted (_validate_dates today self record) ++
   emitted (_validate_required_fields self record) ++
   duplicate_issues self record)%list.

End RuleVocabulary.

(** The field the merge keeps when both maps hold one, as the loop body of
    [_merge_fields] decides it. *)
Definition prefer (pri_field sec_field : FieldConfidence) : FieldConfidence :=
  if PyFloat.gt (confidence sec_field) (confidence pri_field) then sec_field
  else if PyFloat.eq (confidence sec_field) (confidence pri_field) then
    (if (negb (PyVal.truthy (value pri_field)) && PyVal.truthy (value sec_field))%bool
     then sec_field else pri_field)
  else pri_field.

(** A value is empty when Python takes it for false. *)
Definition is_empty (v : PyVal) : bool := negb (PyVal.truthy v).

(** ** Records of the examples *)

(** Two records whose identifying triples differ and whose digest inputs
    coincide. *)
Definition split_ab_1 : ChallanRecord :=
  {| tan := None; deductor_name := None; assessment_year := None;
   financial_year := None; major_head := None; minor_head := None;
   nature_of_payment := None; total_amount := None; amount_in_words := None;
   cin := Some "AB"; bsr_code := None; challan_no := Some "1"; date_of_deposit := None;
   tender_date := None; bank_name := None; bank_ref_no := None;
   mode_of_payment := None; tax_breakup := TaxBreakup_default;
   source_file := ""; row_confidence := 0; validation_flag := PENDING;
   review_status := PENDING_REVIEW; notes := ""; field_confidences := [];
   record_hash := None |}.

Definition split_a_b1 : ChallanRecord :=
  {| tan := None; deductor_name := None; assessment_year := None;
   financial_year := None; major_head := None; minor_head := None;
   nature_of_payment := None; total_amount := None; amount_in_words := None;
   cin := Some "A"; bsr_code := None; challan_no := Some "B1"; date_of_deposit := None;
   tender_date := None; bank_name := None; bank_ref_no := None;
   mode_of_payment := None; tax_breakup := TaxBreakup_default;
   source_file := ""; row_confidence := 0; validation_flag := PENDING;
   review_status := PENDING_REVIEW; notes := ""; field_confidences := [];
   record_hash := None |}.

(** The first sample record of the test-suite. *)
Definition sample_record_1 : ChallanRecord :=
  {| tan := Some "BLRS05586H";
     deductor_name := Some "SYAMBHAVAN FOODS LLP";
     assessment_year := Some "2026-27";
     financial_year := Some "2025-26";
     major_head := Some "Corporation Tax (0020)";
     minor_head := Some "TDS/TCS Payable by Taxpayer (200)";
     nature_of_payment := Some "94J";
     total_amount := Some 19395.0%float;
     amount_in_words := Some "Rupees Nineteen Thousand Three Hundred And Ninety Five Only";
     cin := Some "25100700517216HDFC";
     bsr_code := Some "0510016";
     challan_no := Some "12866";
     date_of_deposit := Some (mkDate 2025 10 7);
     tender_date := None;
     bank_name := Some "HDFC Bank";
     bank_ref_no := Some "N2528040495795";
     mode_of_payment := None;
     tax_breakup := mkTaxBreakup 19395.0 0 0 0 0 0;
     source_file := "25100700517216HDFC_ChallanReceipt- Input Command Challan.pdf";
     row_confidence := 0.95;
     validation_flag := OK;
     review_status := PENDING_REVIEW;
     notes := "";
     field_confidences := [];
     record_hash := None |}.

(** The sample record with another total amount and principal tax. *)
Definition with_amounts (amount tax : float) (r : ChallanRecord) : ChallanRecord :=
  {| tan := tan r; deductor_name := deductor_name r;
     assessment_year := assessment_year r; financial_year := financial_year r;
     major_head := major_head r; minor_head := minor_head r;
     nature_of_payment := nature_of_payment r; total_amount := Some amount;
     amount_in_words := amount_in_words r; cin := cin r; bsr_code := bsr_code r;
     challan_no := challan_no r; date_of_deposit := date_of_deposit r;
     tender_date := tender_date r; bank_name := bank_name r;
     bank_ref_no := bank_ref_no r; mode_of_payment := mode_of_payment r;
     tax_breakup := mkTaxBreakup tax 0 0 0 0 0; source_file := source_file r;
     row_confidence := row_confidence r; validation_flag := validation_flag r;
     review_status := review_status r; notes := notes r;
     field_confidences := field_confidences r; record_hash := record_hash r |}.

(** The day the examples are validated on. *)
Definition example_today : date := mkDate 2026 11 3.

(** ** Vocabulary of the further properties *)

(** The (field, type, severity) triple of an issue, and the triples the
    rules can emit. *)
Definition kind_of (i : ValidationIssue) : string * string * string :=
  (field i, issue_type i, severity i).

Definition issue_kinds : list (string * string * string) :=
  [("tan", "missing", "error"); ("tan", "format", "error");
   ("cin", "missing", "error"); ("cin", "format", "warning");
   ("total_amount", "missing", "error"); ("total_amount", "invalid", "error");
   ("total_amount", "suspicious", "warning");
   ("tax_breakup", "sum_mismatch", "error");
   ("date_of_deposit", "missing", "error"); ("date_of_deposit", "future_date", "warning");
   ("date_of_deposit", "old_date", "warning");
   ("challan_no", "missing", "warning"); ("bsr_code", "missing", "warning");
   ("bank_name", "missing", "warning"); ("deductor_name", "missing", "warning");
   ("record", "duplicate", "error")].

(** A record as [validate] leaves it. *)
Definition is_validated `{Builtins} (record : ChallanRecord) : Prop :=
  validation_flag record <> PENDING /\ record_hash record = Some (hash_of record).

(** How many of the required fields a map holds with a value, as
    [_calculate_completeness] counts them. *)
Definition required_found (fields : list (string * FieldConfidence)) : nat :=
  List.length
    (List.filter
       (fun f =>
          match PyDict.get f fields with
          | Some fc => negb (PyVal.is_none (value fc))
          | None => false
          end)
       REQUIRED_FIELDS).

(** A confidence the model [FieldConfidence] accepts: [0 <= c <= 1]. *)
Definition in_unit_range (c : float) : bool :=
  (PrimFloat.leb 0 c && PrimFloat.leb c 1)%bool.

(** The entry [_extract_tax_breakup] stores for a component it did not
    find. *)
Definition tax_default : FieldConfidence :=
  mkFieldConfidence (VFloat 0.0) 0.8 "default" None.

Definition tax_fields : list string :=
  ["tax_a"; "tax_b"; "tax_c"; "tax_d"; "tax_e"; "tax_f"].

(** A text made of characters that all satisfy [p]. *)
Fixpoint all_chars (p : ascii -> bool) (s : string) : bool :=
  match s with
  | EmptyString => true
  | String c s' => (p c && all_chars p s')%bool
  end.

(** A character of the integer part of an amount: a digit or a comma. *)
Definition is_amount_char (c : ascii) : bool :=
  (PyStr.is_digit c || Ascii.eqb c ",")%bool.

(** The values the three strategies store: a string or nothing in a field
    that the record types [Optional[str]], and never an [int]. *)
Definition field_typed (kv : string * FieldConfidence) : bool :=
  match value (snd kv) with
  | VNone | VStr _ => true
  | VFloat _ => negb (existsb (String.eqb (fst kv)) str_field_names)
  | VInt _ => false
  end.

Definition fields_typed (fields : list (string * FieldConfidence)) : bool :=
  forallb field_typed fields.

(** What the OCR strategy and the layout strategy store: a float in a
    tax component, a string in every other field. *)
Definition ocr_entry (kv : string * FieldConfidence) : Prop :=
  field_typed kv = true /\
  In (confidence (snd kv)) [0.7; 0.75; 0.6]%float /\
  (In (fst kv) tax_fields -> exists x, value (snd kv) = VFloat x) /\
  (~ In (fst kv) tax_fields -> exists s, value (snd kv) = VStr s).

Definition layout_entry (kv : string * FieldConfidence) : Prop :=
  field_typed kv = true /\
  In (confidence (snd kv)) [0.85; 0.9; 0.7]%float /\
  (In (fst kv) tax_fields -> exists x, value (snd kv) = VFloat x) /\
  (~ In (fst kv) tax_fields -> exists s, value (snd kv) = VStr s).

(** The record [_build_record] makes of an empty field map. *)
Definition blank_record `{Builtins} (source_file : string) : ChallanRecord :=
  snd (compute_hash
         {| tan := None; deductor_name := None; assessment_year := None;
            financial_year := None; major_head := None; minor_head := None;
            nature_of_payment := None; total_amount := Some 0.0%float;
            amount_in_words := None; cin := None; bsr_code := None;
            challan_no := None; date_of_deposit := None; tender_date := None;
            bank_name := None; bank_ref_no := None; mode_of_payment := None;
            tax_breakup := TaxBreakup_default; source_file := source_file;
            row_confidence := 0.0; validation_flag := PENDING;
            review_status := PENDING_REVIEW; notes := ""; field_confidences := [];
            record_hash := None |}).

(** Whether [process] turns to the OCR strategy when the completeness is
    low: the strategy is there and reports itself available. *)
Definition ocr_ready (self : ExtractionPipeline) : bool :=
  match ocr_extractor self with
  | Some ocr => is_available ocr
  | None => false
  end.

(** The cell of a sheet at a row and a column, both counted from 0. *)
Definition sheet_cell (sheet : list (list Cell)) (row column : nat) : option Cell :=
  match sheet !! row with
  | Some cells => cells !! column
  | None => None
  end.

Definition tax_headers : list string :=
  ["Tax_A"; "Tax_B"; "Tax_C"; "Tax_D"; "Tax_E"; "Tax_F"].

(** The names of the documents of a list of jobs. *)
Definition job_names `{Documents} (jobs : list (Path * float * float)) : list string :=
  List.map (fun job => path_name (fst (fst job))) jobs.

(** A record that differs from another in its hash, its flag and its
    notes at most, the three attributes [validate] assigns. *)
Definition assigned (after before : ChallanRecord) : Prop :=
  exists h f n, after = set_notes n (set_validation_flag f (set_record_hash h before)).

(** ** Documents of the examples *)

(** The text of a challan page. *)
Definition sample_lines : list string :=
  ["TAN : BLRS05586H"; "Name : SYAMBHAVAN FOODS LLP"; "Assessment Year : 2026-27";
   "Nature of Payment : 94J"; "Amount (in Rs.) : ₹ 19,395"; "CIN : 25100700517216HDFC";
   "BSR code : 0510016"; "Challan No : 12866"; "Date of Deposit : 07-Oct-2025";
   "Bank Name : HDFC Bank"; "A Tax ₹ 19,395"; "B Surcharge ₹ 0"].

Definition sample_text : string := PyStr.join (String "010"%char "") sample_lines.

(** What the patterns of the text strategy capture in [sample_text], by
    field; the other patterns do not match it. *)
Definition sample_captures : list (string * string) :=
  [("tan", "BLRS05586H");
   ("deductor_name", "SYAMBHAVAN FOODS LLP");
   ("assessment_year", "2026-27");
   ("nature_of_payment", "94J");
   ("total_amount", "19,395");
   ("cin", "25100700517216HDFC");
   ("bsr_code", "0510016");
   ("challan_no", "12866");
   ("date_of_deposit", "07-Oct-2025");
   ("bank_name", "HDFC Bank");
   ("tax_a", "19,395");
   ("tax_b", "0")].

(** The searches of the examples: those of the field patterns in
    [sample_text]. *)
Definition sample_search (pattern text : string) (flags : re_flags) : option string :=
  match flags with
  | IgnoreCaseMultiline =>
      if String.eqb text sample_text then
        match List.find (fun kv => String.eqb (snd kv) pattern)
                (TextExtractor.FIELD_PATTERNS ++ TextExtractor.TAX_PATTERNS)%list with
        | Some (field_name, _) => PyDict.get field_name sample_captures
        | None => None
        end
      else None
  | NoFlags => None
  end.

Definition example_regex : Regex := {| re_search_group1 := sample_search |}.

(** What a layout strategy found on the page. *)
Definition sample_layout_fields : list (string * FieldConfidence) :=
  [("tan", mkFieldConfidence (VStr "BLRS05586H") 0.85 "layout" (Some "BLRS05586H"));
   ("bank_name", mkFieldConfidence (VStr "HDFC Bank") 0.85 "layout" (Some " HDFC Bank"));
   ("tax_a", mkFieldConfidence (VFloat 19395) 0.9 "layout_table" (Some "19,395"));
   ("tax_b", mkFieldConfidence (VFloat 0) 0.7 "default" None)].

(** Two documents: [scan.pdf] has the page above, [missing.pdf] cannot be
    opened; the OCR libraries are not installed. *)
Definition not_found : PyException :=
  mkException "FileNotFoundError" "[Errno 2] No such file or directory: 'missing.pdf'".

Definition example_documents : Documents :=
  {| Path := string;
     Page := string;
     path_name := fun pdf_path => pdf_path;
     open_pdf := fun pdf_path =>
       if String.eqb pdf_path "missing.pdf" then Raised not_found
       else Returned [sample_text];
     extract_text := fun page => Returned (Some page);
     layout_extract := fun pdf_path =>
       if String.eqb pdf_path "missing.pdf" then Raised not_found
       else Returned sample_layout_fields;
     ocr_extract := fun _ =>
       Raised (mkException "RuntimeError" "OCR dependencies not available") |}.

Definition example_pipeline : ExtractionPipeline := mkExtractionPipeline None.

(** A page on which the amount and the date of deposit are there and
    cannot be read. *)
Definition garbled_text : string :=
  PyStr.join (String "010"%char "")
    ["Amount (in Rs.) : ,"; "Date of Deposit : 07/Oct/2025"].

(** What the patterns of the text strategy capture in [garbled_text]; the
    other patterns do not match it. *)
Definition garbled_captures : list (string * string) :=
  [("total_amount", ","); ("date_of_deposit", "07/Oct/2025")].

Definition garbled_search (pattern text : string) (flags : re_flags) : option string :=
  match flags with
  | IgnoreCaseMultiline =>
      if String.eqb text garbled_text then
        match List.find (fun kv => String.eqb (snd kv) pattern)
                (TextExtractor.FIELD_PATTERNS ++ TextExtractor.TAX_PATTERNS)%list with
        | Some (field_name, _) => PyDict.get field_name garbled_captures
        | None => None
        end
      else None
  | NoFlags => None
  end.

Definition garbled_regex : Regex := {| re_search_group1 := garbled_search |}.

(** Two objects: the sample record at address 0, and at every other
    address a record that has a CIN and a challan number only. *)
Definition example_store : Store :=
  fun address => if Nat.eqb address 0 then sample_record_1 else split_ab_1.

(** * Properties *)

Local Open Scope list_scope.

(** ** Order facts on binary64 numbers *)

Section FloatOrder.

Lemma SFcompare_antisym x y :
  SFcompare y x = option_map CompOpp (SFcompare x y).
Proof.
  destruct x as [sx|sx| |sx mx ex], y as [sy|sy| |sy my ey]; cbn;
    try reflexivity;
    try (destruct sx; reflexivity); try (destruct sy; reflexivity);
    try (destruct sx, sy; reflexivity).
  destruct sx, sy; cbn; try reflexivity;
    rewrite (Z.compare_antisym ey ex); destruct (ey ?= ex)%Z; cbn; try reflexivity;
    rewrite (Pos.compare_cont_antisym mx my Eq); cbn;
    try rewrite CompOpp_involutive; reflexivity.
Qed.

Lemma SFcompare_refl_not_Lt x : SFcompare x x <> Some Lt.
Proof.
  intros E. pose proof (SFcompare_antisym x x) as A. rewrite E in A. discriminate.
Qed.

Lemma gt_irrefl x : PyFloat.gt x x = false.
Proof.
  unfold PyFloat.gt. rewrite FloatAxioms.ltb_spec. unfold SFltb.
  destruct (SFcompare (Prim2SF x) (Prim2SF x)) as [[| |]|] eqn:E; try reflexivity.
  exfalso. exact (SFcompare_refl_not_Lt _ E).
Qed.

Lemma gt_asym x y : PyFloat.gt x y = true -> PyFloat.gt y x = false.
Proof.
  unfold PyFloat.gt. rewrite !FloatAxioms.ltb_spec. unfold SFltb.
  pose proof (SFcompare_antisym (Prim2SF y) (Prim2SF x)) as A.
  destruct (SFcompare (Prim2SF y) (Prim2SF x)) as [[| |]|];
    destruct (SFcompare (Prim2SF x) (Prim2SF y)) as [[| |]|];
    cbn in A; congruence.
Qed.

Lemma gt_not_eq x y : PyFloat.gt x y = true -> PyFloat.eq y x = false.
Proof.
  unfold PyFloat.gt, PyFloat.eq. rewrite FloatAxioms.ltb_spec, FloatAxioms.eqb_spec. unfold SFltb, SFeqb.
  destruct (SFcompare (Prim2SF y) (Prim2SF x)) as [[| |]|]; cbn; congruence.
Qed.

Lemma eq_not_gt x y : PyFloat.eq x y = true -> PyFloat.gt x y = false.
Proof.
  unfold PyFloat.gt, PyFloat.eq. rewrite FloatAxioms.ltb_spec, FloatAxioms.eqb_spec. unfold SFltb, SFeqb.
  pose proof (SFcompare_antisym (Prim2SF y) (Prim2SF x)) as A.
  destruct (SFcompare (Prim2SF y) (Prim2SF x)) as [[| |]|];
    destruct (SFcompare (Prim2SF x) (Prim2SF y)) as [[| |]|];
    cbn in A; congruence.
Qed.

Lemma lt_not_eq x y : PyFloat.lt x y = true -> PyFloat.eq x y = false.
Proof.
  unfold PyFloat.lt, PyFloat.eq. rewrite FloatAxioms.ltb_spec, FloatAxioms.eqb_spec. unfold SFltb, SFeqb.
  destruct (SFcompare (Prim2SF x) (Prim2SF y)) as [[| |]|]; cbn; congruence.
Qed.

End FloatOrder.

(** ** Dictionaries *)

Section DictFacts.

Context {V : Type}.
Implicit Types (d : list (string * V)) (k : string) (v : V).

Lemma get_set_eq k v d : PyDict.get k (PyDict.set k v d) = Some v.
Proof.
  induction d as [|[k' v'] d IH]; cbn.
  - now rewrite String.eqb_refl.
  - destruct (String.eqb k' k) eqn:E; cbn; rewrite E; auto.
Qed.

Lemma get_set_ne k k' v d :
  k <> k' -> PyDict.get k' (PyDict.set k v d) = PyDict.get k' d.
Proof.
  intros Hne. induction d as [|[k0 v0] d IH]; cbn.
  - apply String.eqb_neq in Hne. now rewrite Hne.
  - destruct (String.eqb k0 k) eqn:E; cbn.
    + apply String.eqb_eq in E. subst k0.
      apply String.eqb_neq in Hne. now rewrite Hne.
    + now rewrite IH.
Qed.

Lemma get_None_keys k d : PyDict.get k d = None <-> ~ In k (PyDict.keys d).
Proof.
  induction d as [|[k0 v0] d IH]; cbn.
  - tauto.
  - destruct (String.eqb k0 k) eqn:E.
    + apply String.eqb_eq in E. split; [discriminate | tauto].
    + apply String.eqb_neq in E. rewrite IH. tauto.
Qed.

Lemma get_In d (f : string) v : PyDict.get f d = Some v -> In (f, v) d.
Proof.
  induction d as [|[k w] d IH]; [discriminate|].
  cbn. destruct (String.eqb k f) eqn:E.
  - apply String.eqb_eq in E. subst k. intros [= ->]. now left.
  - right. now apply IH.
Qed.

Lemma keys_set k v d :
  PyDict.keys (PyDict.set k v d) =
  if PyDict.contains k d then PyDict.keys d else PyDict.keys d ++ [k].
Proof.
  unfold PyDict.contains.
  induction d as [|[k0 v0] d IH]; cbn; [reflexivity|].
  destruct (String.eqb k0 k) eqn:E; cbn; [reflexivity|].
  unfold PyDict.keys in *. rewrite IH. now destruct (PyDict.get k d).
Qed.

Lemma wf_set k v d : PyDict.wf d -> PyDict.wf (PyDict.set k v d).
Proof.
  unfold PyDict.wf. intros Hwf. rewrite keys_set. unfold PyDict.contains.
  destruct (PyDict.get k d) eqn:E; [exact Hwf|].
  apply get_None_keys in E.
  apply NoDup_app; split; [exact Hwf|]. split.
  - intros x Hx Hin. apply list_elem_of_In in Hin. cbn in Hin.
    destruct Hin as [<-|[]]. apply E. now apply list_elem_of_In.
  - apply NoDup_singleton.
Qed.

End DictFacts.

(** ** The merge *)

Section MergeFacts.

Implicit Types (primary secondary merged : list (string * FieldConfidence)).

Lemma merge_step_other merged f sec g :
  f <> g -> PyDict.get g (merge_step merged (f, sec)) = PyDict.get g merged.
Proof.
  intros Hne. unfold merge_step.
  destruct (PyDict.get f merged) as [pri|]; [|now apply get_set_ne].
  repeat match goal with |- context [if ?b then _ else _] => destruct b end;
    auto using get_set_ne.
Qed.

Lemma merge_step_same merged f sec :
  PyDict.get f (merge_step merged (f, sec)) =
  Some match PyDict.get f merged with
       | Some pri => prefer pri sec
       | None => sec
       end.
Proof.
  unfold merge_step, prefer.
  destruct (PyDict.get f merged) as [pri|] eqn:E; [|apply get_set_eq].
  repeat match goal with |- context [if ?b then _ else _] => destruct b end;
    auto using get_set_eq.
Qed.

Lemma merge_step_wf merged item : PyDict.wf merged -> PyDict.wf (merge_step merged item).
Proof.
  destruct item as [f sec]. intros Hwf. unfold merge_step.
  destruct (PyDict.get f merged) as [pri|]; [|now apply wf_set].
  repeat match goal with |- context [if ?b then _ else _] => destruct b end;
    auto using wf_set.
Qed.

Lemma merge_absent secondary merged f :
  PyDict.get f secondary = None ->
  PyDict.get f (fold_left merge_step secondary merged) = PyDict.get f merged.
Proof.
  revert merged. induction secondary as [|[g sec] secondary IH]; intros merged Hf; cbn [fold_left].
  - reflexivity.
  - cbn in Hf. destruct (String.eqb g f) eqn:E; [discriminate|].
    apply String.eqb_neq in E. rewrite IH by exact Hf. now apply merge_step_other.
Qed.

Lemma merge_present secondary merged f sec :
  PyDict.wf secondary ->
  PyDict.get f secondary = Some sec ->
  PyDict.get f (fold_left merge_step secondary merged) =
  Some match PyDict.get f merged with
       | Some pri => prefer pri sec
       | None => sec
       end.
Proof.
  revert merged. induction secondary as [|[g s] secondary IH]; intros merged Hwf Hf; cbn [fold_left].
  - discriminate.
  - unfold PyDict.wf in Hwf. cbn in Hwf. apply NoDup_cons in Hwf as [Hg Hwf].
    cbn in Hf. destruct (String.eqb g f) eqn:E.
    + apply String.eqb_eq in E. subst g. injection Hf as ->.
      rewrite merge_absent.
      * apply merge_step_same.
      * apply get_None_keys. intros Hin. apply Hg. now apply list_elem_of_In.
    + apply String.eqb_neq in E. rewrite (IH _ Hwf Hf).
      now rewrite merge_step_other.
Qed.

Lemma _merge_fields_wf primary secondary :
  PyDict.wf primary -> PyDict.wf (_merge_fields primary secondary).
Proof.
  unfold _merge_fields. revert primary.
  induction secondary as [|item secondary IH]; intros primary Hwf; cbn; [exact Hwf|].
  apply IH. now apply merge_step_wf.
Qed.

End MergeFacts.

Section ValidatorFacts.

Context `{Builtins}.

Lemma issues_append_issue i result :
  issues (append_issue i result) = issues result ++ [i].
Proof. reflexivity. Qed.

Ltac rule_cases :=
  repeat match goal with
         | |- context [if ?b then _ else _] => destruct b
         | |- context [match ?o with Some _ => _ | None => _ end] => destruct o
         end;
  cbn [issues append_issue set_original_value app];
  rewrite ?app_nil_r; try reflexivity.

Lemma _validate_tan_issues self record result :
  issues (_validate_tan self record result) =
  issues result ++ emitted (_validate_tan self record).
Proof. unfold emitted, _validate_tan. rule_cases. Qed.

Lemma _validate_cin_issues self record result :
  issues (_validate_cin self record result) =
  issues result ++ emitted (_validate_cin self record).
Proof. unfold emitted, _validate_cin. rule_cases. Qed.

Lemma _validate_amounts_issues self record result :
  issues (_validate_amounts self record result) =
  issues result ++ emitted (_validate_amounts self record).
Proof.
  unfold emitted, _validate_amounts.
  destruct (total_amount record) as [amount|]; [|reflexivity].
  destruct (PyFloat.lt amount 0), (PyFloat.eq amount 0);
    cbn [issues append_issue blank_result app]; rewrite <- ?app_assoc, ?app_nil_r; reflexivity.
Qed.

Lemma _validate_sum_check_issues self record result :
  issues (_validate_sum_check self record result) =
  issues result ++ emitted (_validate_sum_check self record).
Proof. unfold emitted, _validate_sum_check. rule_cases. Qed.

Lemma _validate_dates_issues today self record result :
  issues (_validate_dates today self record result) =
  issues result ++ emitted (_validate_dates today self record).
Proof.
  unfold emitted, _validate_dates.
  destruct (date_of_deposit record) as [d|]; [|reflexivity].
  destruct (PyDate.gt d today), (3650 <? PyDate.days_between today d);
    cbn [issues append_issue blank_result app]; rewrite <- ?app_assoc, ?app_nil_r; reflexivity.
Qed.

Lemma check_required_issues result item :
  issues (check_required result item) =
  issues result ++ issues (check_required blank_result item).
Proof.
  destruct item as [field_name v]. unfold check_required.
  destruct (negb (opt_truthy v)); cbn [issues append_issue blank_result app];
    rewrite ?app_nil_r; reflexivity.
Qed.

Lemma fold_check_required_issues items result :
  issues (fold_left check_required items result) =
  issues result ++ concat (List.map (fun item => issues (check_required blank_result item)) items).
Proof.
  revert result. induction items as [|item items IH]; intros result; cbn [fold_left List.map concat].
  - now rewrite app_nil_r.
  - rewrite IH, check_required_issues, <- app_assoc. reflexivity.
Qed.

Lemma _validate_required_fields_issues self record result :
  issues (_validate_required_fields self record result) =
  issues result ++ emitted (_validate_required_fields self record).
Proof.
  unfold emitted, _validate_required_fields.
  rewrite (fold_check_required_issues _ result), (fold_check_required_issues _ blank_result).
  reflexivity.
Qed.

Lemma _check_duplicate_issues self record result :
  issues (result_of (_check_duplicate self record result)) =
  issues result ++ duplicate_issues self record.
Proof.
  unfold _check_duplicate, duplicate_issues, hash_of, compute_hash. cbn [fst].
  destruct (bool_decide _); cbn [result_of snd issues append_issue];
    rewrite ?app_nil_r; reflexivity.
Qed.

Lemma _check_duplicate_seen self record result :
  _seen_hashes (validator_after (_check_duplicate self record result)) =
  {[hash_of record]} ∪ _seen_hashes self.
Proof.
  unfold _check_duplicate, hash_of, compute_hash. cbn [fst].
  destruct (bool_decide _) eqn:E; cbn [validator_after fst _seen_hashes]; [|reflexivity].
  apply bool_decide_eq_true in E.
  symmetry. apply subseteq_union_1_L, singleton_subseteq_l, E.
Qed.

Lemma run_rules_issues today self record :
  issues (result_of (run_rules today self record)) =
  rule_issues today self record ++ duplicate_issues self record.
Proof.
  unfold run_rules, rule_issues.
  rewrite _check_duplicate_issues, _validate_required_fields_issues,
    _validate_dates_issues, _validate_sum_check_issues, _validate_amounts_issues,
    _validate_cin_issues.
  rewrite _validate_tan_issues. cbn [issues app].
  rewrite <- !app_assoc. reflexivity.
Qed.

(** [validate] in terms of the state its rules leave. *)
Lemma validate_unfold today self record :
  let out := run_rules today self record in
  let result := result_of out in
  validate today self record =
  (validator_after out,
   (match issues result with
    | [] => fun r => r
    | _ :: _ => set_notes (notes_text (issues result))
    end) (set_validation_flag (if has_errors result then FLAG else OK) (record_after out)),
   if has_errors result then set_is_valid false result else result).
Proof.
  cbv zeta. unfold validate, validator_after, record_after, result_of, notes_text.
  destruct (run_rules today self record) as [[self' record'] result]. cbn [fst snd].
  destruct (has_errors result); cbn [issues set_is_valid];
    destruct (issues result); reflexivity.
Qed.

Lemma issues_validate today self record :
  issues (result_of (validate today self record)) =
  rule_issues today self record ++ duplicate_issues self record.
Proof.
  rewrite <- run_rules_issues, validate_unfold. cbv zeta.
  unfold result_of at 1. cbn [snd].
  destruct (has_errors _); reflexivity.
Qed.

Lemma has_errors_validate today self record :
  has_errors (result_of (validate today self record)) =
  has_errors (result_of (run_rules today self record)).
Proof.
  unfold has_errors. rewrite issues_validate, run_rules_issues. reflexivity.
Qed.

Lemma flag_validate today self record :
  validation_flag (record_after (validate today self record)) =
  if has_errors (result_of (validate today self record)) then FLAG else OK.
Proof.
  rewrite has_errors_validate, validate_unfold. cbv zeta.
  unfold record_after at 1. cbn [fst snd].
  destruct (issues _); reflexivity.
Qed.

Lemma notes_validate today self record :
  notes (record_after (validate today self record)) =
  match issues (result_of (validate today self record)) with
  | [] => notes record
  | _ :: _ => notes_text (issues (result_of (validate today self record)))
  end.
Proof.
  rewrite issues_validate, <- run_rules_issues, validate_unfold. cbv zeta.
  unfold record_after at 1. cbn [fst snd].
  destruct (issues _); [|reflexivity].
  cbn [notes set_validation_flag].
  unfold run_rules, _check_duplicate, compute_hash, record_after.
  destruct (bool_decide _); reflexivity.
Qed.

Lemma seen_validate today self record :
  _seen_hashes (validator_after (validate today self record)) =
  {[hash_of record]} ∪ _seen_hashes self.
Proof.
  rewrite validate_unfold. cbv zeta. unfold validator_after at 1. cbn [fst].
  unfold run_rules. apply _check_duplicate_seen.
Qed.

Lemma config_validate today self record :
  config (validator_after (validate today self record)) = config self.
Proof.
  rewrite validate_unfold. cbv zeta. unfold validator_after at 1. cbn [fst].
  unfold run_rules, _check_duplicate, compute_hash, validator_after.
  destruct (bool_decide _); reflexivity.
Qed.

(** *** The rules leave [is_valid] alone *)

Lemma fold_check_required_valid items result :
  is_valid (fold_left check_required items result) = is_valid result.
Proof.
  revert result. induction items as [|[field_name v] items IH]; intros result;
    cbn [fold_left]; [reflexivity|].
  rewrite IH. unfold check_required. destruct (negb (opt_truthy v)); reflexivity.
Qed.

Lemma is_valid_run_rules today self record :
  is_valid (result_of (run_rules today self record)) = true.
Proof.
  unfold run_rules, _check_duplicate, compute_hash, result_of.
  assert (forall result,
             is_valid (_validate_required_fields self record result) = is_valid result) as R
      by (intros; apply fold_check_required_valid).
  assert (forall result,
             is_valid (_validate_dates today self record result) = is_valid result) as D
      by (intros; unfold _validate_dates;
          repeat match goal with
                 | |- context [if ?b then _ else _] => destruct b
                 | |- context [match ?o with Some _ => _ | None => _ end] => destruct o
                 end; reflexivity).
  assert (forall result,
             is_valid (_validate_sum_check self record result) = is_valid result) as S
      by (intros; unfold _validate_sum_check;
          repeat match goal with
                 | |- context [if ?b then _ else _] => destruct b
                 | |- context [match ?o with Some _ => _ | None => _ end] => destruct o
                 end; reflexivity).
  assert (forall result,
             is_valid (_validate_amounts self record result) = is_valid result) as A
      by (intros; unfold _validate_amounts;
          repeat match goal with
                 | |- context [if ?b then _ else _] => destruct b
                 | |- context [match ?o with Some _ => _ | None => _ end] => destruct o
                 end; reflexivity).
  assert (forall result,
             is_valid (_validate_cin self record result) = is_valid result) as C
      by (intros; unfold _validate_cin;
          repeat match goal with
                 | |- context [if ?b then _ else _] => destruct b
                 end; reflexivity).
  assert (forall result,
             is_valid (_validate_tan self record result) = is_valid result) as T
      by (intros; unfold _validate_tan;
          repeat match goal with
                 | |- context [if ?b then _ else _] => destruct b
                 end; reflexivity).
  destruct (bool_decide _); cbn [snd is_valid append_issue]; now rewrite R, D, S, A, C, T.
Qed.

Lemma is_valid_validate today self record :
  is_valid (result_of (validate today self record)) =
  negb (has_errors (result_of (validate today self record))).
Proof.
  rewrite has_errors_validate.
  pose proof (is_valid_run_rules today self record) as V.
  rewrite validate_unfold. cbv zeta. unfold result_of at 1. cbn [snd].
  destruct (has_errors (result_of (run_rules today self record))); [reflexivity | exact V].
Qed.

(** *** Which rule emits which issue *)

Ltac split_ifs :=
  repeat match goal with
         | |- context [if ?b then _ else _] => destruct b
         | |- context [match ?o with Some _ => _ | None => _ end] => destruct o
         end.

Lemma tan_emits self record t :
  t <> "missing" -> t <> "format" ->
  List.filter (has_type t) (emitted (_validate_tan self record)) = [].
Proof.
  intros H1 H2. apply not_eq_sym, String.eqb_neq in H1, H2.
  unfold emitted, _validate_tan, has_type. split_ifs; cbn -[String.eqb]; rewrite ?H1, ?H2; reflexivity.
Qed.

Lemma cin_emits self record t :
  t <> "missing" -> t <> "format" ->
  List.filter (has_type t) (emitted (_validate_cin self record)) = [].
Proof.
  intros H1 H2. apply not_eq_sym, String.eqb_neq in H1, H2.
  unfold emitted, _validate_cin, has_type. split_ifs; cbn -[String.eqb]; rewrite ?H1, ?H2; reflexivity.
Qed.

Lemma amounts_emits self record t :
  t <> "missing" -> t <> "invalid" -> t <> "suspicious" ->
  List.filter (has_type t) (emitted (_validate_amounts self record)) = [].
Proof.
  intros H1 H2 H3. apply not_eq_sym, String.eqb_neq in H1, H2, H3.
  unfold emitted, _validate_amounts, has_type. split_ifs; cbn -[String.eqb]; rewrite ?H1, ?H2, ?H3; reflexivity.
Qed.

Lemma sum_check_emits self record t :
  t <> "sum_mismatch" ->
  List.filter (has_type t) (emitted (_validate_sum_check self record)) = [].
Proof.
  intros H1. apply not_eq_sym, String.eqb_neq in H1.
  unfold emitted, _validate_sum_check, has_type. split_ifs; cbn -[String.eqb]; rewrite ?H1; reflexivity.
Qed.

Lemma dates_emits today self record t :
  t <> "missing" -> t <> "future_date" -> t <> "old_date" ->
  List.filter (has_type t) (emitted (_validate_dates today self record)) = [].
Proof.
  intros H1 H2 H3. apply not_eq_sym, String.eqb_neq in H1, H2, H3.
  unfold emitted, _validate_dates, has_type. split_ifs; cbn -[String.eqb]; rewrite ?H1, ?H2, ?H3; reflexivity.
Qed.

Lemma required_emits self record t :
  t <> "missing" ->
  List.filter (has_type t) (emitted (_validate_required_fields self record)) = [].
Proof.
  intros H1. apply not_eq_sym, String.eqb_neq in H1.
  unfold emitted, _validate_required_fields, has_type. cbn [fold_left]. unfold check_required.
  split_ifs; cbn -[String.eqb]; rewrite ?H1; reflexivity.
Qed.

Lemma duplicate_emits self record t :
  t <> "duplicate" ->
  List.filter (has_type t) (duplicate_issues self record) = [].
Proof.
  intros H1. apply not_eq_sym, String.eqb_neq in H1.
  unfold duplicate_issues, has_type. split_ifs; cbn -[String.eqb]; rewrite ?H1; reflexivity.
Qed.

Lemma rule_issues_no_duplicate today self record :
  List.filter (has_type "duplicate") (rule_issues today self record) = [].
Proof.
  unfold rule_issues. rewrite !List.filter_app.
  rewrite tan_emits, cin_emits, amounts_emits, sum_check_emits, dates_emits, required_emits
    by discriminate.
  reflexivity.
Qed.

(** *** Where the errors come from *)

Lemma required_no_error self record :
  errors_in (emitted (_validate_required_fields self record)) = [].
Proof.
  unfold errors_in, emitted, _validate_required_fields. cbn [fold_left].
  unfold check_required. split_ifs; reflexivity.
Qed.

Lemma dates_errors_today today today' self self' record :
  errors_in (emitted (_validate_dates today self record)) =
  errors_in (emitted (_validate_dates today' self' record)).
Proof.
  unfold errors_in, emitted, _validate_dates.
  destruct (date_of_deposit record); [|reflexivity]. split_ifs; reflexivity.
Qed.

Lemma rules_same_config today today' self self' record :
  config self = config self' ->
  errors_in (rule_issues today self record) = errors_in (rule_issues today' self' record).
Proof.
  intros Hcfg. unfold rule_issues, errors_in. rewrite !List.filter_app.
  fold (errors_in (emitted (_validate_dates today self record))).
  rewrite (dates_errors_today today today' self self').
  fold (errors_in (emitted (_validate_required_fields self record))).
  fold (errors_in (emitted (_validate_required_fields self' record))).
  rewrite !required_no_error.
  unfold emitted, _validate_tan, _validate_cin, _validate_amounts, _validate_sum_check.
  rewrite Hcfg. reflexivity.
Qed.

Lemma has_errors_errors_in result :
  has_errors result = match errors_in (issues result) with [] => false | _ :: _ => true end.
Proof.
  unfold has_errors, errors_in. induction (issues result) as [|i l IH]; cbn; [reflexivity|].
  destruct (is_error i); cbn; [reflexivity | exact IH].
Qed.

Lemma errors_in_elem i l : In i (errors_in l) <-> In i l /\ severity i = "error".
Proof.
  unfold errors_in. rewrite List.filter_In. unfold is_error.
  now rewrite String.eqb_eq.
Qed.

(** *** The record that [validate] hands back *)

Lemma record_after_validate today self record :
  exists flag note,
    record_after (validate today self record) =
    set_notes note (set_validation_flag flag (set_record_hash (Some (hash_of record)) record)).
Proof.
  rewrite validate_unfold. cbv zeta. unfold record_after at 1. cbn [fst snd].
  assert (record_after (run_rules today self record) =
          set_record_hash (Some (hash_of record)) record) as ->.
  { unfold run_rules, _check_duplicate, compute_hash, hash_of, record_after. cbn [fst].
    destruct (bool_decide _); reflexivity. }
  destruct (issues _).
  - exists (if has_errors (result_of (run_rules today self record)) then FLAG else OK),
      (notes record). reflexivity.
  - eexists _, _. reflexivity.
Qed.

Lemma hash_of_updates h f n record :
  hash_of (set_notes n (set_validation_flag f (set_record_hash h record))) = hash_of record.
Proof. reflexivity. Qed.

Lemma rule_issues_updates today self h f n record :
  rule_issues today self (set_notes n (set_validation_flag f (set_record_hash h record))) =
  rule_issues today self record.
Proof. reflexivity. Qed.

Lemma hash_of_dedupe_key r1 r2 : dedupe_key r1 = dedupe_key r2 -> hash_of r1 = hash_of r2.
Proof.
  unfold dedupe_key, hash_of, compute_hash, hash_input. cbn [fst].
  intros E. injection E as -> -> ->. reflexivity.
Qed.

End ValidatorFacts.

Section StringFacts.

Lemma prefix_app a b : String.prefix a (a ++ b)%string = true.
Proof.
  induction a as [|c a IH]; simpl.
  - now destruct b.
  - destruct (ascii_dec c c); [exact IH | congruence].
Qed.

Lemma contains_here n b : PyStr.contains n (n ++ b)%string = true.
Proof.
  pose proof (prefix_app n b) as P.
  destruct (n ++ b)%string; cbn [PyStr.contains]; now rewrite P.
Qed.

Lemma contains_later a n h :
  PyStr.contains n h = true -> PyStr.contains n (a ++ h)%string = true.
Proof.
  intros Hn. induction a as [|c a IH]; [exact Hn|].
  change (PyStr.contains n (String c a ++ h)%string)
    with (String.prefix n (String c (a ++ h)) || PyStr.contains n (a ++ h)%string)%bool.
  rewrite IH. apply orb_true_r.
Qed.

Lemma append_empty_r n : (n ++ "")%string = n.
Proof.
  induction n as [|c n IH]; [reflexivity|].
  change (String c (n ++ "")%string = String c n). f_equal. exact IH.
Qed.

Lemma contains_end n : PyStr.contains n n = true.
Proof.
  pose proof (contains_here n "") as C. now rewrite append_empty_r in C.
Qed.

End StringFacts.

Section ValidatorTheorems.

Context `{Builtins}.

(** C3: [validate] always leaves the flag of the record at [OK] or [FLAG],
    never at [PENDING]; it is [FLAG] exactly when an emitted issue has
    severity [error] and [OK] otherwise, so warnings alone never flag. *)
Theorem validate_sets_flag today self record :
  let out := validate today self record in
  let flag := validation_flag (record_after out) in
  (flag = OK \/ flag = FLAG) /\
  flag <> PENDING /\
  (flag = FLAG <-> exists i, In i (issues (result_of out)) /\ severity i = "error") /\
  (flag = OK <-> forall i, In i (issues (result_of out)) -> severity i <> "error") /\
  ((forall i, In i (issues (result_of out)) -> severity i = "warning") -> flag = OK) /\
  is_valid (result_of out) = negb (has_errors (result_of out)).
Proof.
  cbv zeta. rewrite flag_validate.
  assert (has_errors (result_of (validate today self record)) = true <->
          exists i, In i (issues (result_of (validate today self record))) /\
                    severity i = "error") as Herr.
  { unfold has_errors. rewrite existsb_exists. unfold is_error.
    split; intros [i [Hi Hs]]; exists i; split; auto; now apply String.eqb_eq. }
  pose proof (is_valid_validate today self record) as Hvalid.
  split; [destruct (has_errors _); auto|].
  split; [destruct (has_errors _); discriminate|].
  split; [rewrite <- Herr; destruct (has_errors _); split; congruence|].
  split; [|split; [|exact Hvalid]].
  - split.
    + intros Hflag i Hi Hs.
      assert (has_errors (result_of (validate today self record)) = true) as E
          by (apply Herr; eauto).
      rewrite E in Hflag. discriminate.
    + intros Hno. destruct (has_errors _) eqn:E; [|reflexivity].
      destruct Herr as [[i [Hi Hs]] _]; [reflexivity|]. now destruct (Hno i Hi).
  - intros Hw. destruct (has_errors _) eqn:E; [|reflexivity].
    destruct Herr as [[i [Hi Hs]] _]; [reflexivity|].
    specialize (Hw i Hi). rewrite Hs in Hw. discriminate.
Qed.

(** C9 (amended): after [validate], when at least one issue was emitted
    the notes of the record are the issues as [field: message] joined by
    "; ", whatever the notes were before; when no issue was emitted the
    notes are left as they were. *)
Theorem validate_writes_notes today self record :
  let out := validate today self record in
  (issues (result_of out) <> [] ->
     notes (record_after out) =
     PyStr.join "; " (List.map (fun i => field i ++ ": " ++ message i)%string
                        (issues (result_of out)))) /\
  (issues (result_of out) = [] -> notes (record_after out) = notes record).
Proof.
  cbv zeta. rewrite notes_validate.
  destruct (issues (result_of (validate today self record))); split; intros E;
    try congruence; reflexivity.
Qed.

(** *** The sum check *)

Lemma sum_check_emitted self record amount :
  total_amount record = Some amount ->
  emitted (_validate_sum_check self record) =
  if PyFloat.gt (sum_difference record amount) (sum_check_tolerance (config self))
  then [sum_mismatch_issue record amount] else [].
Proof.
  intros Ha. unfold emitted, _validate_sum_check, sum_difference. rewrite Ha.
  destruct (PyFloat.gt _ _); reflexivity.
Qed.

Lemma sum_mismatch_of_validate today self record amount :
  total_amount record = Some amount ->
  List.filter (has_type "sum_mismatch") (issues (result_of (validate today self record))) =
  if PyFloat.gt (sum_difference record amount) (sum_check_tolerance (config self))
  then [sum_mismatch_issue record amount] else [].
Proof.
  intros Ha. rewrite issues_validate. unfold rule_issues. rewrite !List.filter_app.
  rewrite tan_emits, cin_emits, amounts_emits, dates_emits, required_emits, duplicate_emits
    by discriminate.
  rewrite (sum_check_emitted _ _ _ Ha). cbn [app]. rewrite app_nil_r.
  destruct (PyFloat.gt _ _); reflexivity.
Qed.

(** C1 (amended): for a record with a total amount, the issues of
    [validate] hold exactly one [sum_mismatch] issue, of severity [error],
    when [abs(tax_sum - total_amount)] exceeds the configured tolerance,
    and none otherwise; a difference equal to the tolerance yields none,
    and a difference of the tolerance plus 0.01 yields one whenever adding
    0.01 raises the tolerance, as it does the default 1.0. The message of
    the issue includes both sums and the absolute difference, each with two
    decimals. *)
Theorem sum_check_spec today self record amount
    (Hamount : total_amount record = Some amount) :
  let out := validate today self record in
  let tolerance := sum_check_tolerance (config self) in
  let difference := sum_difference record amount in
  let mismatches := List.filter (has_type "sum_mismatch") (issues (result_of out)) in
  (mismatches = if PyFloat.gt difference tolerance
                then [sum_mismatch_issue record amount] else []) /\
  (List.length mismatches = 1%nat <-> PyFloat.gt difference tolerance = true) /\
  (difference = tolerance -> mismatches = []) /\
  (PyFloat.gt (tolerance + 0.01) tolerance = true ->
   difference = (tolerance + 0.01)%float -> List.length mismatches = 1%nat) /\
  (tolerance = 1.0%float -> difference = (1.0 + 0.01)%float -> List.length mismatches = 1%nat) /\
  severity (sum_mismatch_issue record amount) = "error" /\
  PyStr.contains (PyFloat.format_2f (total (tax_breakup record)))
    (message (sum_mismatch_issue record amount)) = true /\
  PyStr.contains (PyFloat.format_2f amount)
    (message (sum_mismatch_issue record amount)) = true /\
  PyStr.contains (PyFloat.format_2f (PrimFloat.abs (total (tax_breakup record) - amount)))
    (message (sum_mismatch_issue record amount)) = true.
Proof.
  cbv zeta. rewrite (sum_mismatch_of_validate _ _ _ _ Hamount).
  split; [reflexivity|]. split; [|split; [|split; [|split; [|split; [reflexivity|]]]]].
  - destruct (PyFloat.gt _ _); cbn; split; congruence.
  - intros ->. now rewrite gt_irrefl.
  - intros Hup ->. rewrite Hup. reflexivity.
  - intros -> ->. reflexivity.
  - unfold sum_mismatch_issue, sum_mismatch_message, sum_difference. cbn [message].
    repeat split.
    + apply contains_later, contains_here.
    + do 3 apply contains_later. apply contains_here.
    + do 5 apply contains_later. apply contains_end.
Qed.

End ValidatorTheorems.

Section AmountTheorems.

Context `{Builtins}.

Lemma amounts_emitted self record :
  emitted (_validate_amounts self record) =
  match total_amount record with
  | None => [missing_amount_issue]
  | Some amount =>
      (if PyFloat.lt amount 0 then [negative_amount_issue amount] else []) ++
      (if PyFloat.eq amount 0 then [zero_amount_issue] else [])
  end.
Proof.
  unfold emitted, _validate_amounts.
  destruct (total_amount record) as [amount|]; [|reflexivity].
  destruct (PyFloat.lt amount 0), (PyFloat.eq amount 0); reflexivity.
Qed.

Lemma other_rules_quiet today self record :
  errors_in (other_rule_issues today self record) = [] ->
  errors_in (issues (result_of (validate today self record))) =
  errors_in (emitted (_validate_amounts self record)).
Proof.
  unfold other_rule_issues, errors_in. rewrite issues_validate. unfold rule_issues.
  rewrite !List.filter_app. intros Hq.
  apply app_eq_nil in Hq as [-> Hq]. apply app_eq_nil in Hq as [-> Hq].
  apply app_eq_nil in Hq as [-> Hq]. apply app_eq_nil in Hq as [-> Hq].
  apply app_eq_nil in Hq as [-> ->]. cbn [app]. now rewrite !app_nil_r.
Qed.

Lemma suspicious_of_validate today self record :
  List.filter (has_type "suspicious") (issues (result_of (validate today self record))) =
  List.filter (has_type "suspicious") (emitted (_validate_amounts self record)).
Proof.
  rewrite issues_validate. unfold rule_issues. rewrite !List.filter_app.
  rewrite tan_emits, cin_emits, sum_check_emits, dates_emits, required_emits, duplicate_emits
    by discriminate.
  cbn [app]. now rewrite !app_nil_r.
Qed.

Lemma amounts_in_validate today self record i :
  In i (emitted (_validate_amounts self record)) ->
  In i (issues (result_of (validate today self record))).
Proof.
  intros Hi. rewrite issues_validate. unfold rule_issues.
  rewrite !in_app_iff. auto.
Qed.

Lemma flag_of_errors today self record :
  validation_flag (record_after (validate today self record)) =
  match errors_in (issues (result_of (validate today self record))) with
  | [] => OK
  | _ :: _ => FLAG
  end.
Proof.
  rewrite flag_validate, has_errors_errors_in. now destruct (errors_in _).
Qed.

(** C7: for a record on which no rule other than the amount rule raises
    an error: a total amount equal to zero yields exactly one
    [suspicious] issue, a warning, and the flag is [OK]; a negative total
    amount (such as -1.0) yields an error and the flag is [FLAG]; an
    absent total amount yields a [missing] error. *)
Theorem amount_sanity today self record
    (Hother : errors_in (other_rule_issues today self record) = []) :
  let out := validate today self record in
  (forall amount, total_amount record = Some amount -> PyFloat.eq amount 0 = true ->
     List.filter (has_type "suspicious") (issues (result_of out)) = [zero_amount_issue] /\
     severity zero_amount_issue = "warning" /\
     validation_flag (record_after out) = OK) /\
  (forall amount, total_amount record = Some amount -> PyFloat.lt amount 0 = true ->
     errors_in (issues (result_of out)) = [negative_amount_issue amount] /\
     severity (negative_amount_issue amount) = "error" /\
     validation_flag (record_after out) = FLAG) /\
  (total_amount record = None ->
     errors_in (issues (result_of out)) = [missing_amount_issue] /\
     issue_type missing_amount_issue = "missing" /\
     severity missing_amount_issue = "error" /\
     validation_flag (record_after out) = FLAG).
Proof.
  cbv zeta. rewrite flag_of_errors, (other_rules_quiet _ _ _ Hother),
    suspicious_of_validate, amounts_emitted.
  split; [|split].
  - intros amount -> Hz.
    assert (PyFloat.lt amount 0 = false) as ->.
    { destruct (PyFloat.lt amount 0) eqn:E; [|reflexivity].
      apply lt_not_eq in E. congruence. }
    rewrite Hz. repeat split; reflexivity.
  - intros amount -> Hneg. rewrite Hneg, (lt_not_eq _ _ Hneg). repeat split; reflexivity.
  - intros ->. repeat split; reflexivity.
Qed.

End AmountTheorems.

Section DuplicateTheorems.

Context `{Builtins}.

Lemma duplicates_of_validate today self record :
  List.filter (has_type "duplicate") (issues (result_of (validate today self record))) =
  duplicate_issues self record.
Proof.
  rewrite issues_validate, List.filter_app, rule_issues_no_duplicate. cbn [app].
  unfold duplicate_issues. destruct (bool_decide _); reflexivity.
Qed.

Lemma duplicate_issues_fresh self record :
  hash_of record ∉ _seen_hashes self -> duplicate_issues self record = [].
Proof.
  intros Hnew. unfold duplicate_issues. now rewrite bool_decide_eq_false_2.
Qed.

Lemma duplicate_issues_seen self record :
  hash_of record ∈ _seen_hashes self ->
  duplicate_issues self record = [duplicate_issue (hash_of record)].
Proof.
  intros Hseen. unfold duplicate_issues. now rewrite bool_decide_eq_true_2.
Qed.

(** Validations without a reset only add to the seen hashes. *)
Lemma seen_validate_loop today records : forall self h,
  h ∈ _seen_hashes self ->
  h ∈ _seen_hashes (fst (fst (validate_loop today self records))).
Proof.
  induction records as [|record records IH]; intros self h Hh; cbn [validate_loop].
  - exact Hh.
  - destruct (validate today self record) as [[self1 record1] result1] eqn:E1.
    destruct (validate_loop today self1 records) as [[self2 rest] results] eqn:E2.
    cbn [fst]. specialize (IH self1 h). rewrite E2 in IH. cbn [fst] in IH. apply IH.
    pose proof (seen_validate today self record) as S. rewrite E1 in S.
    unfold validator_after in S. cbn [fst] in S. rewrite S.
    apply elem_of_union_r, Hh.
Qed.

(** C4 (amended): when a record is validated twice with the same (CIN,
    challan number, deposit date) triple in one validator, with no reset in
    between and any number of other validations, the second validation
    emits exactly one [duplicate] issue, of severity [error], and after
    [reset_dedupe_cache] the next validation of that triple emits none.
    The first validation emits no [duplicate] issue exactly when the
    validator has not seen the digest of the record, as a new validator
    or one just reset has not; when it has, for another triple with the
    same digest input, the first validation emits one as well. *)
Theorem duplicate_detection today1 today2 today3 today4 self between first second
    (Hsame : dedupe_key first = dedupe_key second) :
  let out1 := validate today1 self first in
  let later := fst (fst (validate_loop today2 (validator_after out1) between)) in
  let out2 := validate today3 later second in
  let out3 := validate today4 (reset_dedupe_cache (validator_after out2)) second in
  List.filter (has_type "duplicate") (issues (result_of out1)) =
    (if bool_decide (hash_of first ∈ _seen_hashes self)
     then [duplicate_issue (hash_of first)] else []) /\
  (count_type "duplicate" (issues (result_of out1)) = 0%nat <->
   hash_of first ∉ _seen_hashes self) /\
  List.filter (has_type "duplicate") (issues (result_of out2)) =
    [duplicate_issue (hash_of second)] /\
  count_type "duplicate" (issues (result_of out2)) = 1%nat /\
  severity (duplicate_issue (hash_of second)) = "error" /\
  count_type "duplicate" (issues (result_of out3)) = 0%nat.
Proof.
  cbv zeta. unfold count_type. rewrite !duplicates_of_validate.
  split; [reflexivity|]. split.
  { unfold duplicate_issues. destruct (bool_decide_reflect (hash_of first ∈ _seen_hashes self));
      cbn [List.length]; split; intros; try discriminate; try contradiction; auto. }
  rewrite (duplicate_issues_seen _ second).
  - rewrite duplicate_issues_fresh; [repeat split; reflexivity|].
    cbn [reset_dedupe_cache _seen_hashes]. apply not_elem_of_empty.
  - apply seen_validate_loop. rewrite seen_validate.
    rewrite <- (hash_of_dedupe_key _ _ Hsame).
    apply elem_of_union_l, elem_of_singleton_2. reflexivity.
Qed.

(** C5 (amended): when a validation flagged a record [OK], validating the
    returned record again in the same validator without a reset emits
    one new error, the [duplicate] issue, and flags the record; validating
    it in a validator with the same configuration that has not seen its
    digest (one just reset, or a new one) flags it [OK] again and emits
    no error. *)
Theorem revalidation_after_ok today today' self record
    (Hok : validation_flag (record_after (validate today self record)) = OK) :
  let out := validate today self record in
  (let again := validate today' (validator_after out) (record_after out) in
   validation_flag (record_after again) = FLAG /\
   errors_in (issues (result_of again)) = [duplicate_issue (hash_of record)]) /\
  (forall other : ChallanValidator,
      config other = config self ->
      hash_of record ∉ _seen_hashes other ->
      let again := validate today' other (record_after out) in
      validation_flag (record_after again) = OK /\
      errors_in (issues (result_of again)) = []) /\
  (let again := validate today' (reset_dedupe_cache (validator_after out)) (record_after out) in
   validation_flag (record_after again) = OK /\
   errors_in (issues (result_of again)) = []).
Proof.
  cbv zeta.
  rewrite flag_of_errors in Hok.
  destruct (errors_in (issues (result_of (validate today self record)))) eqn:E;
    [clear Hok | discriminate].
  rewrite issues_validate in E. unfold errors_in in E. rewrite List.filter_app in E.
  apply app_eq_nil in E as [Erules Edup].
  destruct (record_after_validate today self record) as (flag & note & ->).
  assert (forall other t,
             config other = config self ->
             errors_in (issues (result_of (validate t other
               (set_notes note (set_validation_flag flag
                  (set_record_hash (Some (hash_of record)) record)))))) =
             errors_in (duplicate_issues other record)) as Hre.
  { intros other t Hcfg. rewrite issues_validate. unfold errors_in.
    rewrite List.filter_app, rule_issues_updates.
    fold (errors_in (rule_issues t other record)).
    rewrite (rules_same_config t today other self record Hcfg).
    unfold errors_in. rewrite Erules. reflexivity. }
  split; [|split].
  - rewrite flag_of_errors, Hre by apply config_validate.
    rewrite duplicate_issues_seen
      by (rewrite seen_validate; apply elem_of_union_l, elem_of_singleton_2; reflexivity).
    split; reflexivity.
  - intros other Hcfg Hnew. rewrite flag_of_errors, Hre by exact Hcfg.
    rewrite duplicate_issues_fresh by exact Hnew. split; reflexivity.
  - rewrite flag_of_errors, Hre
      by (cbn [reset_dedupe_cache config]; apply config_validate).
    rewrite duplicate_issues_fresh
      by (cbn [reset_dedupe_cache _seen_hashes]; apply not_elem_of_empty).
    split; reflexivity.
Qed.

(** C10: [compute_hash] returns, and stores in the record, the first 16
    characters of the SHA-256 hex digest of the CIN, the challan number and
    the deposit date written one after the other with nothing between
    them, an absent component counting as the empty string; so the
    records with CIN [AB], challan [1] and with CIN [A], challan [B1] have
    different triples and the same hash, and the second of them validated
    in one validator is reported as a duplicate and flagged. *)
Theorem compute_hash_concatenates :
  (forall record,
      let text :=
        (or_empty (cin record) ++ or_empty (challan_no record) ++
         match date_of_deposit record with
         | Some d => PyDate.isoformat d
         | None => ""
         end)%string in
      let digest := PyStr.take 16 (sha256_hexdigest text) in
      compute_hash record = (digest, set_record_hash (Some digest) record)) /\
  dedupe_key split_ab_1 <> dedupe_key split_a_b1 /\
  hash_of split_ab_1 = hash_of split_a_b1 /\
  (forall today1 today2 cfg,
      let out1 := validate today1 (new_validator cfg) split_ab_1 in
      let out2 := validate today2 (validator_after out1) split_a_b1 in
      count_type "duplicate" (issues (result_of out1)) = 0%nat /\
      List.filter (has_type "duplicate") (issues (result_of out2)) =
        [duplicate_issue (hash_of split_a_b1)] /\
      validation_flag (record_after out2) = FLAG).
Proof.
  split; [reflexivity|]. split; [discriminate|]. split; [reflexivity|].
  intros today1 today2 cfg. cbv zeta. unfold count_type.
  rewrite flag_validate, !duplicates_of_validate.
  rewrite duplicate_issues_fresh by (cbn [new_validator _seen_hashes]; apply not_elem_of_empty).
  assert (duplicate_issues (validator_after (validate today1 (new_validator cfg) split_ab_1))
            split_a_b1 = [duplicate_issue (hash_of split_a_b1)]) as D.
  { apply duplicate_issues_seen. rewrite seen_validate.
    change (hash_of split_ab_1) with (hash_of split_a_b1).
    apply elem_of_union_l, elem_of_singleton_2. reflexivity. }
  rewrite D. split; [reflexivity|]. split; [reflexivity|].
  assert (has_errors (result_of (validate today2
            (validator_after (validate today1 (new_validator cfg) split_ab_1))
            split_a_b1)) = true) as ->; [|reflexivity].
  unfold has_errors. rewrite issues_validate, D, existsb_app.
  apply orb_true_iff. right. reflexivity.
Qed.

End DuplicateTheorems.

(** C2: for a primary map and a secondary map (a dict, so with no key
    twice) and any field: a field present in one map only has that map's
    value in the merge; a field present in both has the value of the source
    with the strictly higher confidence; on equal confidences the secondary
    value is taken exactly when the primary value is empty and the secondary
    value is not, and the primary value is kept otherwise. *)
Theorem merge_fields_spec (primary secondary : list (string * FieldConfidence))
    (Hdict : PyDict.wf secondary) (f : string) :
  let merged := _merge_fields primary secondary in
  (PyDict.get f secondary = None -> PyDict.get f merged = PyDict.get f primary) /\
  (PyDict.get f primary = None -> PyDict.get f merged = PyDict.get f secondary) /\
  (forall pri sec,
      PyDict.get f primary = Some pri -> PyDict.get f secondary = Some sec ->
      (PyFloat.gt (confidence sec) (confidence pri) = true ->
       PyDict.get f merged = Some sec) /\
      (PyFloat.gt (confidence pri) (confidence sec) = true ->
       PyDict.get f merged = Some pri) /\
      (PyFloat.eq (confidence sec) (confidence pri) = true ->
       PyDict.get f merged =
       Some (if (is_empty (value pri) && negb (is_empty (value sec)))%bool
             then sec else pri))).
Proof.
  cbv zeta. unfold _merge_fields. split; [|split].
  - apply merge_absent.
  - intros Hpri. destruct (PyDict.get f secondary) as [sec|] eqn:Hsec.
    + rewrite (merge_present _ _ _ _ Hdict Hsec), Hpri. reflexivity.
    + rewrite (merge_absent _ _ _ Hsec). exact Hpri.
  - intros pri sec Hpri Hsec.
    rewrite (merge_present _ _ _ _ Hdict Hsec), Hpri. unfold prefer, is_empty.
    split; [|split].
    + intros ->. reflexivity.
    + intros Hgt. rewrite (gt_asym _ _ Hgt), (gt_not_eq _ _ Hgt). reflexivity.
    + intros Heq. rewrite (eq_not_gt _ _ Heq), Heq, negb_involutive. reflexivity.
Qed.

Section TextTheorems.

Context `{Builtins}.
Variable cfg : ValidationConfig.

Lemma isoformat_truthy d : PyStr.truthy (PyDate.isoformat d) = true.
Proof.
  unfold PyDate.isoformat. destruct (PyDate.pad 4 (year d)); reflexivity.
Qed.

Lemma strftime_ymd_truthy d : PyStr.truthy (PyDate.strftime_ymd d) = true.
Proof.
  unfold PyDate.strftime_ymd. destruct (PyStr.of_Z (year d)); reflexivity.
Qed.

Lemma parse_date_formats_truthy value formats s :
  TextExtractor.parse_date_formats value formats = Some s -> PyStr.truthy s = true.
Proof.
  induction formats as [|fmt formats IH]; cbn [TextExtractor.parse_date_formats].
  - discriminate.
  - destruct (strptime value fmt); [|exact IH].
    intros E. injection E as <-. apply strftime_ymd_truthy.
Qed.

Lemma clean_amount raw :
  TextExtractor._clean_value cfg "total_amount" raw =
  TextExtractor.of_opt_float (TextExtractor._parse_amount (PyStr.strip raw)).
Proof.
  unfold TextExtractor._clean_value.
  destruct (PyStr.truthy raw) eqn:E; cbn [negb]; [reflexivity|].
  unfold PyStr.truthy in E. apply negb_false_iff, String.eqb_eq in E. subst raw.
  reflexivity.
Qed.

Lemma clean_date field_name raw :
  field_name = "date_of_deposit" \/ field_name = "tender_date" ->
  TextExtractor._clean_value cfg field_name raw =
  TextExtractor.of_opt_str (TextExtractor._parse_date cfg (PyStr.strip raw)).
Proof.
  unfold TextExtractor._clean_value.
  intros [-> | ->];
    (destruct (PyStr.truthy raw) eqn:E; cbn [negb]; [reflexivity|];
     unfold PyStr.truthy in E; apply negb_false_iff, String.eqb_eq in E; subst raw;
     reflexivity).
Qed.

End TextTheorems.

Section PipelineTheorems.

Context `{Builtins} `{Regex} `{Documents}.
Variable validation_config : ValidationConfig.

Local Abbreviation text_extract := (text_extract validation_config).
Local Abbreviation _try_text_extraction := (_try_text_extraction validation_config).
Local Abbreviation process_body := (process_body validation_config).
Local Abbreviation process := (process validation_config).
Local Abbreviation process_batch := (process_batch validation_config).

Lemma bind_returned {A B : Type} (m : outcome A) (k : A -> outcome B) (b : B) :
  mbind k m = Returned b -> exists a, m = Returned a /\ k a = Returned b.
Proof.
  destruct m as [a|e]; cbn; [eauto | discriminate].
Qed.





Lemma process_returns self pdf_path start_time end_time :
  exists result, process self pdf_path start_time end_time = Returned result.
Proof.
  unfold process, try_except.
  destruct (process_body self pdf_path start_time end_time); eexists; reflexivity.
Qed.


(** A batch never stops on a document: every job has its result. *)
Lemma process_batch_returns self jobs :
  exists results,
    process_batch self jobs = Returned results /\ List.length results = List.length jobs.
Proof.
  induction jobs as [|[[pdf_path start_time] end_time] jobs IH]; cbn [process_batch].
  - exists []. split; reflexivity.
  - destruct (process_returns self pdf_path start_time end_time) as (result & ->).
    destruct IH as (results & -> & Hlen).
    exists (result :: results). split; [reflexivity|]. cbn. now rewrite Hlen.
Qed.

End PipelineTheorems.

(** ** The flag and the frame of a validation *)

Section FlagTheorems.

Context `{Builtins}.

Lemma existsb_errors_in l :
  existsb is_error l = match errors_in l with [] => false | _ :: _ => true end.
Proof.
  unfold errors_in. induction l as [|i l IH]; cbn; [reflexivity|].
  destruct (is_error i); cbn; [reflexivity | exact IH].
Qed.

Lemma tan_has_error self record :
  existsb is_error (emitted (_validate_tan self record)) =
  negb (opt_truthy (tan record) && tan_pattern (config self) (or_empty (tan record))).
Proof.
  unfold emitted, _validate_tan.
  destruct (opt_truthy (tan record)); [|reflexivity].
  destruct (tan_pattern _ _); reflexivity.
Qed.

Lemma cin_has_error self record :
  existsb is_error (emitted (_validate_cin self record)) = negb (opt_truthy (cin record)).
Proof.
  unfold emitted, _validate_cin.
  destruct (opt_truthy (cin record)); [|reflexivity].
  destruct (_ <? _); reflexivity.
Qed.

Lemma amounts_has_error self record :
  existsb is_error (emitted (_validate_amounts self record)) =
  match total_amount record with
  | None => true
  | Some amount => PyFloat.lt amount 0
  end.
Proof.
  unfold emitted, _validate_amounts.
  destruct (total_amount record) as [amount|]; [|reflexivity].
  destruct (PyFloat.lt amount 0), (PyFloat.eq amount 0); reflexivity.
Qed.

Lemma sum_check_has_error self record :
  existsb is_error (emitted (_validate_sum_check self record)) =
  match total_amount record with
  | None => false
  | Some amount =>
      PyFloat.gt (sum_difference record amount) (sum_check_tolerance (config self))
  end.
Proof.
  unfold emitted, _validate_sum_check, sum_difference.
  destruct (total_amount record) as [amount|]; [|reflexivity].
  destruct (PyFloat.gt _ _); reflexivity.
Qed.

Lemma dates_has_error today self record :
  existsb is_error (emitted (_validate_dates today self record)) =
  match date_of_deposit record with
  | None => true
  | Some _ => false
  end.
Proof.
  unfold emitted, _validate_dates.
  destruct (date_of_deposit record) as [d|]; [|reflexivity].
  destruct (PyDate.gt d today), (3650 <? _); reflexivity.
Qed.

Lemma required_has_error self record :
  existsb is_error (emitted (_validate_required_fields self record)) = false.
Proof.
  rewrite existsb_errors_in, required_no_error. reflexivity.
Qed.

Lemma duplicate_has_error self record :
  existsb is_error (duplicate_issues self record) =
  bool_decide (hash_of record ∈ _seen_hashes self).
Proof. unfold duplicate_issues. destruct (bool_decide _); reflexivity. Qed.

(** X1: [validate] flags a record [OK] exactly when the TAN is there and
    matches the configured pattern, the CIN is there, the total amount is
    there, is not negative and differs from the sum of the tax breakup by
    no more than the tolerance, the date of deposit is there, and the
    validator has not seen the hash of the record. A short CIN, a zero
    amount, a date in the future or older than ten years and a missing
    challan number, BSR code, bank name or deductor name do not enter the
    condition: they do not flag. *)
Theorem flag_ok_iff today self record :
  validation_flag (record_after (validate today self record)) = OK <->
  opt_truthy (tan record) = true /\
  tan_pattern (config self) (or_empty (tan record)) = true /\
  opt_truthy (cin record) = true /\
  (exists amount,
      total_amount record = Some amount /\
      PyFloat.lt amount 0 = false /\
      PyFloat.gt (sum_difference record amount) (sum_check_tolerance (config self)) = false) /\
  date_of_deposit record <> None /\
  hash_of record ∉ _seen_hashes self.
Proof.
  rewrite flag_validate. unfold has_errors. rewrite issues_validate.
  unfold rule_issues. rewrite !existsb_app.
  rewrite tan_has_error, cin_has_error, amounts_has_error, sum_check_has_error,
    dates_has_error, required_has_error, duplicate_has_error.
  destruct (opt_truthy (tan record));
    [|split; [discriminate | intros (E & _); discriminate]].
  destruct (tan_pattern _ _);
    [|split; [discriminate | intros (_ & E & _); discriminate]].
  destruct (opt_truthy (cin record));
    [|split; [discriminate | intros (_ & _ & E & _); discriminate]].
  cbn [andb negb orb].
  destruct (total_amount record) as [amount|];
    [|split; [discriminate | intros (_ & _ & _ & (a & E & _) & _); discriminate]].
  destruct (PyFloat.lt amount 0) eqn:Elt;
    [split; [discriminate | intros (_ & _ & _ & (a & E & L & _) & _); congruence]|].
  destruct (PyFloat.gt _ _) eqn:Egt;
    [split; [discriminate | intros (_ & _ & _ & (a & E & _ & G) & _); congruence]|].
  destruct (date_of_deposit record) as [d|];
    [|split; [discriminate | intros (_ & _ & _ & _ & E & _); congruence]].
  cbn [orb].
  destruct (bool_decide _) eqn:Eseen.
  - apply bool_decide_eq_true in Eseen.
    split; [discriminate | intros (_ & _ & _ & _ & _ & E); contradiction].
  - apply bool_decide_eq_false in Eseen.
    split; [intros _ | reflexivity].
    repeat split; try reflexivity; try discriminate; eauto.
Qed.

(** X2: [validate] changes nothing of a record but its hash, its flag
    and its notes: putting the three old values back gives the record it
    was given. The hash it stores is the one [compute_hash] computes, the
    configuration of the validator is kept and the set of seen hashes only
    grows. *)
Theorem validate_frame today self record :
  let out := validate today self record in
  set_notes (notes record)
    (set_validation_flag (validation_flag record)
       (set_record_hash (record_hash record) (record_after out))) = record /\
  record_hash (record_after out) = Some (hash_of record) /\
  config (validator_after out) = config self /\
  _seen_hashes self ⊆ _seen_hashes (validator_after out).
Proof.
  cbv zeta.
  destruct (record_after_validate today self record) as (flag & note & ->).
  split; [destruct record; reflexivity|].
  split; [reflexivity|].
  split; [apply config_validate|].
  rewrite seen_validate. apply union_subseteq_r.
Qed.

End FlagTheorems.

(** ** The kinds of issue *)

Section IssueKinds.

Context `{Builtins}.

Ltac kinds_cases :=
  repeat match goal with
         | |- context [if ?b then _ else _] => destruct b
         | |- context [match ?o with Some _ => _ | None => _ end] => destruct o
         end;
  cbn [issues append_issue set_original_value blank_result app In];
  intros Hin; repeat (destruct Hin as [<-|Hin]; [cbn; tauto|]); destruct Hin.

Lemma tan_kinds self record i :
  In i (emitted (_validate_tan self record)) ->
  In (kind_of i) [("tan", "missing", "error"); ("tan", "format", "error")].
Proof. unfold emitted, _validate_tan. kinds_cases. Qed.

Lemma cin_kinds self record i :
  In i (emitted (_validate_cin self record)) ->
  In (kind_of i) [("cin", "missing", "error"); ("cin", "format", "warning")].
Proof. unfold emitted, _validate_cin. kinds_cases. Qed.

Lemma amounts_kinds self record i :
  In i (emitted (_validate_amounts self record)) ->
  In (kind_of i) [("total_amount", "missing", "error"); ("total_amount", "invalid", "error");
                  ("total_amount", "suspicious", "warning")].
Proof. unfold emitted, _validate_amounts. kinds_cases. Qed.

Lemma sum_check_kinds self record i :
  In i (emitted (_validate_sum_check self record)) ->
  In (kind_of i) [("tax_breakup", "sum_mismatch", "error")].
Proof. unfold emitted, _validate_sum_check. kinds_cases. Qed.

Lemma dates_kinds today self record i :
  In i (emitted (_validate_dates today self record)) ->
  In (kind_of i) [("date_of_deposit", "missing", "error");
                  ("date_of_deposit", "future_date", "warning");
                  ("date_of_deposit", "old_date", "warning")].
Proof. unfold emitted, _validate_dates. kinds_cases. Qed.

Lemma required_kinds self record i :
  In i (emitted (_validate_required_fields self record)) ->
  In (kind_of i) [("challan_no", "missing", "warning"); ("bsr_code", "missing", "warning");
                  ("bank_name", "missing", "warning"); ("deductor_name", "missing", "warning")].
Proof.
  unfold emitted, _validate_required_fields. cbn [fold_left]. unfold check_required.
  kinds_cases.
Qed.

Lemma duplicate_kinds self record i :
  In i (duplicate_issues self record) -> In (kind_of i) [("record", "duplicate", "error")].
Proof. unfold duplicate_issues. kinds_cases. Qed.

Lemma issue_of_validate today self record i :
  In i (issues (result_of (validate today self record))) ->
  In i (emitted (_validate_tan self record)) \/
  In i (emitted (_validate_cin self record)) \/
  In i (emitted (_validate_amounts self record)) \/
  In i (emitted (_validate_sum_check self record)) \/
  In i (emitted (_validate_dates today self record)) \/
  In i (emitted (_validate_required_fields self record)) \/
  In i (duplicate_issues self record).
Proof.
  rewrite issues_validate. unfold rule_issues. rewrite !in_app_iff. tauto.
Qed.

(** X3: every issue [validate] reports has one of sixteen (field, type,
    severity) triples, and its severity is [error] or [warning]: no rule
    emits the severity [info]. *)
Theorem validate_issue_kinds today self record :
  Forall (fun i => In (kind_of i) issue_kinds /\
                   (severity i = "error" \/ severity i = "warning"))
    (issues (result_of (validate today self record))).
Proof.
  apply List.Forall_forall. intros i Hi.
  assert (In (kind_of i) issue_kinds) as K.
  { apply issue_of_validate in Hi. unfold issue_kinds.
    destruct Hi as [Hi|[Hi|[Hi|[Hi|[Hi|[Hi|Hi]]]]]];
      [apply tan_kinds in Hi | apply cin_kinds in Hi | apply amounts_kinds in Hi
      | apply sum_check_kinds in Hi | apply dates_kinds in Hi | apply required_kinds in Hi
      | apply duplicate_kinds in Hi];
      cbn [In] in Hi |- *; rewrite <- ?Hi; intuition congruence. }
  split; [exact K|].
  unfold issue_kinds, kind_of in K. cbn [In] in K.
  repeat (destruct K as [K|K]; [injection K as _ _ <-; tauto|]). destruct K.
Qed.

(** A record that has a total amount is never reported to miss it. *)
Lemma amount_present_not_missing today self record amount :
  total_amount record = Some amount ->
  ~ In missing_amount_issue (issues (result_of (validate today self record))).
Proof.
  intros Ha Hi. apply issue_of_validate in Hi.
  destruct Hi as [Hi|[Hi|[Hi|[Hi|[Hi|[Hi|Hi]]]]]];
    [apply tan_kinds in Hi | apply cin_kinds in Hi |
    | apply sum_check_kinds in Hi | apply dates_kinds in Hi | apply required_kinds in Hi
    | apply duplicate_kinds in Hi];
    try (cbn in Hi; intuition discriminate).
  rewrite amounts_emitted, Ha in Hi.
  destruct (PyFloat.lt amount 0), (PyFloat.eq amount 0); cbn in Hi; intuition discriminate.
Qed.

End IssueKinds.

(** ** The date rule *)

Section DateFacts.

Lemma days_before_year_step y :
  PyDate.days_before_year (y + 1) =
  PyDate.days_before_year y + (if PyDate.is_leap y then 366 else 365).
Proof.
  unfold PyDate.days_before_year, PyDate.is_leap. cbv zeta.
  replace (y + 1 - 1) with y by lia.
  destruct (y mod 4 =? 0) eqn:E4; destruct (y mod 100 =? 0) eqn:E100;
    destruct (y mod 400 =? 0) eqn:E400; cbn [andb orb negb];
    rewrite ?Z.eqb_eq, ?Z.eqb_neq in *; Z.div_mod_to_equations; lia.
Qed.

Lemma days_before_year_mono a b :
  a <= b -> PyDate.days_before_year a <= PyDate.days_before_year b.
Proof.
  intros Hab. unfold PyDate.days_before_year. cbv zeta.
  Z.div_mod_to_equations. lia.
Qed.

Lemma valid_bounds d :
  PyDate.valid d = true ->
  1 <= year d /\ 1 <= month d <= 12 /\ 1 <= day d <= PyDate.days_in_month (year d) (month d).
Proof.
  unfold PyDate.valid. rewrite !andb_true_iff, !Z.leb_le. lia.
Qed.

Lemma month_cases m : 1 <= m <= 12 ->
  m = 1 \/ m = 2 \/ m = 3 \/ m = 4 \/ m = 5 \/ m = 6 \/
  m = 7 \/ m = 8 \/ m = 9 \/ m = 10 \/ m = 11 \/ m = 12.
Proof. lia. Qed.

Lemma month_table y m :
  1 <= m <= 12 ->
  let feb := if PyDate.is_leap y then 29 else 28 in
  PyDate.days_in_month y m =
    nth (Z.to_nat (m - 1)) [31; feb; 31; 30; 31; 30; 31; 31; 30; 31; 30; 31] 0 /\
  PyDate.days_before_month y m =
    nth (Z.to_nat (m - 1))
      [0; 31; 31 + feb; 62 + feb; 92 + feb; 123 + feb; 153 + feb; 184 + feb;
       215 + feb; 245 + feb; 276 + feb; 306 + feb] 0.
Proof.
  intros Hm. apply month_cases in Hm.
  repeat (destruct Hm as [->|Hm]); try subst m; cbv zeta;
    (split; [reflexivity|]);
    unfold PyDate.days_before_month;
    match goal with
    | |- context [Z.to_nat ?e] =>
        let v := eval vm_compute in (Z.to_nat e) in change (Z.to_nat e) with v
    end;
    cbn [PyDate.days_before_month_aux nth];
    repeat match goal with
           | |- context [PyDate.days_in_month y (Z.of_nat ?k)] =>
               let v := eval vm_compute in (Z.of_nat k) in
               change (PyDate.days_in_month y (Z.of_nat k)) with (PyDate.days_in_month y v)
           end;
    repeat match goal with
           | |- context [PyDate.days_in_month y ?k] =>
               let r := eval cbv beta iota delta [PyDate.days_in_month Z.eqb Pos.eqb orb] in
                          (PyDate.days_in_month y k) in
               change (PyDate.days_in_month y k) with r
           end;
    destruct (PyDate.is_leap y); lia.
Qed.

Lemma year_length y m :
  1 <= m <= 12 ->
  PyDate.days_before_month y m + PyDate.days_in_month y m <=
  (if PyDate.is_leap y then 366 else 365) /\
  0 <= PyDate.days_before_month y m.
Proof.
  intros Hm. destruct (month_table y m Hm) as [-> ->].
  apply month_cases in Hm.
  repeat (destruct Hm as [->|Hm]); try subst m;
    match goal with
    | |- context [Z.to_nat ?e] =>
        let v := eval vm_compute in (Z.to_nat e) in change (Z.to_nat e) with v
    end; cbn [nth]; destruct (PyDate.is_leap y); lia.
Qed.

Lemma month_order y m1 m2 :
  1 <= m1 -> m1 < m2 -> m2 <= 12 ->
  PyDate.days_before_month y m1 + PyDate.days_in_month y m1 <= PyDate.days_before_month y m2.
Proof.
  intros H1 H12 H2.
  assert (1 <= m1 <= 12) as C1 by lia. assert (1 <= m2 <= 12) as C2 by lia.
  destruct (month_table y m1 C1) as [-> ->]. destruct (month_table y m2 C2) as [_ ->].
  apply month_cases in C1, C2.
  repeat (destruct C1 as [->|C1]); try subst m1;
    repeat (destruct C2 as [->|C2]); try subst m2; try lia;
    repeat match goal with
    | |- context [Z.to_nat ?e] =>
        let v := eval vm_compute in (Z.to_nat e) in change (Z.to_nat e) with v
    end; cbn [nth]; destruct (PyDate.is_leap y); lia.
Qed.

(** On valid dates the order of [datetime.date] is the order of the day
    numbers. *)
Lemma gt_toordinal a b :
  PyDate.valid a = true -> PyDate.valid b = true ->
  PyDate.gt a b = true -> PyDate.toordinal b < PyDate.toordinal a.
Proof.
  intros Ha Hb. apply valid_bounds in Ha, Hb.
  destruct a as [ya ma da], b as [yb mb db]. unfold PyDate.gt, PyDate.toordinal.
  cbn [year month day] in *.
  rewrite orb_true_iff, andb_true_iff, orb_true_iff, andb_true_iff, !Z.ltb_lt, !Z.eqb_eq.
  pose proof (year_length yb mb ltac:(lia)) as [Lb _].
  pose proof (year_length ya ma ltac:(lia)) as [_ La].
  intros [Hy | [-> [Hm | [-> Hd]]]].
  - pose proof (days_before_year_mono (yb + 1) ya ltac:(lia)) as M.
    rewrite days_before_year_step in M. lia.
  - pose proof (month_order ya mb ma ltac:(lia) Hm ltac:(lia)). lia.
  - lia.
Qed.

End DateFacts.

Section DateTheorems.

Context `{Builtins}.

(** X4: on calendar dates the order of [datetime.date] agrees with the
    day numbers, so a date of deposit after today is not more than 3650
    days old: the date rule reports the future date or the old date, never
    both, and a record gets at most one issue on its date of deposit. *)
Theorem date_warnings_exclusive today self record deposit_date :
  PyDate.valid today = true ->
  PyDate.valid deposit_date = true ->
  date_of_deposit record = Some deposit_date ->
  (PyDate.gt deposit_date today = true ->
   PyDate.toordinal today < PyDate.toordinal deposit_date) /\
  (List.length (emitted (_validate_dates today self record)) <= 1)%nat.
Proof.
  intros Ht Hd Hr.
  assert (PyDate.gt deposit_date today = true ->
          PyDate.toordinal today < PyDate.toordinal deposit_date) as G
    by (now apply gt_toordinal).
  split; [exact G|].
  unfold emitted, _validate_dates. rewrite Hr.
  destruct (PyDate.gt deposit_date today) eqn:E.
  - specialize (G eq_refl).
    assert ((3650 <? PyDate.days_between today deposit_date) = false) as ->
      by (apply Z.ltb_ge; unfold PyDate.days_between; lia).
    cbn; lia.
  - destruct (3650 <? _); cbn; lia.
Qed.

End DateTheorems.

(** ** Duplicates in a batch *)

Section BatchTheorems.

Context `{Builtins}.

Lemma validate_loop_length today records : forall self,
  List.length (snd (fst (validate_loop today self records))) = List.length records /\
  List.length (snd (validate_loop today self records)) = List.length records.
Proof.
  induction records as [|record records IH]; intros self; cbn [validate_loop].
  - split; reflexivity.
  - destruct (validate today self record) as [[self1 record1] result1].
    specialize (IH self1).
    destruct (validate_loop today self1 records) as [[self2 rest] results].
    cbn [fst snd List.length] in *. destruct IH as [-> ->]. split; reflexivity.
Qed.

Lemma validate_loop_duplicates today records : forall self k record result,
  records !! k = Some record ->
  snd (validate_loop today self records) !! k = Some result ->
  List.filter (has_type "duplicate") (issues result) =
  if bool_decide (hash_of record ∈ _seen_hashes self ∪ list_to_set (hash_of <$> take k records))
  then [duplicate_issue (hash_of record)] else [].
Proof.
  induction records as [|first records IH]; intros self k record result Hk Hr.
  - discriminate.
  - cbn [validate_loop] in Hr.
    pose proof (duplicates_of_validate today self first) as D.
    pose proof (seen_validate today self first) as S.
    destruct (validate today self first) as [[self1 first1] result1].
    unfold result_of, validator_after in D, S. cbn [fst snd] in D, S.
    specialize (IH self1).
    destruct (validate_loop today self1 records) as [[self2 rest] results].
    cbn [snd] in Hr, IH.
    destruct k as [|k]; cbn in Hk, Hr.
    + injection Hk as <-. injection Hr as <-. rewrite D. unfold duplicate_issues.
      cbn [take fmap list_fmap list_to_set]. rewrite union_empty_r_L. reflexivity.
    + rewrite (IH k record result Hk Hr), S.
      cbn [take fmap list_fmap list_to_set].
      rewrite (union_comm_L {[hash_of first]} (_seen_hashes self)), <- union_assoc_L.
      reflexivity.
Qed.

(** X5: in the results of [validate_batch] the result of the record at
    position [k] holds a [duplicate] issue exactly when a record before it
    in the batch has the same hash, whatever the validator had seen before
    the call; it then holds exactly one. *)
Theorem validate_batch_duplicates today self records k record result :
  records !! k = Some record ->
  snd (validate_batch today self records) !! k = Some result ->
  List.filter (has_type "duplicate") (issues result) =
  if bool_decide (hash_of record ∈ (hash_of <$> take k records))
  then [duplicate_issue (hash_of record)] else [].
Proof.
  intros Hk Hr. unfold validate_batch in Hr.
  rewrite (validate_loop_duplicates _ _ _ _ _ _ Hk Hr).
  cbn [reset_dedupe_cache _seen_hashes]. rewrite union_empty_l_L.
  rewrite (bool_decide_ext _ _ (elem_of_list_to_set (C:=gset string) _ _)). reflexivity.
Qed.

End BatchTheorems.

(** ** More on the merge *)

Section MergeTheorems.

Implicit Types (primary secondary merged : list (string * FieldConfidence)).

Lemma prefer_not_lower pri sec :
  PyFloat.lt (confidence (prefer pri sec)) (confidence pri) = false /\
  PyFloat.lt (confidence (prefer pri sec)) (confidence sec) = false.
Proof.
  unfold prefer.
  destruct (PyFloat.gt (confidence sec) (confidence pri)) eqn:G.
  - split; [|apply gt_irrefl]. apply gt_asym in G. exact G.
  - destruct (PyFloat.eq (confidence sec) (confidence pri)) eqn:E.
    + assert (PyFloat.lt (confidence sec) (confidence pri) = false) as L1.
      { destruct (PyFloat.lt (confidence sec) (confidence pri)) eqn:L; [|reflexivity].
        apply lt_not_eq in L. congruence. }
      destruct (_ && _)%bool; split;
        [exact L1 | apply gt_irrefl | apply gt_irrefl | exact G].
    + split; [apply gt_irrefl | exact G].
Qed.

(** X6: the merge never lowers a confidence: a field of the primary map
    is in the merged map with a confidence that is not below the
    primary one, and a field of the secondary map is in the merged map with
    a confidence that is not below the secondary one. *)
Theorem merge_keeps_best primary secondary (Hdict : PyDict.wf secondary) f :
  let merged := _merge_fields primary secondary in
  (forall pri, PyDict.get f primary = Some pri ->
     exists m, PyDict.get f merged = Some m /\
               PyFloat.lt (confidence m) (confidence pri) = false) /\
  (forall sec, PyDict.get f secondary = Some sec ->
     exists m, PyDict.get f merged = Some m /\
               PyFloat.lt (confidence m) (confidence sec) = false).
Proof.
  cbv zeta. unfold _merge_fields. split.
  - intros pri Hp. destruct (PyDict.get f secondary) as [sec|] eqn:Hs.
    + rewrite (merge_present _ _ _ _ Hdict Hs), Hp.
      eexists; split; [reflexivity|]. apply prefer_not_lower.
    + rewrite (merge_absent _ _ _ Hs), Hp.
      eexists; split; [reflexivity|]. apply gt_irrefl.
  - intros sec Hs. rewrite (merge_present _ _ _ _ Hdict Hs).
    destruct (PyDict.get f primary) as [pri|].
    + eexists; split; [reflexivity|]. apply prefer_not_lower.
    + eexists; split; [reflexivity|]. apply gt_irrefl.
Qed.

Lemma contains_merge_step merged g sec k :
  PyDict.contains k (merge_step merged (g, sec)) =
  (String.eqb g k || PyDict.contains k merged)%bool.
Proof.
  unfold PyDict.contains.
  destruct (String.eqb g k) eqn:E.
  - apply String.eqb_eq in E. subst k. now rewrite merge_step_same.
  - apply String.eqb_neq in E. now rewrite merge_step_other.
Qed.

Lemma keys_merge_step merged g sec :
  PyDict.keys (merge_step merged (g, sec)) =
  if PyDict.contains g merged then PyDict.keys merged else PyDict.keys merged ++ [g].
Proof.
  unfold merge_step, PyDict.contains.
  destruct (PyDict.get g merged) as [pri|] eqn:E.
  - repeat match goal with |- context [if ?b then _ else _] => destruct b end;
      try reflexivity; rewrite keys_set; unfold PyDict.contains; now rewrite E.
  - rewrite keys_set. unfold PyDict.contains. now rewrite E.
Qed.

Lemma keys_fold_merge secondary : forall merged,
  PyDict.wf secondary ->
  PyDict.keys (fold_left merge_step secondary merged) =
  PyDict.keys merged ++
  List.filter (fun k => negb (PyDict.contains k merged)) (PyDict.keys secondary).
Proof.
  induction secondary as [|[g sec] secondary IH]; intros merged Hwf; cbn [fold_left].
  - cbn. now rewrite app_nil_r.
  - unfold PyDict.wf in Hwf. cbn in Hwf. apply NoDup_cons in Hwf as [Hg Hwf].
    rewrite (IH _ Hwf), keys_merge_step.
    assert (List.filter (fun k => negb (PyDict.contains k (merge_step merged (g, sec))))
              (PyDict.keys secondary) =
            List.filter (fun k => negb (PyDict.contains k merged)) (PyDict.keys secondary)) as ->.
    { apply List.filter_ext_in. intros k Hk. rewrite contains_merge_step.
      destruct (String.eqb g k) eqn:E; [|reflexivity].
      apply String.eqb_eq in E. subst k. exfalso. apply Hg. now apply list_elem_of_In. }
    cbn [PyDict.keys List.map fst List.filter].
    destruct (PyDict.contains g merged); cbn [negb]; [reflexivity|].
    now rewrite <- app_assoc.
Qed.

(** X7: the merged map has the keys of the primary map, in their order,
    followed by the keys of the secondary map that the primary map does
    not have, in their order: no field is lost and none is invented. *)
Theorem merge_fields_keys primary secondary :
  PyDict.wf secondary ->
  PyDict.keys (_merge_fields primary secondary) =
  PyDict.keys primary ++
  List.filter (fun k => negb (PyDict.contains k primary)) (PyDict.keys secondary).
Proof. intros Hwf. now apply keys_fold_merge. Qed.

Lemma merge_step_fixed merged g v :
  PyDict.get g merged = Some v -> merge_step merged (g, v) = merged.
Proof.
  intros E. unfold merge_step. rewrite E, gt_irrefl.
  destruct (PyFloat.eq _ _); [|reflexivity].
  now destruct (PyVal.truthy (value v)).
Qed.

Lemma fold_merge_fixed l : forall merged,
  (forall g v, In (g, v) l -> PyDict.get g merged = Some v) ->
  fold_left merge_step l merged = merged.
Proof.
  induction l as [|[g v] l IH]; intros merged Hl; cbn [fold_left]; [reflexivity|].
  rewrite merge_step_fixed by (apply Hl; now left).
  apply IH. intros g' v' Hin. apply Hl. now right.
Qed.

Lemma get_In_wf (d : list (string * FieldConfidence)) g v :
  PyDict.wf d -> In (g, v) d -> PyDict.get g d = Some v.
Proof.
  induction d as [|[k w] d IH]; intros Hwf Hin; [destruct Hin|].
  unfold PyDict.wf in Hwf. cbn in Hwf. apply NoDup_cons in Hwf as [Hk Hwf].
  cbn. destruct Hin as [E|Hin].
  - injection E as -> ->. now rewrite String.eqb_refl.
  - destruct (String.eqb k g) eqn:E; [|now apply IH].
    apply String.eqb_eq in E. subst k. exfalso. apply Hk.
    apply list_elem_of_In. change g with (fst (g, v)). now apply in_map.
Qed.

Lemma fold_merge_append l : forall merged,
  PyDict.wf l ->
  (forall g, In g (PyDict.keys l) -> PyDict.get g merged = None) ->
  fold_left merge_step l merged = merged ++ l.
Proof.
  induction l as [|[g v] l IH]; intros merged Hwf Hnew; cbn [fold_left].
  - now rewrite app_nil_r.
  - unfold PyDict.wf in Hwf. cbn in Hwf. apply NoDup_cons in Hwf as [Hg Hwf].
    assert (merge_step merged (g, v) = merged ++ [(g, v)]) as ->.
    { unfold merge_step. rewrite (Hnew g) by now left.
      clear - Hnew. assert (PyDict.get g merged = None) as E by (apply Hnew; now left).
      clear Hnew. induction merged as [|[k w] merged IH]; [reflexivity|].
      cbn in E |- *. destruct (String.eqb k g); [discriminate|]. now rewrite IH. }
    rewrite IH.
    + now rewrite <- app_assoc.
    + exact Hwf.
    + intros k Hk. apply get_None_keys. unfold PyDict.keys. rewrite List.map_app, in_app_iff.
      intros [Hin|[<-|[]]].
      * assert (PyDict.get k merged = None) as E by (apply Hnew; now right).
        apply get_None_keys in E. now apply E.
      * apply Hg. now apply list_elem_of_In.
Qed.

(** X8: merging a map with the empty map, the empty map with a map, or a
    map with itself gives the map back. *)
Theorem merge_fields_neutral (fields : list (string * FieldConfidence)) :
  PyDict.wf fields ->
  _merge_fields fields [] = fields /\
  _merge_fields [] fields = fields /\
  _merge_fields fields fields = fields.
Proof.
  intros Hwf. unfold _merge_fields. split; [reflexivity|]. split.
  - now rewrite fold_merge_append.
  - apply fold_merge_fixed. intros g v Hin. now apply get_In_wf.
Qed.

End MergeTheorems.

Section CompletenessTheorems.

Lemma required_found_le fields : (required_found fields <= 5)%nat.
Proof.
  unfold required_found.
  etransitivity; [apply List.filter_length_le|]. reflexivity.
Qed.

(** X9: the completeness is below 0.7, the threshold under which
    [process] turns to OCR, exactly when at most three of the five
    required fields have a value; it is 1.0 exactly when all five have
    one and 0.0 exactly when none has. *)
Theorem completeness_threshold fields :
  (PyFloat.lt (_calculate_completeness fields) 0.7 = true <->
   (required_found fields <= 3)%nat) /\
  (_calculate_completeness fields = 1.0%float <-> required_found fields = 5%nat) /\
  (_calculate_completeness fields = 0.0%float <-> required_found fields = 0%nat).
Proof.
  pose proof (required_found_le fields) as Hle.
  assert (_calculate_completeness fields =
          (PyFloat.of_Z (Z.of_nat (required_found fields)) / PyFloat.of_Z 5)%float) as ->
    by reflexivity.
  destruct (required_found fields) as [|[|[|[|[|[|n]]]]]]; [..|lia];
    vm_compute; repeat split; intros; try lia; try discriminate; try reflexivity.
Qed.

End CompletenessTheorems.

(** ** What the text strategy stores *)

Section TextOutputs.

Context `{Builtins} `{Regex}.
Variable cfg : ValidationConfig.

Lemma Forall_set {V : Type} (P : string * V -> Prop) k v (d : list (string * V)) :
  (forall k', k' = k -> P (k', v)) -> Forall P d -> Forall P (PyDict.set k v d).
Proof.
  intros Hv. induction d as [|[k0 v0] d IH]; intros Hd; cbn.
  - constructor; [now apply Hv | constructor].
  - apply Forall_cons in Hd as [Hk0 Hd].
    destruct (String.eqb k0 k) eqn:E.
    + apply String.eqb_eq in E. constructor; [now apply Hv | exact Hd].
    + constructor; [exact Hk0 | now apply IH].
Qed.

Lemma field_confidence_values field_name raw_value cleaned_value :
  In (TextExtractor._calculate_field_confidence cfg field_name raw_value cleaned_value)
     [0.3; 0.98; 0.6; 0.95; 0.7; 0.5; 0.9]%float.
Proof.
  unfold TextExtractor._calculate_field_confidence.
  repeat match goal with |- context [if ?b then _ else _] => destruct b end;
    cbn; tauto.
Qed.

Lemma field_confidence_unit field_name raw_value cleaned_value :
  in_unit_range
    (TextExtractor._calculate_field_confidence cfg field_name raw_value cleaned_value) = true.
Proof.
  pose proof (field_confidence_values field_name raw_value cleaned_value) as Hin.
  cbn in Hin. repeat (destruct Hin as [<-|Hin]; [reflexivity|]). destruct Hin.
Qed.

Lemma matched_tax_unit captured :
  in_unit_range (confidence (TextExtractor.matched_tax_field captured)) = true.
Proof.
  unfold TextExtractor.matched_tax_field. cbn [confidence].
  destruct (TextExtractor._parse_amount _); reflexivity.
Qed.

Lemma fold_fields_Forall (P : FieldConfidence -> Prop) text patterns :
  (forall field_name captured, P (TextExtractor.matched_field cfg field_name captured)) ->
  forall fields,
  Forall (fun kv => P (snd kv)) fields ->
  Forall (fun kv => P (snd kv))
    (fold_left
       (fun fields '(field_name, pattern) =>
          match re_search_group1 pattern text IgnoreCaseMultiline with
          | Some captured =>
              PyDict.set field_name (TextExtractor.matched_field cfg field_name captured) fields
          | None => fields
          end)
       patterns fields).
Proof.
  intros HP.
  induction patterns as [|[field_name pattern] patterns IH]; intros fields Hf; cbn [fold_left];
    [exact Hf|].
  apply IH. destruct (re_search_group1 _ _ _); [|exact Hf].
  apply Forall_set; [|exact Hf]. intros ? _. apply HP.
Qed.

Lemma fold_tax_unit text patterns : forall fields,
  Forall (fun kv => in_unit_range (confidence (snd kv)) = true) fields ->
  Forall (fun kv => in_unit_range (confidence (snd kv)) = true)
    (fold_left
       (fun fields '(field_name, pattern) =>
          match re_search_group1 pattern text IgnoreCaseMultiline with
          | Some captured =>
              PyDict.set field_name (TextExtractor.matched_tax_field captured) fields
          | None => PyDict.set field_name (mkFieldConfidence (VFloat 0.0) 0.8 "default" None) fields
          end)
       patterns fields).
Proof.
  induction patterns as [|[field_name pattern] patterns IH]; intros fields Hf; cbn [fold_left];
    [exact Hf|].
  apply IH. destruct (re_search_group1 _ _ _);
    (apply Forall_set; [|exact Hf]); intros ? _; cbn [snd];
    [apply matched_tax_unit | reflexivity].
Qed.

Lemma Forall_update {V : Type} (P : string * V -> Prop) (other : list (string * V)) :
  forall d, Forall P d -> Forall P other -> Forall P (PyDict.update d other).
Proof.
  unfold PyDict.update.
  induction other as [|[k v] other IH]; intros d Hd Ho; cbn [fold_left]; [exact Hd|].
  apply Forall_cons in Ho as [Hkv Ho].
  apply IH; [|exact Ho]. cbn [fst snd].
  apply Forall_set; [|exact Hd]. intros k' ->. exact Hkv.
Qed.

(** X10: every confidence the text strategy stores lies between 0 and 1,
    the bounds the model [FieldConfidence] enforces, whatever the text and
    whatever the patterns capture; the confidence of a main field is one
    of 0.3, 0.98, 0.6, 0.95, 0.7, 0.5 and 0.9. *)
Theorem text_confidences_in_range text :
  Forall (fun kv => in_unit_range (confidence (snd kv)) = true)
    (PyDict.update (TextExtractor._extract_fields cfg text)
                   (TextExtractor._extract_tax_breakup text)) /\
  Forall (fun kv =>
            In (confidence (snd kv)) [0.3; 0.98; 0.6; 0.95; 0.7; 0.5; 0.9]%float)
    (TextExtractor._extract_fields cfg text).
Proof.
  split.
  - apply Forall_update.
    + apply (fold_fields_Forall (fun fc => in_unit_range (confidence fc) = true));
        [|constructor].
      intros field_name captured. apply field_confidence_unit.
    + apply fold_tax_unit. constructor.
  - apply (fold_fields_Forall
             (fun fc => In (confidence fc) [0.3; 0.98; 0.6; 0.95; 0.7; 0.5; 0.9]%float));
      [|constructor].
    intros field_name captured. apply field_confidence_values.
Qed.

Lemma tax_breakup_get text field_name pattern :
  In (field_name, pattern) TextExtractor.TAX_PATTERNS ->
  PyDict.get field_name (TextExtractor._extract_tax_breakup text) =
  Some match re_search_group1 pattern text IgnoreCaseMultiline with
       | Some captured => TextExtractor.matched_tax_field captured
       | None => tax_default
       end.
Proof.
  unfold TextExtractor._extract_tax_breakup, TextExtractor.TAX_PATTERNS, tax_default.
  cbn [fold_left]. intros Hin. cbn [In] in Hin.
  repeat (destruct Hin as [E|Hin];
          [injection E as <- <-;
           repeat match goal with
                  | |- context [match ?o with Some _ => _ | None => _ end] => destruct o
                  end; reflexivity|]).
  destruct Hin.
Qed.

Lemma tax_breakup_keys text :
  PyDict.keys (TextExtractor._extract_tax_breakup text) =
  tax_fields.
Proof.
  unfold TextExtractor._extract_tax_breakup, TextExtractor.TAX_PATTERNS, tax_fields.
  cbn [fold_left].
  repeat match goal with
         | |- context [match ?o with Some _ => _ | None => _ end] => destruct o
         end; reflexivity.
Qed.

(** X11: [_extract_tax_breakup] returns the six components [tax_a] to
    [tax_f], in this order, for every text: a component whose pattern
    matches nowhere is stored as 0.0 with confidence 0.8 and the method
    [default], the others as the captured amount. *)
Theorem tax_breakup_complete text :
  PyDict.keys (TextExtractor._extract_tax_breakup text) =
    tax_fields /\
  forall field_name pattern,
    In (field_name, pattern) TextExtractor.TAX_PATTERNS ->
    PyDict.get field_name (TextExtractor._extract_tax_breakup text) =
    Some match re_search_group1 pattern text IgnoreCaseMultiline with
         | Some captured => TextExtractor.matched_tax_field captured
         | None => tax_default
         end.
Proof.
  split; [apply tax_breakup_keys | apply tax_breakup_get].
Qed.

End TextOutputs.

(** ** The main fields of the text strategy *)

Section TextFieldTheorems.

Context `{Builtins} `{Regex}.
Variable cfg : ValidationConfig.

(** The loop of [_extract_fields] over patterns none of which is the one
    of [field_name] leaves the entry of [field_name] as it was. *)
Lemma fold_matched_other {V : Type} (search : string -> option string)
    (entry : string -> string -> V) (field_name : string) patterns : forall fields,
  ~ In field_name (List.map fst patterns) ->
  PyDict.get field_name
    (fold_left
       (fun fields '(name, pattern) =>
          match search pattern with
          | Some captured => PyDict.set name (entry name captured) fields
          | None => fields
          end) patterns fields) =
  PyDict.get field_name fields.
Proof.
  induction patterns as [|[name pattern] patterns IH]; intros fields Hn; cbn [fold_left];
    [reflexivity|].
  cbn [List.map fst In] in Hn. rewrite IH by tauto.
  destruct (search pattern); [|reflexivity].
  apply get_set_ne. tauto.
Qed.

Lemma fold_matched_get {V : Type} (search : string -> option string)
    (entry : string -> string -> V) (field_name pattern : string) patterns : forall fields,
  NoDup (List.map fst patterns) ->
  In (field_name, pattern) patterns ->
  PyDict.get field_name
    (fold_left
       (fun fields '(name, pattern) =>
          match search pattern with
          | Some captured => PyDict.set name (entry name captured) fields
          | None => fields
          end) patterns fields) =
  match search pattern with
  | Some captured => Some (entry field_name captured)
  | None => PyDict.get field_name fields
  end.
Proof.
  induction patterns as [|[name p] patterns IH]; intros fields Hd Hin; [destruct Hin|].
  cbn [List.map fst] in Hd. apply NoDup_cons in Hd as [Hname Hd].
  rewrite list_elem_of_In in Hname. cbn [fold_left].
  destruct Hin as [E|Hin].
  - injection E as -> ->. rewrite fold_matched_other by exact Hname.
    destruct (search pattern); [apply get_set_eq | reflexivity].
  - rewrite (IH _ Hd Hin).
    destruct (search pattern); [reflexivity|].
    destruct (search p); [|reflexivity].
    apply get_set_ne. intros ->. apply Hname.
    apply in_map_iff. exists (field_name, pattern). split; [reflexivity | exact Hin].
Qed.

Lemma field_patterns_distinct :
  NoDup (List.map fst (TextExtractor.FIELD_PATTERNS ++ TextExtractor.TAX_PATTERNS)).
Proof.
  apply (bool_decide_unpack _). vm_compute. exact I.
Qed.

(** What [_extract_fields] holds for a field whose pattern matches: the
    entry made of the capture. *)
Lemma extract_fields_get text field_name pattern captured :
  PyDict.get field_name TextExtractor.FIELD_PATTERNS = Some pattern ->
  re_search_group1 pattern text IgnoreCaseMultiline = Some captured ->
  PyDict.get field_name (TextExtractor._extract_fields cfg text) =
    Some (TextExtractor.matched_field cfg field_name captured).
Proof.
  intros Hp Hc. unfold TextExtractor._extract_fields.
  pose proof field_patterns_distinct as Hd.
  rewrite List.map_app in Hd. apply NoDup_app in Hd as (Hd & _ & _).
  rewrite (fold_matched_get
             (fun pattern => re_search_group1 pattern text IgnoreCaseMultiline)
             (TextExtractor.matched_field cfg) field_name pattern
             TextExtractor.FIELD_PATTERNS [] Hd (get_In _ _ _ Hp)).
  now rewrite Hc.
Qed.

(** The tax components have other names than the main fields, so what
    [extract] adds to the map leaves the main fields as they are. *)
Lemma extract_keeps_main_field text field_name pattern :
  PyDict.get field_name TextExtractor.FIELD_PATTERNS = Some pattern ->
  PyDict.get field_name
    (PyDict.update (TextExtractor._extract_fields cfg text)
       (TextExtractor._extract_tax_breakup text)) =
  PyDict.get field_name (TextExtractor._extract_fields cfg text).
Proof.
  intros Hp. unfold PyDict.update.
  assert (~ In field_name (PyDict.keys (TextExtractor._extract_tax_breakup text))) as Hn.
  { rewrite tax_breakup_keys. apply get_In in Hp. revert Hp. clear.
    unfold TextExtractor.FIELD_PATTERNS, tax_fields. cbn [In]. intros Hp.
    repeat (destruct Hp as [E|Hp]; [injection E as <- _; intuition discriminate|]).
    destruct Hp. }
  revert Hn. generalize (TextExtractor._extract_fields cfg text).
  induction (TextExtractor._extract_tax_breakup text) as [|[k v] other IH];
    intros fields Hn; cbn [fold_left]; [reflexivity|].
  cbn [PyDict.keys List.map fst In] in Hn. fold (PyDict.keys other) in Hn.
  rewrite IH by tauto. cbn [fst snd]. apply get_set_ne. tauto.
Qed.

(** C8 (amended): in the text strategy, a main field whose pattern
    matches is emitted, in the map [_extract_fields] returns and in the
    one [extract] returns, with the stripped capture as its raw text. When
    the captured total amount does not parse as a float the field holds
    the value [None] with confidence 0.3; confidence 0.6 is what an amount
    that parses to a number not above zero gets, and 0.95 one above zero.
    When a captured date parses under none of the configured formats the
    field holds the value [None] with confidence 0.3; a date that parses
    gets 0.95, and no date field gets 0.5. *)
Theorem parse_failure_confidence text field_name pattern captured :
  PyDict.get field_name TextExtractor.FIELD_PATTERNS = Some pattern ->
  re_search_group1 pattern text IgnoreCaseMultiline = Some captured ->
  let raw_value := PyStr.strip captured in
  let fields := TextExtractor._extract_fields cfg text in
  exists emitted,
    PyDict.get field_name fields = Some emitted /\
    PyDict.get field_name
      (PyDict.update fields (TextExtractor._extract_tax_breakup text)) = Some emitted /\
    raw_text emitted = Some raw_value /\
    (field_name = "total_amount" ->
     (TextExtractor._parse_amount (PyStr.strip raw_value) = None ->
      value emitted = VNone /\ confidence emitted = 0.3%float) /\
     (forall x, TextExtractor._parse_amount (PyStr.strip raw_value) = Some x ->
      value emitted = VFloat x /\
      confidence emitted = if PyFloat.gt x 0 then 0.95%float else 0.6%float)) /\
    (field_name = "date_of_deposit" \/ field_name = "tender_date" ->
     (TextExtractor._parse_date cfg (PyStr.strip raw_value) = None ->
      value emitted = VNone /\ confidence emitted = 0.3%float) /\
     (forall s, TextExtractor._parse_date cfg (PyStr.strip raw_value) = Some s ->
      value emitted = VStr s /\ confidence emitted = 0.95%float)).
Proof.
  intros Hp Hc. cbv zeta.
  exists (TextExtractor.matched_field cfg field_name captured).
  split; [now apply (extract_fields_get text field_name pattern)|].
  split; [rewrite (extract_keeps_main_field text field_name pattern Hp);
          now apply (extract_fields_get text field_name pattern)|].
  split; [reflexivity|].
  unfold TextExtractor.matched_field. cbn [value confidence].
  split.
  - intros ->. rewrite clean_amount. split.
    + intros ->. split; reflexivity.
    + intros x ->. split; reflexivity.
  - intros Hf. rewrite (clean_date _ _ _ Hf). split.
    + intros ->. split; reflexivity.
    + intros s Hs. rewrite Hs. split; [reflexivity|].
      assert (PyStr.truthy s = true) as T.
      { unfold TextExtractor._parse_date in Hs.
        destruct (negb (PyStr.truthy (PyStr.strip (PyStr.strip captured))));
          [discriminate|]. eapply parse_date_formats_truthy, Hs. }
      unfold TextExtractor._calculate_field_confidence.
      destruct Hf as [-> | ->]; cbn [TextExtractor.of_opt_str PyVal.is_none PyVal.truthy];
        rewrite T; reflexivity.
Qed.

End TextFieldTheorems.

Section ParseAmountTheorems.

Context `{Builtins} `{Regex}.

Lemma drop_noise_app whole rest :
  all_chars is_amount_char whole = true ->
  TextExtractor.drop_amount_noise 0 (whole ++ rest)%string =
  (TextExtractor.drop_amount_noise 0 whole ++ TextExtractor.drop_amount_noise 0 rest)%string.
Proof.
  induction whole as [|c whole IH]; intros Hw; [reflexivity|].
  cbn [all_chars] in Hw. apply andb_true_iff in Hw as [Hc Hw].
  change (String c whole ++ rest)%string with (String c (whole ++ rest)%string).
  cbn [TextExtractor.drop_amount_noise].
  assert (String.prefix "₹" (String c (whole ++ rest)%string) = false) as ->.
  { cbn [String.prefix]. destruct (ascii_dec _ c) as [<-|]; [discriminate Hc | reflexivity]. }
  assert (String.prefix "₹" (String c whole) = false) as ->.
  { cbn [String.prefix]. destruct (ascii_dec _ c) as [<-|]; [discriminate Hc | reflexivity]. }
  rewrite (IH Hw).
  destruct (_ || _)%bool; reflexivity.
Qed.

Lemma drop_noise_digits s :
  all_chars PyStr.is_digit s = true -> TextExtractor.drop_amount_noise 0 s = s.
Proof.
  induction s as [|c s IH]; intros Hs; [reflexivity|].
  cbn [all_chars] in Hs. apply andb_true_iff in Hs as [Hc Hs].
  cbn [TextExtractor.drop_amount_noise].
  assert (String.prefix "₹" (String c s) = false) as ->.
  { cbn [String.prefix]. destruct (ascii_dec _ c) as [<-|]; [discriminate Hc | reflexivity]. }
  rewrite (IH Hs).
  assert ((Ascii.eqb c "R" || Ascii.eqb c "s" || Ascii.eqb c "." || Ascii.eqb c ","
           || PyStr.is_space c)%bool = false) as ->; [|reflexivity].
  revert Hc. clear. unfold PyStr.is_digit, PyStr.is_space.
  destruct c as [[] [] [] [] [] [] [] []]; vm_compute; congruence.
Qed.

Lemma digits_amount_chars s :
  all_chars PyStr.is_digit s = true -> all_chars is_amount_char s = true.
Proof.
  induction s as [|c s IH]; [reflexivity|]. cbn [all_chars].
  rewrite !andb_true_iff. intros [Hc Hs]. unfold is_amount_char. rewrite Hc. auto.
Qed.

(** X12: [_parse_amount] drops the decimal point with the commas: an
    amount written with a point parses as the same text without the
    point, so digits, a point and two decimals are read as the number the
    digits spell together, a hundred times the amount. *)
Theorem parse_amount_drops_point whole cents :
  whole <> "" ->
  all_chars is_amount_char whole = true ->
  TextExtractor._parse_amount (whole ++ "." ++ cents)%string =
    TextExtractor._parse_amount (whole ++ cents)%string /\
  (all_chars PyStr.is_digit whole = true -> all_chars PyStr.is_digit cents = true ->
   TextExtractor._parse_amount (whole ++ "." ++ cents)%string =
     float_of_str (whole ++ cents)%string).
Proof.
  intros Hne Hw. unfold TextExtractor._parse_amount.
  assert (forall rest, PyStr.truthy (whole ++ rest)%string = true) as T
    by (intros rest; destruct whole; [congruence | reflexivity]).
  rewrite !T. cbn [negb].
  assert (TextExtractor.drop_amount_noise 0 (whole ++ "." ++ cents)%string =
          TextExtractor.drop_amount_noise 0 (whole ++ cents)%string) as E.
  { rewrite (drop_noise_app whole ("." ++ cents) Hw), (drop_noise_app whole cents Hw).
    reflexivity. }
  split.
  - now rewrite E.
  - intros Dw Dc. rewrite E, (drop_noise_app whole cents Hw).
    now rewrite !drop_noise_digits.
Qed.

End ParseAmountTheorems.

Section TextExtractTheorems.

Context `{Builtins} `{Regex} `{Documents}.
Variable cfg : ValidationConfig.

Lemma contains_set {V : Type} k k' (v : V) d :
  PyDict.contains k' (PyDict.set k v d) = (String.eqb k k' || PyDict.contains k' d)%bool.
Proof.
  unfold PyDict.contains. destruct (String.eqb k k') eqn:E.
  - apply String.eqb_eq in E. subst. now rewrite get_set_eq.
  - apply String.eqb_neq in E. now rewrite get_set_ne.
Qed.

Lemma contains_cons {V : Type} k k0 (v0 : V) d :
  PyDict.contains k ((k0, v0) :: d) = (String.eqb k0 k || PyDict.contains k d)%bool.
Proof. unfold PyDict.contains. cbn [PyDict.get]. now destruct (String.eqb k0 k). Qed.

Lemma contains_update {V : Type} (other : list (string * V)) : forall d k,
  PyDict.contains k (PyDict.update d other) =
  (PyDict.contains k d || PyDict.contains k other)%bool.
Proof.
  unfold PyDict.update.
  induction other as [|[k0 v0] other IH]; intros d k; cbn [fold_left].
  - unfold PyDict.contains at 3. cbn. now rewrite orb_false_r.
  - rewrite IH. cbn [fst snd]. rewrite contains_set, contains_cons.
    destruct (String.eqb k0 k), (PyDict.contains k d), (PyDict.contains k other); reflexivity.
Qed.

(** X13: [TextExtractor.extract] raises what the opening of the document
    or the reading of the page raises, and [ValueError] with the message
    [PDF has no pages] for a document without a page; for a page whose
    text is absent or blank it returns an empty map and the empty text;
    for any other page it returns the text of the page and a map that
    holds the six tax components. *)
Theorem text_extract_outcomes pdf_path :
  match open_pdf pdf_path with
  | Raised e => text_extract cfg pdf_path = Raised e
  | Returned [] =>
      text_extract cfg pdf_path = Raised (mkException "ValueError" "PDF has no pages")
  | Returned (page :: _) =>
      match extract_text page with
      | Raised e => text_extract cfg pdf_path = Raised e
      | Returned extracted =>
          let text := match extracted with Some t => t | None => "" end in
          exists fields,
            text_extract cfg pdf_path =
              Returned (fields, if PyStr.truthy (PyStr.strip text) then text else "") /\
            if PyStr.truthy (PyStr.strip text)
            then forall f, In f tax_fields ->
                           PyDict.contains f fields = true
            else fields = []
      end
  end.
Proof.
  unfold text_extract, mbind, outcome_bind, mret, outcome_ret.
  destruct (open_pdf pdf_path) as [[|page pages]|e]; try reflexivity.
  destruct (extract_text page) as [extracted|e]; [|reflexivity].
  cbv zeta.
  destruct (PyStr.truthy (PyStr.strip _)) eqn:T; cbn [negb].
  - eexists; split; [reflexivity|].
    intros f Hf. rewrite contains_update. apply orb_true_iff. right.
    unfold PyDict.contains.
    cbn [In] in Hf.
    assert (exists pattern, In (f, pattern) TextExtractor.TAX_PATTERNS) as (pattern & Hp).
    { unfold TextExtractor.TAX_PATTERNS, tax_fields in *. cbn [In] in Hf |- *.
      repeat (destruct Hf as [<-|Hf]; [eexists; eauto 10|]). destruct Hf. }
    now rewrite (tax_breakup_get _ _ _ Hp).
  - eexists; split; reflexivity.
Qed.

End TextExtractTheorems.

(** ** Records of field maps, and documents *)

Section BuildRecordTheorems.

Context `{Builtins} `{Regex} `{Documents}.
Variable cfg : ValidationConfig.

Lemma typed_get fields f fc :
  fields_typed fields = true -> PyDict.get f fields = Some fc ->
  field_typed (f, fc) = true.
Proof.
  unfold fields_typed. induction fields as [|[k v] fields IH]; cbn; [discriminate|].
  rewrite andb_true_iff. intros [Hkv Hf].
  destruct (String.eqb k f) eqn:E.
  - apply String.eqb_eq in E. subst k. intros [= <-]. exact Hkv.
  - now apply IH.
Qed.

Lemma get_float_typed fields f :
  fields_typed fields = true -> exists x, get_float fields f = Returned x.
Proof.
  intros Ht. unfold get_float, get_value.
  destruct (PyDict.get f fields) as [fc|] eqn:E; [|eexists; reflexivity].
  pose proof (typed_get _ _ _ Ht E) as T. unfold field_typed in T. cbn [snd fst] in T.
  destruct (value fc); try discriminate; try (eexists; reflexivity).
  destruct (PyStr.truthy _); [|eexists; reflexivity].
  destruct (float_of_str _); eexists; reflexivity.
Qed.

Lemma get_float_absent fields f :
  PyDict.get f fields = None -> get_float fields f = Returned 0.0%float.
Proof. intros E. unfold get_float, get_value. now rewrite E. Qed.

Lemma invalid_arguments_typed fields :
  fields_typed fields = true -> invalid_arguments fields = [].
Proof.
  intros Ht. unfold invalid_arguments.
  assert (forall names,
             (forall f, In f names -> In f str_field_names) ->
             List.filter
               (fun kv => match optional_str (snd kv) with Some _ => false | None => true end)
               (List.map (fun f => (f, get_value fields f)) names) = []) as G.
  { induction names as [|f names IH]; intros Hn; [reflexivity|].
    cbn [List.map List.filter snd].
    rewrite IH by (intros g Hg; apply Hn; now right).
    unfold get_value. destruct (PyDict.get f fields) as [fc|] eqn:E; [|reflexivity].
    pose proof (typed_get _ _ _ Ht E) as T. unfold field_typed in T. cbn [snd fst] in T.
    destruct (value fc); try reflexivity; try discriminate.
    assert (existsb (String.eqb f) str_field_names = true) as Ex.
    { apply existsb_exists. exists f. split; [apply Hn; now left | apply String.eqb_refl]. }
    rewrite Ex in T. discriminate. }
  apply G. auto.
Qed.

Lemma build_record_returned fields source record :
  _build_record cfg fields source = Returned record ->
  (exists amount, total_amount record = Some amount /\
     (PyDict.get "total_amount" fields = None -> amount = 0.0%float)) /\
  record_hash record = Some (hash_of record) /\
  source_file record = source /\
  validation_flag record = PENDING /\
  review_status record = PENDING_REVIEW /\
  notes record = "" /\
  field_confidences record = [].
Proof.
  unfold _build_record. intros E.
  apply bind_returned in E as (a & _ & E).
  apply bind_returned in E as (b & _ & E).
  apply bind_returned in E as (c & _ & E).
  apply bind_returned in E as (d & _ & E).
  apply bind_returned in E as (e & _ & E).
  apply bind_returned in E as (f & _ & E).
  apply bind_returned in E as (amount & Ea & E).
  destruct (invalid_arguments fields); [|discriminate].
  injection E as <-. cbn [compute_hash snd].
  split.
  { exists amount. split; [reflexivity|].
    intros Hn. rewrite (get_float_absent _ _ Hn) in Ea. now injection Ea as <-. }
  repeat split; reflexivity.
Qed.

(** X14: a record that [_build_record] returns always has a total
    amount, 0.0 when the map holds no such field, so [validate] never
    reports its total amount as missing; its hash is the computed one, its
    source file the given one, its flag [PENDING], its review status
    [PENDING_REVIEW] and its notes empty. *)
Theorem build_record_spec fields source record :
  _build_record cfg fields source = Returned record ->
  total_amount record <> None /\
  (PyDict.get "total_amount" fields = None -> total_amount record = Some 0.0%float) /\
  record_hash record = Some (hash_of record) /\
  source_file record = source /\
  validation_flag record = PENDING /\
  review_status record = PENDING_REVIEW /\
  notes record = "" /\
  forall today self,
    ~ In missing_amount_issue (issues (result_of (validate today self record))).
Proof.
  intros E.
  destruct (build_record_returned _ _ _ E) as ((amount & Ha & Hz) & Hh & Hs & Hf & Hr & Hn & _).
  split; [congruence|]. split; [intros Hg; now rewrite Ha, (Hz Hg)|].
  repeat (split; [assumption|]).
  intros today self. now apply (amount_present_not_missing _ _ _ amount).
Qed.

(** X15: [_build_record] returns a record for every map whose string
    fields hold strings or nothing and which holds no integer: text that
    does not parse as an amount or as a date never makes it raise. *)
Theorem build_record_typed fields source :
  fields_typed fields = true ->
  exists record, _build_record cfg fields source = Returned record.
Proof.
  intros Ht. unfold _build_record, mbind, outcome_bind, mret, outcome_ret.
  destruct (get_float_typed fields "tax_a" Ht) as (a & ->).
  destruct (get_float_typed fields "tax_b" Ht) as (b & ->).
  destruct (get_float_typed fields "tax_c" Ht) as (c & ->).
  destruct (get_float_typed fields "tax_d" Ht) as (d & ->).
  destruct (get_float_typed fields "tax_e" Ht) as (e & ->).
  destruct (get_float_typed fields "tax_f" Ht) as (f & ->).
  destruct (get_float_typed fields "total_amount" Ht) as (amount & ->).
  cbv beta iota. rewrite (invalid_arguments_typed fields Ht). eexists; reflexivity.
Qed.

End BuildRecordTheorems.

Section TypedFields.

Context `{Builtins} `{Regex} `{Documents}.
Variable cfg : ValidationConfig.

Lemma fields_typed_Forall fields :
  fields_typed fields = true <-> Forall (fun kv => field_typed kv = true) fields.
Proof.
  unfold fields_typed. rewrite forallb_forall, List.Forall_forall. reflexivity.
Qed.

Lemma matched_field_typed field_name captured :
  field_typed (field_name, TextExtractor.matched_field cfg field_name captured) = true.
Proof.
  unfold field_typed, TextExtractor.matched_field, TextExtractor._clean_value.
  cbn [fst snd value].
  destruct (negb (PyStr.truthy _)); [reflexivity|].
  destruct (String.eqb field_name "total_amount") eqn:E.
  - apply String.eqb_eq in E. subst field_name.
    destruct (TextExtractor._parse_amount _); reflexivity.
  - unfold TextExtractor.of_opt_str.
    repeat match goal with
           | |- context [if ?b then _ else _] => destruct b
           end;
      try reflexivity;
      repeat match goal with
             | |- context [match ?o with Some _ => _ | None => _ end] => destruct o
             end; reflexivity.
Qed.

Lemma extract_fields_typed text :
  Forall (fun kv => field_typed kv = true) (TextExtractor._extract_fields cfg text).
Proof.
  unfold TextExtractor._extract_fields.
  generalize TextExtractor.FIELD_PATTERNS as patterns.
  assert (Forall (fun kv => field_typed kv = true) (@nil (string * FieldConfidence))) as Hnil
    by constructor.
  revert Hnil. generalize (@nil (string * FieldConfidence)) as fields.
  intros fields Hf patterns. revert fields Hf.
  induction patterns as [|[field_name pattern] patterns IH]; intros fields Hf; cbn [fold_left];
    [exact Hf|].
  apply IH. destruct (re_search_group1 _ _ _); [|exact Hf].
  apply Forall_set; [|exact Hf]. intros ? ->. apply matched_field_typed.
Qed.

Lemma extract_tax_typed text :
  Forall (fun kv => field_typed kv = true) (TextExtractor._extract_tax_breakup text).
Proof.
  unfold TextExtractor._extract_tax_breakup, TextExtractor.TAX_PATTERNS.
  cbn [fold_left].
  assert (forall captured,
             match value (TextExtractor.matched_tax_field captured) with
             | VInt _ | VStr _ => False
             | _ => True
             end) as V.
  { intros captured. unfold TextExtractor.matched_tax_field. cbn [value].
    destruct (TextExtractor._parse_amount _); exact I. }
  repeat match goal with
         | |- context [re_search_group1 ?p ?t ?f] =>
             let c := fresh "c" in
             destruct (re_search_group1 p t f) as [c|];
             [pose proof (V c); destruct (value (TextExtractor.matched_tax_field c)) eqn:?|]
         end;
    try contradiction;
    cbn [PyDict.set String.eqb Ascii.eqb Bool.eqb];
    repeat constructor; unfold field_typed; cbn [fst snd value];
    repeat match goal with
           | Hv : value _ = _ |- _ => rewrite Hv
           end; reflexivity.
Qed.

Lemma text_fields_typed text :
  fields_typed (PyDict.update (TextExtractor._extract_fields cfg text)
                              (TextExtractor._extract_tax_breakup text)) = true.
Proof.
  apply fields_typed_Forall, Forall_update;
    [apply extract_fields_typed | apply extract_tax_typed].
Qed.

Lemma merge_step_typed merged item :
  Forall (fun kv => field_typed kv = true) merged ->
  field_typed item = true ->
  Forall (fun kv => field_typed kv = true) (merge_step merged item).
Proof.
  destruct item as [f sec]. intros Hm Hi. unfold merge_step.
  destruct (PyDict.get f merged);
    repeat match goal with |- context [if ?b then _ else _] => destruct b end;
    try exact Hm; (apply Forall_set; [intros ? ->; exact Hi | exact Hm]).
Qed.

Lemma merge_fields_typed primary secondary :
  fields_typed primary = true -> fields_typed secondary = true ->
  fields_typed (_merge_fields primary secondary) = true.
Proof.
  rewrite !fields_typed_Forall. unfold _merge_fields. intros Hp Hs. revert primary Hp.
  induction secondary as [|item secondary IH]; intros primary Hp; cbn [fold_left];
    [exact Hp|].
  apply Forall_cons in Hs as [Hi Hs].
  apply (IH Hs). now apply merge_step_typed.
Qed.

Lemma try_text_typed pdf_path fields raw_text :
  _try_text_extraction cfg pdf_path = Returned (fields, raw_text) ->
  fields_typed fields = true.
Proof.
  unfold _try_text_extraction, try_except, text_extract, mbind, outcome_bind, mret, outcome_ret.
  destruct (open_pdf pdf_path) as [[|page pages]|e]; try (intros [= <- <-]; reflexivity).
  destruct (extract_text page) as [extracted|e]; try (intros [= <- <-]; reflexivity).
  cbv zeta. destruct (negb _); intros [= <- <-]; [reflexivity|].
  apply text_fields_typed.
Qed.

Lemma try_layout_typed pdf_path fields :
  (forall fields, layout_extract pdf_path = Returned fields -> fields_typed fields = true) ->
  _try_layout_extraction pdf_path = Returned fields -> fields_typed fields = true.
Proof.
  intros Hl. unfold _try_layout_extraction, try_except.
  destruct (layout_extract pdf_path) as [l|e]; intros [= <-]; [now apply Hl | reflexivity].
Qed.

Lemma try_ocr_typed pdf_path fields text conf :
  (forall fields text conf,
      ocr_extract pdf_path = Returned (fields, text, conf) -> fields_typed fields = true) ->
  _try_ocr_extraction pdf_path = Returned (fields, text, conf) -> fields_typed fields = true.
Proof.
  intros Ho. unfold _try_ocr_extraction, try_except.
  destruct (ocr_extract pdf_path) as [[[l t] c]|e]; intros [= <- <- <-];
    [now apply (Ho _ t c) | reflexivity].
Qed.

Lemma process_typed self pdf_path start_time end_time :
  (forall fields, layout_extract pdf_path = Returned fields -> fields_typed fields = true) ->
  (forall fields text conf,
      ocr_extract pdf_path = Returned (fields, text, conf) -> fields_typed fields = true) ->
  exists result record,
    process cfg self pdf_path start_time end_time = Returned result /\
    ExtractionResult.success result = true /\
    ExtractionResult.record result = Some record /\
    ExtractionResult.error_message result = None /\
    total_amount record <> None /\
    source_file record = path_name pdf_path /\
    validation_flag record = PENDING /\
    fields_typed (field_confidences record) = true.
Proof.
  intros Hl Ho.
  assert (exists result record,
             process_body cfg self pdf_path start_time end_time = Returned result /\
             ExtractionResult.success result = true /\
             ExtractionResult.record result = Some record /\
             ExtractionResult.error_message result = None /\
             total_amount record <> None /\
             source_file record = path_name pdf_path /\
             validation_flag record = PENDING /\
             fields_typed (field_confidences record) = true) as (result & record & E & R).
  { unfold process_body.
    pose proof (try_text_typed pdf_path) as Tt.
    destruct (_try_text_extraction cfg pdf_path) as [[text_fields raw_text]|e] eqn:Et.
    2:{ unfold _try_text_extraction, try_except in Et.
        destruct (text_extract cfg pdf_path); discriminate. }
    specialize (Tt _ _ eq_refl).
    pose proof (try_layout_typed pdf_path) as Tl.
    destruct (_try_layout_extraction pdf_path) as [layout_fields|e] eqn:El.
    2:{ unfold _try_layout_extraction, try_except in El.
        destruct (layout_extract pdf_path); discriminate. }
    specialize (Tl _ Hl eq_refl).
    pose proof (merge_fields_typed _ _ Tt Tl) as Tm.
    unfold mbind at 1 2. unfold outcome_bind at 1 2.
    cbv zeta.
    set (merged := _merge_fields text_fields layout_fields) in *.
    assert (exists fields method warnings,
               (if (PyFloat.lt (_calculate_completeness merged) 0.7
                    && match ocr_extractor self with
                       | Some ocr => is_available ocr
                       | None => false
                       end)%bool
                then
                  '(ocr_fields, ocr_text, ocr_conf) ← _try_ocr_extraction pdf_path;
                  mret (_merge_fields merged ocr_fields, "text+ocr",
                        ["Low text extraction completeness (" ++
                         PyFloat.format_2pct (_calculate_completeness merged) ++
                         "), used OCR fallback"]%string)
                else mret (merged, "text", []))
               = Returned (fields, method, warnings) /\ fields_typed fields = true)
      as (fields & method & warnings & -> & Tf).
    { destruct (_ && _)%bool.
      - pose proof (try_ocr_typed pdf_path) as To.
        destruct (_try_ocr_extraction pdf_path) as [[[ocr_fields ocr_text] ocr_conf]|e] eqn:Eo.
        2:{ unfold _try_ocr_extraction, try_except in Eo.
            destruct (ocr_extract pdf_path); discriminate. }
        specialize (To _ _ _ Ho eq_refl).
        eexists _, _, _. split; [reflexivity|]. now apply merge_fields_typed.
      - eexists _, _, _. split; [reflexivity|]. exact Tm. }
    unfold mbind at 1. unfold outcome_bind at 1.
    destruct (build_record_typed cfg fields (path_name pdf_path) Tf) as (record & Eb).
    destruct (build_record_returned cfg _ _ _ Eb) as ((amount & Ha & _) & _ & Hs & Hf & _).
    rewrite Eb. unfold mbind, outcome_bind, mret, outcome_ret.
    eexists _, _. split; [reflexivity|].
    cbn [ExtractionResult.success ExtractionResult.record ExtractionResult.error_message
         total_amount source_file validation_flag field_confidences
         set_field_confidences set_row_confidence].
    split; [reflexivity|]. split; [reflexivity|]. split; [reflexivity|].
    cbn [total_amount source_file validation_flag field_confidences
         set_field_confidences set_row_confidence].
    repeat split; auto. congruence. }
  exists result, record. split; [|exact R].
  unfold process, try_except. now rewrite E.
Qed.

(** X16: when the layout and the OCR strategy return maps whose string
    fields hold strings or nothing and which hold no integer, as the text
    strategy always does, [process] reports success for the document, with
    a record that has a total amount, the name of the document as source
    file and the flag [PENDING]. *)
Theorem process_succeeds self pdf_path start_time end_time :
  (forall fields, layout_extract pdf_path = Returned fields -> fields_typed fields = true) ->
  (forall fields text conf,
      ocr_extract pdf_path = Returned (fields, text, conf) -> fields_typed fields = true) ->
  exists result record,
    process cfg self pdf_path start_time end_time = Returned result /\
    ExtractionResult.success result = true /\
    ExtractionResult.record result = Some record /\
    ExtractionResult.error_message result = None /\
    total_amount record <> None /\
    source_file record = path_name pdf_path /\
    validation_flag record = PENDING /\
    fields_typed (field_confidences record) = true.
Proof. apply process_typed. Qed.

(** X17: for a document that cannot be opened, on which the layout
    strategy fails, and on which OCR is not tried or fails too, [process]
    still reports success: the record has no field but a total amount of
    0.0, the warning about the OCR fallback is there exactly when OCR was
    tried, and every validator flags the record. *)
Theorem process_unreadable self pdf_path start_time end_time e1 e2 :
  open_pdf pdf_path = Raised e1 ->
  layout_extract pdf_path = Raised e2 ->
  (ocr_ready self = true -> exists e3, ocr_extract pdf_path = Raised e3) ->
  process cfg self pdf_path start_time end_time =
    Returned
      (ExtractionResult.mk true (Some (blank_record (path_name pdf_path))) None
         (if ocr_ready self then "text+ocr" else "text")
         ((end_time - start_time) * 1000)%float
         (if ocr_ready self
          then ["Low text extraction completeness (0.00%), used OCR fallback"]
          else [])) /\
  forall today validator,
    validation_flag (record_after (validate today validator
                                     (blank_record (path_name pdf_path)))) = FLAG.
Proof.
  intros Ho El Eocr. split.
  - unfold process, process_body, _try_text_extraction, text_extract,
      _try_layout_extraction, _try_ocr_extraction, try_except.
    rewrite Ho, El. unfold ocr_ready in *.
    unfold mbind, outcome_bind, mret, outcome_ret. cbv zeta beta iota.
    change (_merge_fields [] []) with (@nil (string * FieldConfidence)).
    assert (PyFloat.lt (_calculate_completeness []) 0.7 = true) as -> by reflexivity.
    assert (PyFloat.format_2pct (_calculate_completeness []) = "0.00%") as ->
      by (vm_compute; reflexivity).
    cbn [andb].
    destruct (match ocr_extractor self with Some ocr => is_available ocr | None => false end).
    + destruct (Eocr eq_refl) as (e3 & ->). reflexivity.
    + reflexivity.
  - intros today validator. rewrite flag_validate. unfold has_errors.
    rewrite issues_validate. unfold rule_issues. rewrite !existsb_app.
    reflexivity.
Qed.

(** X18: [process_batch] never stops on a document: for every list of
    jobs it returns one result for each job, in order, the one [process]
    returns for it. *)
Theorem process_batch_results self jobs :
  exists results,
    process_batch cfg self jobs = Returned results /\
    Forall2 (fun job result =>
               process cfg self (fst (fst job)) (snd (fst job)) (snd job) = Returned result)
      jobs results.
Proof.
  induction jobs as [|[[pdf_path start_time] end_time] jobs IH]; cbn [process_batch].
  - exists []. split; [reflexivity | constructor].
  - destruct (process_returns cfg self pdf_path start_time end_time) as (result & E).
    destruct IH as (results & -> & IH). rewrite E.
    exists (result :: results). split; [reflexivity|]. constructor; [exact E | exact IH].
Qed.

End TypedFields.

(** ** What the OCR strategy stores *)

Section OCRTheorems.

Context `{Builtins} `{Regex}.
Variable cfg : ValidationConfig.

Lemma ocr_field_entries text item fields :
  In item TextExtractor.FIELD_PATTERNS ->
  Forall ocr_entry fields -> Forall ocr_entry (OCRExtractor.ocr_field fields text item).
Proof.
  destruct item as [field_name pattern]. intros Hin Hf. unfold OCRExtractor.ocr_field.
  destruct (re_search_group1 _ _ _); [|exact Hf].
  apply Forall_set; [|exact Hf]. intros ? ->. unfold ocr_entry. cbn [fst snd value confidence].
  split; [reflexivity|]. split; [cbn; tauto|]. split; [|intros _; eauto].
  intros Ht. exfalso. revert Hin Ht. clear.
  unfold TextExtractor.FIELD_PATTERNS, tax_fields. cbn [In].
  intros Hin Ht.
  repeat (destruct Hin as [E|Hin]; [injection E as <- _; intuition discriminate|]).
  destruct Hin.
Qed.

Lemma ocr_tax_field_entries text item fields :
  In item TextExtractor.TAX_PATTERNS ->
  Forall ocr_entry fields -> Forall ocr_entry (OCRExtractor.ocr_tax_field fields text item).
Proof.
  destruct item as [field_name pattern]. intros Hin Hf. unfold OCRExtractor.ocr_tax_field.
  destruct (re_search_group1 _ _ _); [|exact Hf].
  destruct (float_of_str _); [|exact Hf].
  apply Forall_set; [|exact Hf]. intros ? ->. unfold ocr_entry, field_typed.
  cbn [fst snd value confidence].
  split.
  { revert Hin. clear. unfold TextExtractor.TAX_PATTERNS. cbn [In]. intros Hin.
    repeat (destruct Hin as [E|Hin]; [injection E as <- _; reflexivity|]). destruct Hin. }
  split; [cbn; tauto |]. split; [eauto|].
  intros Hn. exfalso. apply Hn. revert Hin. clear.
  unfold TextExtractor.TAX_PATTERNS, tax_fields. cbn [In]. intros Hin.
  repeat (destruct Hin as [E|Hin]; [injection E as <- _; tauto|]). destruct Hin.
Qed.

Lemma ocr_tax_default_entries item fields :
  In item TextExtractor.TAX_PATTERNS ->
  Forall ocr_entry fields -> Forall ocr_entry (OCRExtractor.ocr_tax_default fields item).
Proof.
  destruct item as [field_name pattern]. intros Hin Hf. unfold OCRExtractor.ocr_tax_default.
  destruct (PyDict.contains _ _); [exact Hf|].
  apply Forall_set; [|exact Hf]. intros ? ->. unfold ocr_entry, field_typed.
  cbn [fst snd value confidence].
  split.
  { revert Hin. clear. unfold TextExtractor.TAX_PATTERNS. cbn [In]. intros Hin.
    repeat (destruct Hin as [E|Hin]; [injection E as <- _; reflexivity|]). destruct Hin. }
  split; [cbn; tauto |]. split; [eauto|].
  intros Hn. exfalso. apply Hn. revert Hin. clear.
  unfold TextExtractor.TAX_PATTERNS, tax_fields. cbn [In]. intros Hin.
  repeat (destruct Hin as [E|Hin]; [injection E as <- _; tauto|]). destruct Hin.
Qed.

Lemma fold_entries {A : Type} (P : list (string * FieldConfidence) -> Prop)
    (step : list (string * FieldConfidence) -> A -> list (string * FieldConfidence))
    (items : list A) :
  (forall item fields, In item items -> P fields -> P (step fields item)) ->
  forall fields, P fields -> P (fold_left step items fields).
Proof.
  induction items as [|item items IH]; intros Hs fields Hf; cbn [fold_left]; [exact Hf|].
  apply IH.
  - intros i f Hi. apply Hs. now right.
  - apply Hs; [now left | exact Hf].
Qed.

Lemma ocr_entries text : Forall ocr_entry (OCRExtractor._extract_fields_from_ocr text).
Proof.
  unfold OCRExtractor._extract_fields_from_ocr. cbv zeta.
  apply (fold_entries (Forall ocr_entry)).
  { intros item fields. apply ocr_tax_default_entries. }
  apply (fold_entries (Forall ocr_entry) (fun fields => OCRExtractor.ocr_tax_field fields text)).
  { intros item fields. apply ocr_tax_field_entries. }
  apply (fold_entries (Forall ocr_entry) (fun fields => OCRExtractor.ocr_field fields text)).
  { intros item fields. apply ocr_field_entries. }
  constructor.
Qed.

Lemma ocr_wf text : PyDict.wf (OCRExtractor._extract_fields_from_ocr text).
Proof.
  unfold OCRExtractor._extract_fields_from_ocr. cbv zeta.
  apply (fold_entries PyDict.wf).
  { intros [f p] fields _ Hw. unfold OCRExtractor.ocr_tax_default.
    destruct (PyDict.contains _ _); [exact Hw | now apply wf_set]. }
  apply (fold_entries PyDict.wf (fun fields => OCRExtractor.ocr_tax_field fields text)).
  { intros [f p] fields _ Hw. unfold OCRExtractor.ocr_tax_field.
    destruct (re_search_group1 _ _ _); [|exact Hw].
    destruct (float_of_str _); [now apply wf_set | exact Hw]. }
  apply (fold_entries PyDict.wf (fun fields => OCRExtractor.ocr_field fields text)).
  { intros [f p] fields _ Hw. unfold OCRExtractor.ocr_field.
    destruct (re_search_group1 _ _ _); [now apply wf_set | exact Hw]. }
  constructor.
Qed.

Lemma contains_fold_default items : forall fields f,
  PyDict.contains f (fold_left OCRExtractor.ocr_tax_default items fields) =
  (PyDict.contains f fields || existsb (String.eqb f) (List.map fst items))%bool.
Proof.
  induction items as [|[g p] items IH]; intros fields f; cbn [fold_left List.map existsb fst].
  - now rewrite orb_false_r.
  - rewrite IH. unfold OCRExtractor.ocr_tax_default.
    destruct (PyDict.contains g fields) eqn:Eg.
    + destruct (String.eqb f g) eqn:E; [|reflexivity].
      apply String.eqb_eq in E. subst g. now rewrite Eg.
    + rewrite contains_set, (String.eqb_sym g f).
      destruct (String.eqb f g), (PyDict.contains f fields); reflexivity.
Qed.

Lemma get_update {V : Type} (other : list (string * V)) : forall d f,
  PyDict.wf other ->
  PyDict.get f (PyDict.update d other) =
  match PyDict.get f other with
  | Some v => Some v
  | None => PyDict.get f d
  end.
Proof.
  unfold PyDict.update.
  induction other as [|[k v] other IH]; intros d f Hwf; cbn [fold_left]; [reflexivity|].
  unfold PyDict.wf in Hwf. cbn in Hwf. apply NoDup_cons in Hwf as [Hk Hwf].
  rewrite (IH _ _ Hwf). cbn [fst snd PyDict.get].
  destruct (String.eqb k f) eqn:E.
  - apply String.eqb_eq in E. subst k.
    assert (PyDict.get f other = None) as ->
      by (apply get_None_keys; intros Hin; apply Hk; now apply list_elem_of_In).
    apply get_set_eq.
  - apply String.eqb_neq in E. now rewrite get_set_ne.
Qed.

(** X19: the map [_extract_fields_from_ocr] returns has no key twice, holds
    a string in every field that is not a tax component and a float in
    every tax component, has the six tax components for every text, and
    its confidences are 0.7, 0.75 or 0.6. *)
Theorem ocr_fields_spec text :
  let fields := OCRExtractor._extract_fields_from_ocr text in
  PyDict.wf fields /\
  fields_typed fields = true /\
  Forall (fun kv => In (confidence (snd kv)) [0.7; 0.75; 0.6]%float) fields /\
  (forall f fc, PyDict.get f fields = Some fc -> ~ In f tax_fields ->
     exists s, value fc = VStr s) /\
  forall f, In f tax_fields ->
    exists fc x, PyDict.get f fields = Some fc /\ value fc = VFloat x.
Proof.
  cbv zeta. pose proof (ocr_entries text) as He.
  split; [apply ocr_wf|]. split; [|split; [|split]].
  - apply fields_typed_Forall. eapply Forall_impl; [exact He|]. now intros kv (T & _).
  - eapply Forall_impl; [exact He|]. now intros kv (_ & C & _).
  - intros f fc Eg Hn. rewrite List.Forall_forall in He.
    destruct (He _ (get_In _ _ _ Eg)) as (_ & _ & _ & S). exact (S Hn).
  - intros f Hf.
    assert (PyDict.contains f (OCRExtractor._extract_fields_from_ocr text) = true) as Hc.
    { unfold OCRExtractor._extract_fields_from_ocr. cbv zeta.
      rewrite contains_fold_default. apply orb_true_iff. right.
      apply existsb_exists. exists f. split; [exact Hf | apply String.eqb_refl]. }
    unfold PyDict.contains in Hc.
    destruct (PyDict.get f _) as [fc|] eqn:Eg; [|discriminate].
    rewrite List.Forall_forall in He. destruct (He _ (get_In _ _ _ Eg)) as (_ & _ & V & _).
    destruct (V Hf) as (x & Hx). eauto.
Qed.

Lemma finite_below (x : spec_float) (m1 m2 : positive) (e0 : Z) :
  (m1 < m2)%positive ->
  SFltb x (S754_finite false m2 e0) = false ->
  SFltb x (S754_finite false m1 e0) = false /\
  SFeqb (S754_finite false m1 e0) x = false.
Proof.
  intros Hm. unfold SFltb, SFeqb, SFcompare.
  destruct x as [[]| [] | | [] m e]; try (intros; split; congruence).
  rewrite (Z.compare_antisym e e0).
  destruct (e ?= e0); cbv beta iota; unfold CompOpp; try (intros; split; congruence).
  rewrite !Pos.compare_cont_spec. unfold Pos.switch_Eq.
  rewrite (Pos.compare_antisym m m1).
  destruct (Pos.compare m m2) eqn:E2; try discriminate;
    destruct (Pos.compare m m1) eqn:E1; cbn [CompOpp]; intros _; try (split; congruence);
    rewrite ?Pos.compare_eq_iff, ?Pos.compare_lt_iff, ?Pos.compare_gt_iff in *; lia.
Qed.

Lemma below_threshold c s :
  In s [0.7; 0.75; 0.6]%float ->
  PyFloat.lt c 0.8 = false ->
  PyFloat.gt s c = false /\ PyFloat.eq s c = false.
Proof.
  intros Hs. unfold PyFloat.lt, PyFloat.gt, PyFloat.eq.
  rewrite !FloatAxioms.ltb_spec, FloatAxioms.eqb_spec.
  change (Prim2SF 0.8) with (S754_finite false 7205759403792794 (-53)).
  cbn [In] in Hs.
  destruct Hs as [<-|[<-|[<-|[]]]].
  - change (Prim2SF 0.7) with (S754_finite false 6305039478318694 (-53)).
    apply finite_below. reflexivity.
  - change (Prim2SF 0.75) with (S754_finite false 6755399441055744 (-53)).
    apply finite_below. reflexivity.
  - change (Prim2SF 0.6) with (S754_finite false 5404319552844595 (-53)).
    apply finite_below. reflexivity.
Qed.

(** X20: merging the OCR map into a map never replaces a field whose
    confidence is not below 0.8: such a field, for instance a tax
    component that the text strategy stored by default as 0.0, is in the
    merged map as it was. *)
Theorem ocr_keeps_confident_fields primary ocr_text f pri :
  PyDict.get f primary = Some pri ->
  PyFloat.lt (confidence pri) 0.8 = false ->
  PyDict.get f (_merge_fields primary (OCRExtractor._extract_fields_from_ocr ocr_text)) =
    Some pri.
Proof.
  intros Hp Hc. unfold _merge_fields.
  destruct (PyDict.get f (OCRExtractor._extract_fields_from_ocr ocr_text)) as [sec|] eqn:Es.
  - rewrite (merge_present _ _ _ _ (ocr_wf ocr_text) Es), Hp. f_equal.
    pose proof (ocr_entries ocr_text) as He. rewrite List.Forall_forall in He.
    destruct (He _ (get_In _ _ _ Es)) as (_ & Hconf & _). cbn [snd] in Hconf.
    destruct (below_threshold _ _ Hconf Hc) as [G E].
    unfold prefer. now rewrite G, E.
  - now rewrite (merge_absent _ _ _ Es).
Qed.

End OCRTheorems.

(** ** The layout strategy *)

Section SortFacts.

Context {A : Type}.
Implicit Types (lt : A -> A -> bool) (l : list A).

Lemma insert_by_perm lt x l : PyList.insert_by lt x l ≡ₚ x :: l.
Proof.
  induction l as [|y l IH]; cbn [PyList.insert_by]; [reflexivity|].
  destruct (lt x y); [reflexivity|].
  rewrite IH. apply Permutation_swap.
Qed.

Lemma sorted_by_perm lt l : PyList.sorted_by lt l ≡ₚ l.
Proof.
  unfold PyList.sorted_by.
  assert (forall acc, fold_left (fun acc x => PyList.insert_by lt x acc) l acc ≡ₚ acc ++ l) as G.
  { induction l as [|x l IH]; intros acc; cbn [fold_left].
    - now rewrite app_nil_r.
    - rewrite IH, insert_by_perm. apply Permutation_middle. }
  apply G.
Qed.

Lemma sorted_by_nonempty lt l : l <> [] -> PyList.sorted_by lt l <> [].
Proof.
  intros Hl Hs. apply Hl. apply Permutation_nil_r. rewrite <- Hs.
  symmetry. apply sorted_by_perm.
Qed.

End SortFacts.

Section LayoutTheorems.

Context `{Builtins} `{Regex}.

Lemma group_loop_spec tol blocks : forall lines current_line current_y,
  current_line <> [] ->
  Forall (fun line => line <> []) lines ->
  Forall (fun line => line <> []) (LayoutExtractor.group_loop tol lines current_line current_y blocks) /\
  concat (LayoutExtractor.group_loop tol lines current_line current_y blocks) ≡ₚ
    concat lines ++ current_line ++ blocks.
Proof.
  induction blocks as [|block blocks IH]; intros lines current_line current_y Hc Hl;
    cbn [LayoutExtractor.group_loop].
  - destruct current_line as [|b current_line]; [congruence|]. split.
    + apply Forall_app. split; [exact Hl|]. constructor; [|constructor].
      now apply sorted_by_nonempty.
    + rewrite concat_app. cbn [concat]. now rewrite !app_nil_r, sorted_by_perm.
  - destruct (PrimFloat.leb _ _).
    + destruct (IH lines (current_line ++ [block]) current_y) as [I1 I2];
        [now destruct current_line | exact Hl |].
      split; [exact I1|]. rewrite I2, <- !app_assoc. reflexivity.
    + destruct (IH (lines ++ [PyList.sorted_by LayoutExtractor.lt_x0 current_line]) [block] (LayoutExtractor.y0 block))
        as [I1 I2]; [discriminate | |].
      { apply Forall_app. split; [exact Hl|]. constructor; [|constructor].
        now apply sorted_by_nonempty. }
      split; [exact I1|]. rewrite I2, concat_app. cbn [concat].
      rewrite app_nil_r, sorted_by_perm, <- !app_assoc. reflexivity.
Qed.

Lemma group_into_lines_facts blocks tol :
  Forall (fun line => line <> []) (LayoutExtractor._group_into_lines blocks tol) /\
  concat (LayoutExtractor._group_into_lines blocks tol) ≡ₚ blocks.
Proof.
  unfold LayoutExtractor._group_into_lines.
  pose proof (sorted_by_perm LayoutExtractor.lt_y0_x0 blocks) as P.
  destruct (PyList.sorted_by LayoutExtractor.lt_y0_x0 blocks) as [|first rest].
  - split; [constructor|]. cbn. exact P.
  - destruct (group_loop_spec tol rest [] [first] (LayoutExtractor.y0 first)) as [G1 G2];
      [discriminate | constructor |].
    split; [exact G1|]. rewrite G2. exact P.
Qed.

(** X21: [_group_into_lines] puts every block in exactly one line: the
    lines put end to end are a rearrangement of the blocks, no line is
    empty, there are no more lines than blocks, and there is no line at all
    exactly when there is no block. *)
Theorem group_into_lines_partition blocks tol :
  let lines := LayoutExtractor._group_into_lines blocks tol in
  Forall (fun line => line <> []) lines /\
  concat lines ≡ₚ blocks /\
  (List.length lines <= List.length blocks)%nat /\
  (blocks = [] <-> lines = []).
Proof.
  cbv zeta. destruct (group_into_lines_facts blocks tol) as [N P].
  split; [exact N|]. split; [exact P|].
  assert (forall lines : list (list LayoutExtractor.TextBlock),
             Forall (fun line => line <> []) lines ->
             (List.length lines <= List.length (concat lines))%nat) as L.
  { intros lines Hl. induction Hl as [|line lines Hn Hl IH]; [cbn [concat List.length]; lia|].
    cbn [concat List.length]. rewrite length_app.
    destruct line; [congruence|]. cbn [List.length] in *. lia. }
  specialize (L _ N).
  split; [now rewrite <- (Permutation_length P)|].
  split.
  - intros ->. reflexivity.
  - intros E. rewrite E in P. cbn in P. now apply Permutation_nil_l in P.
Qed.

Lemma next_line_returns next_line :
  next_line <> [] -> exists r, LayoutExtractor.value_on_next_line next_line = Returned r.
Proof.
  intros Hn. unfold LayoutExtractor.value_on_next_line.
  destruct (negb _); [|eexists; reflexivity].
  destruct next_line; [congruence | eexists; reflexivity].
Qed.

Lemma find_value_returns label lines :
  Forall (fun line => line <> []) lines ->
  exists r, LayoutExtractor._find_value_for_label label lines = Returned r.
Proof.
  intros Hl. induction Hl as [|line lines Hn Hl IH];
    cbn [LayoutExtractor._find_value_for_label]; [eexists; reflexivity|].
  destruct (PyStr.contains _ _); [|exact IH].
  destruct (LayoutExtractor.value_after_colon line); [eexists; reflexivity|].
  destruct lines as [|next_line lines].
  - cbn. eexists; reflexivity.
  - apply Forall_cons in Hl as [Hnext _].
    destruct (next_line_returns next_line Hnext) as (r & ->).
    unfold mbind, outcome_bind. destruct r; [eexists; reflexivity | exact IH].
Qed.

Lemma first_keyword_returns keywords lines :
  Forall (fun line => line <> []) lines ->
  exists r, LayoutExtractor.first_keyword_value keywords lines = Returned r.
Proof.
  intros Hl. induction keywords as [|keyword keywords IH];
    cbn [LayoutExtractor.first_keyword_value]; [eexists; reflexivity|].
  destruct (find_value_returns keyword lines Hl) as (r & ->).
  unfold mbind, outcome_bind. destruct r; [eexists; reflexivity | exact IH].
Qed.

Lemma layout_fields_loop_returns labels lines : forall fields,
  Forall (fun line => line <> []) lines ->
  (forall label, In label labels ->
     ~ In (fst label) tax_fields) ->
  Forall layout_entry fields ->
  exists fields',
    LayoutExtractor.layout_fields_loop labels lines fields = Returned fields' /\
    Forall layout_entry fields'.
Proof.
  induction labels as [|[field_name keywords] labels IH]; intros fields Hl Hk Hf;
    cbn [LayoutExtractor.layout_fields_loop]; [eexists; split; [reflexivity | exact Hf]|].
  destruct (first_keyword_returns keywords lines Hl) as (r & ->).
  unfold mbind, outcome_bind. apply IH; [exact Hl | intros l Hin; apply Hk; now right |].
  destruct r as [value_block|]; [|exact Hf].
  apply Forall_set; [|exact Hf]. intros ? ->. unfold layout_entry. cbn [fst snd value confidence].
  split; [reflexivity|]. split; [cbn; tauto|]. split; [|intros _; eauto].
  intros Ht. exfalso. exact (Hk (field_name, keywords) (or_introl eq_refl) Ht).
Qed.

Lemma tax_step_entries line fields label :
  In label LayoutExtractor.tax_labels ->
  Forall layout_entry fields ->
  Forall layout_entry (LayoutExtractor.tax_table_step line fields label).
Proof.
  destruct label as [field_name [letter word]]. intros Hin Hf.
  unfold LayoutExtractor.tax_table_step.
  destruct (PyDict.contains _ _); [exact Hf|].
  destruct (_ || _)%bool; [|exact Hf].
  destruct (re_search_group1 _ _ _); [|exact Hf].
  destruct (float_of_str _); [|exact Hf].
  apply Forall_set; [|exact Hf]. intros ? ->. unfold layout_entry, field_typed.
  cbn [fst snd value confidence].
  split.
  { revert Hin. clear. unfold LayoutExtractor.tax_labels. cbn [In]. intros Hin.
    repeat (destruct Hin as [E|Hin]; [injection E as <- _ _; reflexivity|]). destruct Hin. }
  split; [cbn; tauto |]. split; [eauto|].
  intros Hn. exfalso. apply Hn. revert Hin. clear.
  unfold LayoutExtractor.tax_labels, tax_fields. cbn [In]. intros Hin.
  repeat (destruct Hin as [E|Hin]; [injection E as <- _ _; tauto|]). destruct Hin.
Qed.

Lemma tax_default_entries fields label :
  In label LayoutExtractor.tax_labels ->
  Forall layout_entry fields ->
  Forall layout_entry (LayoutExtractor.tax_table_default fields label).
Proof.
  destruct label as [field_name [letter word]]. intros Hin Hf.
  unfold LayoutExtractor.tax_table_default. cbn [fst].
  destruct (PyDict.contains _ _); [exact Hf|].
  apply Forall_set; [|exact Hf]. intros ? ->. unfold layout_entry, field_typed.
  cbn [fst snd value confidence].
  split.
  { revert Hin. clear. unfold LayoutExtractor.tax_labels. cbn [In]. intros Hin.
    repeat (destruct Hin as [E|Hin]; [injection E as <- _ _; reflexivity|]). destruct Hin. }
  split; [cbn; tauto |]. split; [eauto|].
  intros Hn. exfalso. apply Hn. revert Hin. clear.
  unfold LayoutExtractor.tax_labels, tax_fields. cbn [In]. intros Hin.
  repeat (destruct Hin as [E|Hin]; [injection E as <- _ _; tauto|]). destruct Hin.
Qed.

Lemma tax_table_entries lines :
  Forall layout_entry (LayoutExtractor._extract_tax_table lines).
Proof.
  unfold LayoutExtractor._extract_tax_table. cbv zeta.
  apply (fold_entries (Forall layout_entry)).
  { intros label fields. apply tax_default_entries. }
  apply (fold_entries (Forall layout_entry)
           (fun fields line =>
              fold_left (LayoutExtractor.tax_table_step line) LayoutExtractor.tax_labels fields)).
  { intros line fields _ Hf.
    apply (fold_entries (Forall layout_entry)); [|exact Hf].
    intros label fields'. apply tax_step_entries. }
  constructor.
Qed.

Lemma contains_tax_default labels : forall fields f,
  PyDict.contains f (fold_left LayoutExtractor.tax_table_default labels fields) =
  (PyDict.contains f fields || existsb (String.eqb f) (List.map fst labels))%bool.
Proof.
  induction labels as [|[g p] labels IH]; intros fields f; cbn [fold_left List.map existsb fst].
  - now rewrite orb_false_r.
  - rewrite IH. unfold LayoutExtractor.tax_table_default. cbn [fst].
    destruct (PyDict.contains g fields) eqn:Eg.
    + destruct (String.eqb f g) eqn:E; [|reflexivity].
      apply String.eqb_eq in E. subst g. now rewrite Eg.
    + rewrite contains_set, (String.eqb_sym g f).
      destruct (String.eqb f g), (PyDict.contains f fields); reflexivity.
Qed.

(** X22: on the blocks of a page the layout strategy returns a map and
    never raises: the [IndexError] of an empty line cannot occur, since the
    lines it builds are not empty. The map is empty for a page without a
    word and holds the six tax components, as floats, for any other; every
    field that is not a tax component holds a string, and the
    confidences are 0.85, 0.9 or 0.7. *)
Theorem layout_extract_spec text_blocks :
  exists fields,
    LayoutExtractor.extract_from_blocks text_blocks = Returned fields /\
    fields_typed fields = true /\
    Forall (fun kv => In (confidence (snd kv)) [0.85; 0.9; 0.7]%float) fields /\
    (forall f fc, PyDict.get f fields = Some fc -> ~ In f tax_fields ->
       exists s, value fc = VStr s) /\
    (text_blocks = [] -> fields = []) /\
    (text_blocks <> [] ->
     forall f, In f tax_fields ->
       exists fc x, PyDict.get f fields = Some fc /\ value fc = VFloat x).
Proof.
  unfold LayoutExtractor.extract_from_blocks.
  destruct text_blocks as [|block blocks].
  { exists []. repeat split; try reflexivity; try constructor; [discriminate | congruence]. }
  cbv zeta. set (lines := LayoutExtractor._group_into_lines (block :: blocks) 5).
  destruct (group_into_lines_facts (block :: blocks) 5) as [Hn _]. fold lines in Hn.
  destruct (layout_fields_loop_returns LayoutExtractor.LABEL_KEYWORDS lines [] Hn)
    as (fields & Ef & Hf).
  { unfold LayoutExtractor.LABEL_KEYWORDS. cbn [In]. intros label Hin.
    repeat (destruct Hin as [<-|Hin]; [cbn; intuition discriminate|]). destruct Hin. }
  { constructor. }
  unfold LayoutExtractor._extract_fields_from_layout. rewrite Ef.
  unfold mbind, outcome_bind, mret, outcome_ret.
  eexists. split; [reflexivity|].
  assert (Forall layout_entry
            (PyDict.update fields (LayoutExtractor._extract_tax_table lines))) as He
    by (apply Forall_update; [exact Hf | apply tax_table_entries]).
  split; [|split; [|split; [|split]]].
  - apply fields_typed_Forall. eapply Forall_impl; [exact He|]. now intros kv (T & _).
  - eapply Forall_impl; [exact He|]. now intros kv (_ & C & _).
  - intros f fc Eg Hm. rewrite List.Forall_forall in He.
    destruct (He _ (get_In _ _ _ Eg)) as (_ & _ & _ & S). exact (S Hm).
  - discriminate.
  - intros _ f Hin.
    assert (PyDict.contains f
              (PyDict.update fields (LayoutExtractor._extract_tax_table lines)) = true) as Hc.
    { rewrite contains_update. apply orb_true_iff. right.
      unfold LayoutExtractor._extract_tax_table. cbv zeta.
      rewrite contains_tax_default. apply orb_true_iff. right.
      apply existsb_exists. exists f. split; [exact Hin | apply String.eqb_refl]. }
    unfold PyDict.contains in Hc.
    destruct (PyDict.get f _) as [fc|] eqn:Eg; [|discriminate].
    rewrite List.Forall_forall in He. destruct (He _ (get_In _ _ _ Eg)) as (_ & _ & V & _).
    destruct (V Hin) as (x & Hx). eauto.
Qed.

End LayoutTheorems.

(** ** The workbook *)

Section ExcelTheorems.

Context `{Rounding}.

Lemma lookup_map {A B : Type} (f : A -> B) (l : list A) : forall i x,
  l !! i = Some x -> List.map f l !! i = Some (f x).
Proof.
  induction l as [|a l IH]; intros [|i] x Hx; try discriminate; cbn in *.
  - now injection Hx as ->.
  - now apply IH.
Qed.

Lemma data_row_lookup records i record :
  records !! i = Some record ->
  ExcelWriter._write_data_sheet records !! S i =
  Some (List.map (ExcelWriter.data_cell (to_excel_row record)) EXCEL_COLUMNS).
Proof.
  intros Hi. unfold ExcelWriter._write_data_sheet.
  exact (lookup_map _ _ _ _ Hi).
Qed.

(** X23: in the row [_write_data_sheet] writes for a record, the cells
    under the headers [Tax_A] to [Tax_F] are given the empty string, since
    [to_excel_row] has no key of these names (it names the components
    [Tax], [Surcharge] and so on); the cell under every other header
    is given the value [to_excel_row] has for it. *)
Theorem data_sheet_cells records i record k header :
  records !! i = Some record ->
  EXCEL_COLUMNS !! k = Some header ->
  exists cell,
    sheet_cell (ExcelWriter._write_data_sheet records) (S i) k = Some cell /\
    (In header tax_headers ->
     cell_value cell = VStr "" /\ PyDict.get header (to_excel_row record) = None) /\
    (~ In header tax_headers ->
     PyDict.get header (to_excel_row record) = Some (cell_value cell)).
Proof.
  intros Hi Hk. unfold sheet_cell. rewrite (data_row_lookup _ _ _ Hi).
  rewrite (lookup_map _ _ _ _ Hk).
  eexists. split; [reflexivity|].
  unfold EXCEL_COLUMNS in Hk.
  do 25 (destruct k as [|k]; [injection Hk as <-; unfold tax_headers; cbn [In];
                              split; [intros Hin | intros Hn];
                              first [ split; reflexivity
                                    | reflexivity
                                    | exfalso; intuition discriminate
                                    | exfalso; apply Hn; tauto ]|]).
  discriminate.
Qed.

End ExcelTheorems.

Section SummaryTheorems.

Context `{Builtins}.

Lemma validate_loop_flags today records : forall self,
  Forall2 (fun record result =>
             validation_flag record = if is_valid result then OK else FLAG)
    (snd (fst (validate_loop today self records)))
    (snd (validate_loop today self records)).
Proof.
  induction records as [|record records IH]; intros self; cbn [validate_loop].
  - constructor.
  - pose proof (flag_validate today self record) as F.
    pose proof (is_valid_validate today self record) as V.
    destruct (validate today self record) as [[self1 record1] result1].
    unfold record_after, result_of in F, V. cbn [fst snd] in F, V.
    specialize (IH self1).
    destruct (validate_loop today self1 records) as [[self2 rest] results].
    cbn [fst snd] in *. constructor; [|exact IH].
    rewrite F, V. now destruct (has_errors result1).
Qed.

Lemma count_flag_cons flag record records :
  ExcelWriter.count_flag flag (record :: records) =
  (if ValidationStatus_eqb (validation_flag record) flag then 1 else 0) +
  ExcelWriter.count_flag flag records.
Proof.
  unfold ExcelWriter.count_flag. cbn [List.filter].
  destruct (ValidationStatus_eqb _ _); cbn [List.length]; lia.
Qed.

(** The loop of [validate_batch] on a list that may hold one object at
    several positions. *)
Lemma validate_objects_cons today self store address rest :
  validate_objects today self store (address :: rest) =
  let out := validate today self (store address) in
  let next :=
    validate_objects today (validator_after out)
      (store_set store address (record_after out)) rest in
  (fst (fst next), snd (fst next), result_of out :: snd next).
Proof.
  cbn [validate_objects]. cbv zeta. unfold validator_after, record_after, result_of.
  destruct (validate today self (store address)) as [[self1 record1] result1]. cbn [fst snd].
  destruct (validate_objects today self1 (store_set store address record1) rest)
    as [[self2 store2] results]. reflexivity.
Qed.

Lemma store_set_same store address record : store_set store address record address = record.
Proof. unfold store_set. now rewrite Nat.eqb_refl. Qed.

Lemma store_set_other store address record a :
  a <> address -> store_set store address record a = store a.
Proof. intros Hne. unfold store_set. apply Nat.eqb_neq in Hne. now rewrite Hne. Qed.

(** The loop assigns to the objects of the list only. *)
Lemma validate_objects_untouched today records : forall self store a,
  ~ In a records -> snd (fst (validate_objects today self store records)) a = store a.
Proof.
  induction records as [|address rest IH]; intros self store a Hn; [reflexivity|].
  rewrite validate_objects_cons. cbv zeta. cbn [fst snd].
  rewrite IH by (intros Hin; apply Hn; now right).
  apply store_set_other. intros ->. apply Hn. now left.
Qed.

Lemma validate_objects_length today records : forall self store,
  List.length (snd (validate_objects today self store records)) = List.length records.
Proof.
  induction records as [|address rest IH]; intros self store; [reflexivity|].
  rewrite validate_objects_cons. cbv zeta. cbn [snd List.length]. now rewrite IH.
Qed.

Lemma hash_of_validate today self record :
  hash_of (record_after (validate today self record)) = hash_of record.
Proof.
  destruct (record_after_validate today self record) as (flag & note & ->).
  apply hash_of_updates.
Qed.

Lemma flag_of_seen today self record :
  hash_of record ∈ _seen_hashes self ->
  validation_flag (record_after (validate today self record)) = FLAG.
Proof.
  intros Hseen. rewrite flag_validate. unfold has_errors.
  rewrite issues_validate, existsb_app, duplicate_has_error.
  rewrite (bool_decide_eq_true_2 _ Hseen), orb_true_r. reflexivity.
Qed.

(** An object that the validator has seen and that the list still holds
    ends flagged: its last validation finds its hash. *)
Lemma validate_objects_repeated today records : forall self store a,
  In a records ->
  hash_of (store a) ∈ _seen_hashes self ->
  validation_flag (snd (fst (validate_objects today self store records)) a) = FLAG.
Proof.
  induction records as [|address rest IH]; intros self store a Hin Hseen; [destruct Hin|].
  rewrite validate_objects_cons. cbv zeta. cbn [fst snd].
  set (out := validate today self (store address)).
  assert (hash_of (store_set store address (record_after out) a) ∈
            _seen_hashes (validator_after out)) as Hnext.
  { unfold out. rewrite seen_validate. apply elem_of_union_r.
    destruct (Nat.eq_dec a address) as [->|Hne].
    - now rewrite store_set_same, hash_of_validate.
    - now rewrite store_set_other. }
  destruct (in_dec Nat.eq_dec a rest) as [Hrest|Hlast].
  - now apply IH.
  - destruct Hin as [->|Hin]; [|contradiction].
    rewrite validate_objects_untouched by exact Hlast.
    rewrite store_set_same. unfold out. now apply flag_of_seen.
Qed.

(** After the loop every object of the list carries the flag of its last
    validation: none is [PENDING]. *)
Lemma validate_objects_validated today records : forall self store a,
  In a records ->
  validation_flag (snd (fst (validate_objects today self store records)) a) <> PENDING.
Proof.
  induction records as [|address rest IH]; intros self store a Hin; [destruct Hin|].
  rewrite validate_objects_cons. cbv zeta. cbn [fst snd].
  destruct (in_dec Nat.eq_dec a rest) as [Hrest|Hlast].
  - now apply IH.
  - destruct Hin as [->|Hin]; [|contradiction].
    rewrite validate_objects_untouched by exact Hlast.
    rewrite store_set_same, flag_validate. destruct (has_errors _); discriminate.
Qed.

(** A position whose result is not valid shows a flagged record. *)
Lemma validate_objects_invalid today records : forall self store,
  Forall2 (fun a result =>
             is_valid result = false ->
             validation_flag (snd (fst (validate_objects today self store records)) a) = FLAG)
    records (snd (validate_objects today self store records)).
Proof.
  induction records as [|address rest IH]; intros self store; [constructor|].
  rewrite validate_objects_cons. cbv zeta. cbn [fst snd].
  set (out := validate today self (store address)).
  constructor; [|apply IH].
  intros Hinvalid.
  destruct (in_dec Nat.eq_dec address rest) as [Hrest|Hlast].
  - apply validate_objects_repeated; [exact Hrest|].
    rewrite store_set_same. unfold out. rewrite hash_of_validate, seen_validate.
    apply elem_of_union_l, elem_of_singleton_2. reflexivity.
  - rewrite validate_objects_untouched by exact Hlast.
    rewrite store_set_same. unfold out in *. rewrite flag_validate.
    rewrite is_valid_validate in Hinvalid. apply negb_false_iff in Hinvalid.
    now rewrite Hinvalid.
Qed.

(** On a list of distinct objects the loop is [validate_loop] on their
    states: the same validator, the same results, and at each position
    the record as its validation left it. *)
Lemma validate_objects_distinct today records : forall self store,
  NoDup records ->
  let out := validate_objects today self store records in
  validate_loop today self (objects store records) =
    (fst (fst out), objects (snd (fst out)) records, snd out).
Proof.
  induction records as [|address rest IH]; intros self store Hd; [reflexivity|].
  apply NoDup_cons in Hd as [Hlast Hd]. rewrite list_elem_of_In in Hlast.
  cbv zeta. rewrite validate_objects_cons. cbv zeta. cbn [fst snd].
  unfold objects. cbn [List.map validate_loop].
  unfold validator_after, record_after, result_of.
  destruct (validate today self (store address)) as [[self1 record1] result1].
  cbn [fst snd].
  specialize (IH self1 (store_set store address record1) Hd). cbv zeta in IH.
  unfold objects in IH.
  assert (List.map (store_set store address record1) rest = List.map store rest) as Em.
  { apply map_ext_in. intros a Ha. apply store_set_other. intros ->. contradiction. }
  rewrite Em in IH. rewrite IH.
  rewrite validate_objects_untouched by exact Hlast.
  now rewrite store_set_same.
Qed.

Lemma assigned_refl record : assigned record record.
Proof.
  exists (record_hash record), (validation_flag record), (notes record).
  destruct record. reflexivity.
Qed.

Lemma assigned_validate today self record before :
  assigned record before -> assigned (record_after (validate today self record)) before.
Proof.
  intros (h & f & n & ->).
  destruct (record_after_validate today self
              (set_notes n (set_validation_flag f (set_record_hash h before))))
    as (flag & note & ->).
  eexists _, flag, note. reflexivity.
Qed.

Lemma validator_after_validate today self record :
  validator_after (validate today self record) =
  if bool_decide (hash_of record ∈ _seen_hashes self) then self
  else {| config := config self; _seen_hashes := {[hash_of record]} ∪ _seen_hashes self |}.
Proof.
  pose proof (validate_unfold today self record) as U. cbv zeta in U. rewrite U.
  unfold validator_after at 1. cbn [fst].
  unfold run_rules, _check_duplicate, hash_of, validator_after.
  destruct (compute_hash record) as [h r]. cbn [fst].
  destruct (bool_decide (h ∈ _seen_hashes self)); reflexivity.
Qed.

(** What a validation reports and what it does to the validator do not
    depend on the hash, the flag and the notes the record came with. *)
Lemma validate_assigned today self record before :
  assigned record before ->
  issues (result_of (validate today self record)) =
    issues (result_of (validate today self before)) /\
  is_valid (result_of (validate today self record)) =
    is_valid (result_of (validate today self before)) /\
  validator_after (validate today self record) = validator_after (validate today self before).
Proof.
  intros (h & f & n & ->).
  assert (issues (result_of (validate today self
                     (set_notes n (set_validation_flag f (set_record_hash h before))))) =
          issues (result_of (validate today self before))) as Ei.
  { rewrite !issues_validate, rule_issues_updates. unfold duplicate_issues.
    now rewrite hash_of_updates. }
  split; [exact Ei|]. split.
  - rewrite !is_valid_validate. unfold has_errors. now rewrite Ei.
  - rewrite !validator_after_validate. now rewrite hash_of_updates.
Qed.

(** The results of the loop on the objects of the caller are those of
    [validate_loop] on their states before the call, up to the record
    identifier, whether or not the list holds an object twice: what the
    theorems on [validate_loop] say of issues holds of the program. *)
Lemma validate_objects_issues today records : forall self store before,
  (forall a, assigned (store a) (before a)) ->
  fst (fst (validate_objects today self store records)) =
    fst (fst (validate_loop today self (objects before records))) /\
  Forall2 (fun result result' =>
             issues result = issues result' /\ is_valid result = is_valid result')
    (snd (validate_objects today self store records))
    (snd (validate_loop today self (objects before records))).
Proof.
  induction records as [|address rest IH]; intros self store before Ha.
  { split; [reflexivity | constructor]. }
  rewrite validate_objects_cons. cbv zeta. cbn [fst snd].
  unfold objects. cbn [List.map validate_loop].
  destruct (validate_assigned today self (store address) (before address) (Ha address))
    as (Ei & Ev & Es).
  revert Ei Ev Es. unfold validator_after, record_after, result_of.
  destruct (validate today self (before address)) as [[self1 record1] result1] eqn:E1.
  cbn [fst snd]. intros Ei Ev Es.
  specialize (IH self1
                (store_set store address (snd (fst (validate today self (store address)))))
                before).
  rewrite Es.
  destruct IH as [IH1 IH2].
  { intros a. destruct (Nat.eq_dec a address) as [->|Hne].
    - rewrite store_set_same. apply (assigned_validate today self), Ha.
    - rewrite store_set_other by exact Hne. apply Ha. }
  unfold objects in IH1, IH2.
  destruct (validate_loop today self1 (List.map before rest)) as [[self2 records2] results2].
  cbn [fst snd] in *. split; [exact IH1|].
  constructor; [split; assumption | exact IH2].
Qed.

Ltac eqb_values :=
  repeat match goal with
         | |- context [ValidationStatus_eqb ?a ?b] =>
             let v := eval vm_compute in (ValidationStatus_eqb a b) in
             change (ValidationStatus_eqb a b) with v
         end; cbv beta iota.

Lemma count_flag_validated records :
  Forall (fun record => validation_flag record <> PENDING) records ->
  ExcelWriter.count_flag OK records + ExcelWriter.count_flag FLAG records =
    Z.of_nat (List.length records) /\
  ExcelWriter.count_flag PENDING records = 0.
Proof.
  induction 1 as [|record records Hf _ IH]; [split; reflexivity|].
  destruct IH as [I1 I2]. rewrite !count_flag_cons. cbn [List.length].
  destruct (validation_flag record); [| |congruence]; eqb_values; split; lia.
Qed.

Lemma flagged_at_least store : forall records results,
  Forall2 (fun a result => is_valid result = false -> validation_flag (store a) = FLAG)
    records results ->
  (List.length (List.filter (fun result => negb (is_valid result)) results) <=
   List.length (ExcelWriter.flagged_records (objects store records)))%nat.
Proof.
  induction 1 as [|a result records results Hf _ IH]; [reflexivity|].
  unfold ExcelWriter.flagged_records, objects in *. cbn [List.map List.filter].
  destruct (is_valid result); cbn [negb].
  - destruct (ValidationStatus_eqb _ _); cbn [List.length]; lia.
  - rewrite (Hf eq_refl). eqb_values. cbn [List.length]. lia.
Qed.

Lemma flagged_as_many : forall records results,
  Forall2 (fun record result =>
             validation_flag record = if is_valid result then OK else FLAG)
    records results ->
  List.length (ExcelWriter.flagged_records records) =
  List.length (List.filter (fun result => negb (is_valid result)) results).
Proof.
  induction 1 as [|record result records results Hf _ IH]; [reflexivity|].
  unfold ExcelWriter.flagged_records in *. cbn [List.filter]. rewrite Hf.
  destruct (is_valid result); eqb_values; cbn [negb List.length]; lia.
Qed.

(** X24: for the list [validate_batch] was given, read after the call, the
    counts of the summary add up: the records counted as [OK] and those
    counted as [FLAG] are all the records and none is left [PENDING]. The
    flagged ones, which are the rows of the sheet of flagged records, are
    at least as many as the results that are not valid, and exactly as
    many when the list holds no object twice: an object that the list
    holds twice shows flagged at both positions, since its second
    validation finds its hash, whatever the first result was. *)
Theorem summary_counts_after_validation today self store records :
  let out := validate_batch_objects today self store records in
  let validated := objects (snd (fst out)) records in
  let invalid := List.filter (fun result => negb (is_valid result)) (snd out) in
  ExcelWriter.count_flag OK validated + ExcelWriter.count_flag FLAG validated =
    Z.of_nat (List.length records) /\
  ExcelWriter.count_flag PENDING validated = 0 /\
  ExcelWriter.count_flag FLAG validated =
    Z.of_nat (List.length (ExcelWriter.flagged_records validated)) /\
  (List.length invalid <= List.length (ExcelWriter.flagged_records validated))%nat /\
  (NoDup records ->
   List.length (ExcelWriter.flagged_records validated) = List.length invalid).
Proof.
  cbv zeta. unfold validate_batch_objects.
  set (self0 := reset_dedupe_cache self).
  assert (Forall (fun record => validation_flag record <> PENDING)
            (objects (snd (fst (validate_objects today self0 store records))) records)) as Hv.
  { unfold objects. apply List.Forall_map, List.Forall_forall.
    intros a Ha. now apply validate_objects_validated. }
  destruct (count_flag_validated _ Hv) as [C1 C2].
  split; [|split; [exact C2|split; [reflexivity|split]]].
  - rewrite C1. unfold objects. now rewrite List.length_map.
  - apply flagged_at_least, validate_objects_invalid.
  - intros Hd. apply flagged_as_many.
    pose proof (validate_objects_distinct today records self0 store Hd) as D. cbv zeta in D.
    pose proof (validate_loop_flags today (objects store records) self0) as F.
    rewrite D in F. exact F.
Qed.

End SummaryTheorems.

(** ** The processing loop of the applications *)

Section ApplicationTheorems.

Context `{Builtins} `{Regex} `{Documents}.
Variable cfg : ValidationConfig.

Lemma validate_validated today self record :
  is_validated (record_after (validate today self record)).
Proof.
  unfold is_validated. split.
  - rewrite flag_validate. destruct (has_errors _); discriminate.
  - destruct (record_after_validate today self record) as (flag & note & ->). reflexivity.
Qed.

Lemma process_file_cases fallback today pipeline validator records errors pdf_path t0 t1 :
  let state := process_file cfg fallback today pipeline (validator, records, errors)
                 (pdf_path, t0, t1) in
  (exists result record,
      process cfg pipeline pdf_path t0 t1 = Returned result /\
      ExtractionResult.success result = true /\
      ExtractionResult.record result = Some record /\
      state = (validator_after (validate today validator record),
               records ++ [record_after (validate today validator record)],
               errors)) \/
  (exists message,
      (forall result, process cfg pipeline pdf_path t0 t1 = Returned result ->
         ExtractionResult.success result = false \/ ExtractionResult.record result = None) /\
      state = (validator, records, PyDict.set (path_name pdf_path) message errors)).
Proof.
  cbv zeta. unfold process_file.
  destruct (process cfg pipeline pdf_path t0 t1) as [result|e] eqn:Ep.
  - unfold mbind, outcome_bind, mret, outcome_ret.
    destruct (ExtractionResult.success result) eqn:Es.
    + destruct (ExtractionResult.record result) as [record|] eqn:Er.
      * left. exists result, record. repeat split; auto.
        unfold validator_after, record_after.
        destruct (validate today validator record) as [[v r] res]. reflexivity.
      * right. eexists. split; [|reflexivity]. intros r [= <-]. now right.
    + right. eexists. split; [|reflexivity]. intros r [= <-]. now left.
  - right. eexists. split; [|reflexivity]. intros r [=].
Qed.

Lemma fold_process_file fallback today pipeline jobs : forall validator records errors,
  Forall is_validated records ->
  let '(_, records', errors') :=
    fold_left (process_file cfg fallback today pipeline) jobs (validator, records, errors) in
  Forall is_validated records' /\
  (List.length records' <= List.length records + List.length jobs)%nat /\
  (forall name, PyDict.contains name errors' = true ->
     PyDict.contains name errors = true \/
     In name (List.map (fun job => path_name (fst (fst job))) jobs)).
Proof.
  induction jobs as [|[[pdf_path t0] t1] jobs IH]; intros validator records errors Hv;
    cbn [fold_left].
  - split; [exact Hv|]. split; [lia | auto].
  - destruct (process_file_cases fallback today pipeline validator records errors pdf_path t0 t1)
      as [(result & record & _ & _ & _ & ->)|(message & _ & ->)].
    + specialize (IH (validator_after (validate today validator record))
                     (records ++ [record_after (validate today validator record)]) errors).
      destruct (fold_left _ jobs _) as [[v rs] es].
      destruct IH as (I1 & I2 & I3).
      { apply Forall_app. split; [exact Hv|]. constructor; [|constructor].
        apply validate_validated. }
      split; [exact I1|]. split.
      * rewrite length_app in I2. cbn [List.length] in *. lia.
      * intros name Hn. destruct (I3 name Hn); [now left|]. right. now right.
    + specialize (IH validator records (PyDict.set (path_name pdf_path) message errors) Hv).
      destruct (fold_left _ jobs _) as [[v rs] es].
      destruct IH as (I1 & I2 & I3).
      split; [exact I1|]. split.
      * cbn [List.length]. lia.
      * intros name Hn. destruct (I3 name Hn) as [Hc|Hin].
        -- rewrite contains_set in Hc. apply orb_true_iff in Hc as [E|Hc].
           ++ apply String.eqb_eq in E. subst name. right. now left.
           ++ now left.
        -- right. now right.
Qed.

(** X25: every record the processing loop of the applications returns has
    been validated: its flag is [OK] or [FLAG] and its hash is set, so the
    records counted [OK] and [FLAG] are all of them; there are no more
    records than documents, and every key of the errors is the name of a
    document. *)
Theorem process_pdfs_spec fallback today pipeline jobs :
  let '(records, errors) := process_pdfs cfg fallback today pipeline jobs in
  Forall (fun record =>
            validation_flag record <> PENDING /\
            record_hash record = Some (hash_of record)) records /\
  (List.length records <= List.length jobs)%nat /\
  (forall name, PyDict.contains name errors = true ->
     In name (job_names jobs)) /\
  ExcelWriter.count_flag OK records + ExcelWriter.count_flag FLAG records =
    Z.of_nat (List.length records).
Proof.
  unfold process_pdfs.
  pose proof (fold_process_file fallback today pipeline jobs (new_validator cfg) [] []
                (Forall_nil_2 _)) as F.
  destruct (fold_left _ jobs _) as [[v records] errors].
  destruct F as (F1 & F2 & F3).
  split; [exact F1|]. split; [exact F2|]. split.
  - intros name Hn. destruct (F3 name Hn) as [Hc|Hin]; [discriminate | exact Hin].
  - clear - F1. induction F1 as [|record records [Hp _] _ IH]; [reflexivity|].
    rewrite !count_flag_cons. cbn [List.length].
    destruct (validation_flag record); try (exfalso; apply Hp; reflexivity);
      change (ValidationStatus_eqb OK OK) with true;
      change (ValidationStatus_eqb OK FLAG) with false;
      change (ValidationStatus_eqb FLAG OK) with false;
      change (ValidationStatus_eqb FLAG FLAG) with true; cbv beta iota; lia.
Qed.

Lemma fold_process_typed fallback today pipeline jobs :
  (forall job, In job jobs ->
     exists result record,
       process cfg pipeline (fst (fst job)) (snd (fst job)) (snd job) = Returned result /\
       ExtractionResult.success result = true /\
       ExtractionResult.record result = Some record) ->
  forall validator records errors,
  let '(_, records', errors') :=
    fold_left (process_file cfg fallback today pipeline) jobs (validator, records, errors) in
  errors' = errors /\
  List.length records' = (List.length records + List.length jobs)%nat.
Proof.
  induction jobs as [|[[pdf_path t0] t1] jobs IH]; intros Hj validator records errors;
    cbn [fold_left].
  - split; [reflexivity | cbn [List.length]; lia].
  - destruct (Hj (pdf_path, t0, t1) ltac:(now left)) as (result & record & Ep & Es & Er).
    cbn [fst snd] in Ep.
    destruct (process_file_cases fallback today pipeline validator records errors pdf_path t0 t1)
      as [(result' & record' & _ & _ & _ & ->)|(message & Hfail & _)].
    + specialize (IH (fun job Hin => Hj job (or_intror Hin))
                     (validator_after (validate today validator record'))
                     (records ++ [record_after (validate today validator record')]) errors).
      destruct (fold_left _ jobs _) as [[v rs] es].
      destruct IH as [-> IH]. split; [reflexivity|].
      rewrite IH, length_app. cbn [List.length]. lia.
    + exfalso. destruct (Hfail _ Ep); congruence.
Qed.

(** X26: when the layout and the OCR strategy return maps whose string
    fields hold strings or nothing and which hold no integer, the
    processing loop returns one record for every document and no error,
    whether the documents can be read or not. *)
Theorem process_pdfs_all_recorded fallback today pipeline jobs :
  (forall pdf_path fields,
      layout_extract pdf_path = Returned fields -> fields_typed fields = true) ->
  (forall pdf_path fields text conf,
      ocr_extract pdf_path = Returned (fields, text, conf) -> fields_typed fields = true) ->
  let '(records, errors) := process_pdfs cfg fallback today pipeline jobs in
  errors = [] /\ List.length records = List.length jobs.
Proof.
  intros Hl Ho. unfold process_pdfs.
  pose proof (fold_process_typed fallback today pipeline jobs) as F.
  assert (forall job, In job jobs ->
            exists result record,
              process cfg pipeline (fst (fst job)) (snd (fst job)) (snd job) =
                Returned result /\
              ExtractionResult.success result = true /\
              ExtractionResult.record result = Some record) as Hj.
  { intros [[pdf_path t0] t1] _. cbn [fst snd].
    destruct (process_typed cfg pipeline pdf_path t0 t1 (Hl pdf_path) (Ho pdf_path))
      as (result & record & Ep & Es & Er & _).
    eauto. }
  specialize (F Hj (new_validator cfg) [] []).
  destruct (fold_left _ jobs _) as [[v records] errors].
  exact F.
Qed.

End ApplicationTheorems.

(** ** The properties on concrete records

    The examples run on the computed built-ins [Reference.python]. *)

Section Examples.

Local Existing Instance Reference.python.
Local Existing Instance garbled_regex.

(** The computed built-ins on known values. *)
Example sha256_vectors :
  SHA256.hexdigest "" =
    "e3b0c44298fc1c149afbf4c8996fb92427ae41e4649b934ca495991b7852b855"%string /\
  SHA256.hexdigest "abc" =
    "ba7816bf8f01cfea414140de5dae2223b00361a396177a9cb410ff61f20015ad"%string /\
  SHA256.hexdigest "25100700517216HDFC128662025-10-07" =
    "5e6d4d766520dbdaffd29637bc81cbc339d011738c7958b3e3d05dd2673aecd0"%string.
Proof. vm_compute. repeat split; reflexivity. Qed.

Example float_repr_values :
  FloatRepr.repr 19395 = "19395.0"%string /\
  FloatRepr.repr (-1) = "-1.0"%string /\
  FloatRepr.repr 0.1 = "0.1"%string /\
  FloatRepr.repr (0.1 + 0.2) = "0.30000000000000004"%string /\
  FloatRepr.repr 1e22 = "1e+22"%string /\
  FloatRepr.repr 0.00001 = "1e-05"%string /\
  FloatRepr.repr 1234567890123456 = "1234567890123456.0"%string.
Proof. vm_compute. repeat split; reflexivity. Qed.

Example float_of_str_values :
  FloatParse.float_of_str "" = None /\
  FloatParse.float_of_str "1939500" = Some 1939500%float /\
  FloatParse.float_of_str " 19395.00 " = Some 19395%float /\
  FloatParse.float_of_str "1_000.5e-1" = Some 100.05%float /\
  FloatParse.float_of_str "9007199254740993" = Some 9007199254740992%float /\
  FloatParse.float_of_str "-inf" = Some neg_infinity /\
  FloatParse.float_of_str "1,5" = None.
Proof. vm_compute. repeat split; reflexivity. Qed.

Example strptime_values :
  Strptime.strptime "07-Oct-2025" "%d-%b-%Y" = Some (mkDate 2025 10 7) /\
  Strptime.strptime "7/1/2025" "%d/%m/%Y" = Some (mkDate 2025 1 7) /\
  Strptime.strptime "07 october 2025" "%d %B %Y" = Some (mkDate 2025 10 7) /\
  Strptime.strptime "31-02-2025" "%d-%m-%Y" = None /\
  Strptime.strptime "07/Oct/2025" "%d/%m/%Y" = None /\
  Strptime.strptime "07-10-2025 " "%d-%m-%Y" = None.
Proof. vm_compute. repeat split; reflexivity. Qed.

Example sample_record_1_hash :
  hash_of sample_record_1 = "5e6d4d766520dbda".
Proof. vm_compute. reflexivity. Qed.

Example sample_record_1_valid :
  let out := validate example_today (new_validator validation_config) sample_record_1 in
  issues (result_of out) = [] /\ validation_flag (record_after out) = OK.
Proof. vm_compute. split; reflexivity. Qed.

(** C1, the claim as stated fails: the message of a sum mismatch prints
    the absolute difference. With a breakup of 5000.00 against a total of
    10000.00 the signed difference is -5000.00 and the message ends in
    [diff=5000.00]; with the two amounts exchanged the difference taken
    the other way round is -5000.00 and the message ends the same. *)
Lemma sum_mismatch_message_unsigned :
  let messages r :=
    List.map message
      (List.filter (has_type "sum_mismatch")
         (issues (result_of (validate example_today (new_validator validation_config) r)))) in
  messages (with_amounts 10000 5000 sample_record_1) =
    ["Tax breakup sum (5000.00) != Total amount (10000.00), diff=5000.00"%string] /\
  PyFloat.format_2f (5000 - 10000) = "-5000.00"%string /\
  forallb (fun m => negb (PyStr.contains (PyFloat.format_2f (5000 - 10000)) m))
    (messages (with_amounts 10000 5000 sample_record_1)) = true /\
  messages (with_amounts 5000 10000 sample_record_1) =
    ["Tax breakup sum (10000.00) != Total amount (5000.00), diff=5000.00"%string] /\
  forallb (fun m => negb (PyStr.contains (PyFloat.format_2f (5000 - 10000)) m))
    (messages (with_amounts 5000 10000 sample_record_1)) = true.
Proof. vm_compute. repeat split; reflexivity. Qed.

(** A record whose breakup differs from its total by exactly the default
    tolerance has no sum mismatch; one that differs by 1.0 + 0.01 has one. *)
Lemma sum_check_spec_witness :
  total_amount (with_amounts 100 101 sample_record_1) = Some 100%float /\
  List.filter (has_type "sum_mismatch")
    (issues (result_of (validate example_today (new_validator validation_config)
                          (with_amounts 100 101 sample_record_1)))) = [] /\
  total_amount (with_amounts 0.5 1.51 sample_record_1) = Some 0.5%float /\
  List.length
    (List.filter (has_type "sum_mismatch")
       (issues (result_of (validate example_today (new_validator validation_config)
                             (with_amounts 0.5 1.51 sample_record_1))))) = 1%nat.
Proof.
  split; [reflexivity|]. split.
  - pose proof (sum_check_spec example_today (new_validator validation_config)
                  (with_amounts 100 101 sample_record_1) 100 eq_refl) as S.
    cbv zeta in S. destruct S as (_ & _ & Hb & _). apply Hb. vm_compute. reflexivity.
  - split; [reflexivity|].
    pose proof (sum_check_spec example_today (new_validator validation_config)
                  (with_amounts 0.5 1.51 sample_record_1) 0.5 eq_refl) as S.
    cbv zeta in S. destruct S as (_ & _ & _ & Hc & _).
    apply Hc; vm_compute; reflexivity.
Defined.

Definition text_fields_example : list (string * FieldConfidence) :=
  [("tan", mkFieldConfidence (VStr "BLRS05586H") 0.98 "text_regex" (Some "BLRS05586H"));
   ("cin", mkFieldConfidence (VStr "") 0.85 "text_regex" (Some ""));
   ("tax_b", mkFieldConfidence (VFloat 0) 0.8 "default" None);
   ("challan_no", mkFieldConfidence (VStr "12866") 0.9 "text_regex" (Some "12866"))].

Definition layout_fields_example : list (string * FieldConfidence) :=
  [("tan", mkFieldConfidence (VStr "BLRSO5586H") 0.85 "layout" (Some "BLRSO5586H"));
   ("cin", mkFieldConfidence (VStr "25100700517216HDFC") 0.85 "layout" None);
   ("tax_b", mkFieldConfidence (VFloat 250) 0.9 "layout_table" (Some "250.00"));
   ("bank_name", mkFieldConfidence (VStr "HDFC Bank") 0.85 "layout" (Some "HDFC Bank"))].

(** A text map merged with a layout map: the higher confidence wins for
    [tan] (primary) and [tax_b] (secondary), the tie on [cin] goes to the
    non-empty secondary value, and the fields of one map are taken over. *)
Lemma merge_fields_spec_witness :
  PyDict.wf layout_fields_example /\
  let merged := _merge_fields text_fields_example layout_fields_example in
  PyDict.get "tan" merged = PyDict.get "tan" text_fields_example /\
  PyDict.get "tax_b" merged = PyDict.get "tax_b" layout_fields_example /\
  PyDict.get "cin" merged = PyDict.get "cin" layout_fields_example /\
  PyDict.get "challan_no" merged = PyDict.get "challan_no" text_fields_example /\
  PyDict.get "bank_name" merged = PyDict.get "bank_name" layout_fields_example.
Proof.
  assert (PyDict.wf layout_fields_example) as W.
  { unfold PyDict.wf. cbn. repeat (apply NoDup_cons_2;
            [rewrite ?elem_of_cons, elem_of_nil; intuition discriminate|]).
    apply NoDup_nil_2. }
  split; [exact W|]. cbv zeta.
  pose proof (merge_fields_spec text_fields_example layout_fields_example W) as M.
  cbv zeta in M. split; [|split; [|split; [|split]]].
  - destruct (M "tan"%string) as (_ & _ & Hboth).
    destruct (Hboth _ _ eq_refl eq_refl) as (_ & Hpri & _). apply Hpri. reflexivity.
  - destruct (M "tax_b"%string) as (_ & _ & Hboth).
    destruct (Hboth _ _ eq_refl eq_refl) as (Hsec & _). apply Hsec. reflexivity.
  - destruct (M "cin"%string) as (_ & _ & Hboth).
    destruct (Hboth _ _ eq_refl eq_refl) as (_ & _ & Htie). apply Htie. reflexivity.
  - destruct (M "challan_no"%string) as (Hpri & _). apply Hpri. reflexivity.
  - destruct (M "bank_name"%string) as (_ & Hsec & _). apply Hsec. reflexivity.
Defined.

(** The sample record validated twice in a new validator, another record
    in between, then once more after a reset. *)
Lemma duplicate_detection_witness :
  (hash_of sample_record_1 ∉ _seen_hashes (new_validator validation_config)) /\
  dedupe_key sample_record_1 = dedupe_key (set_notes "second copy" sample_record_1) /\
  let out1 := validate example_today (new_validator validation_config) sample_record_1 in
  let later :=
    fst (fst (validate_loop example_today (validator_after out1) [split_ab_1])) in
  let out2 := validate example_today later (set_notes "second copy" sample_record_1) in
  let out3 :=
    validate example_today (reset_dedupe_cache (validator_after out2))
      (set_notes "second copy" sample_record_1) in
  count_type "duplicate" (issues (result_of out1)) = 0%nat /\
  count_type "duplicate" (issues (result_of out2)) = 1%nat /\
  count_type "duplicate" (issues (result_of out3)) = 0%nat.
Proof.
  assert (hash_of sample_record_1 ∉ _seen_hashes (new_validator validation_config)) as Hnew
      by (cbn [new_validator _seen_hashes]; apply not_elem_of_empty).
  split; [exact Hnew|]. split; [reflexivity|]. cbv zeta.
  pose proof (duplicate_detection example_today example_today example_today example_today
                (new_validator validation_config) [split_ab_1] sample_record_1
                (set_notes "second copy" sample_record_1) eq_refl) as D.
  cbv zeta in D. destruct D as (_ & D1 & _ & D2 & _ & D3).
  split; [exact (proj2 D1 Hnew)|]. split; [exact D2 | exact D3].
Defined.

(** C4, the claim as stated fails: a validator that has validated the
    triple (AB, 1, no date) has seen the digest of the triple (A, B1, no
    date); the first validation of a record with the second triple emits
    a [duplicate] issue, as the second one does. *)
Lemma first_validation_duplicate :
  let seen :=
    validator_after (validate example_today (new_validator validation_config) split_ab_1) in
  let out1 := validate example_today seen split_a_b1 in
  let out2 := validate example_today (validator_after out1) split_a_b1 in
  cin split_ab_1 = Some "AB"%string /\ cin split_a_b1 = Some "A"%string /\
  challan_no split_ab_1 = Some "1"%string /\ challan_no split_a_b1 = Some "B1"%string /\
  count_type "duplicate" (issues (result_of out1)) = 1%nat /\
  count_type "duplicate" (issues (result_of out2)) = 1%nat.
Proof. vm_compute. repeat split; reflexivity. Qed.

(** C5, the claim as stated fails: the sample record is flagged [OK] by a
    new validator, and validating the returned record again in that
    validator flags it, with one new error, the duplicate. *)
Lemma revalidation_flags_duplicate :
  let out := validate example_today (new_validator validation_config) sample_record_1 in
  let again := validate example_today (validator_after out) (record_after out) in
  validation_flag (record_after out) = OK /\
  errors_in (issues (result_of out)) = [] /\
  validation_flag (record_after again) = FLAG /\
  errors_in (issues (result_of again)) =
    [mkValidationIssue "record" "duplicate"
       "Duplicate record detected (hash: 5e6d4d766520dbda)" "error"].
Proof. vm_compute. repeat split; reflexivity. Qed.

(** The sample record validated again after its first [OK]. *)
Lemma revalidation_after_ok_witness :
  let out := validate example_today (new_validator validation_config) sample_record_1 in
  validation_flag (record_after out) = OK /\
  validation_flag
    (record_after (validate example_today (validator_after out) (record_after out))) = FLAG /\
  validation_flag
    (record_after (validate example_today (reset_dedupe_cache (validator_after out))
                     (record_after out))) = OK.
Proof.
  cbv zeta.
  assert (validation_flag
            (record_after (validate example_today (new_validator validation_config)
                             sample_record_1)) = OK) as Hok
      by (vm_compute; reflexivity).
  split; [exact Hok|].
  pose proof (revalidation_after_ok example_today example_today
                (new_validator validation_config) sample_record_1 Hok) as R.
  cbv zeta in R. destruct R as ((Hflag & _) & _ & (Hreset & _)).
  split; [exact Hflag | exact Hreset].
Defined.

(** The sample record with a total of zero and an empty breakup, and with
    a total of -1.0. *)
Lemma amount_sanity_witness :
  errors_in (other_rule_issues example_today (new_validator validation_config)
               (with_amounts 0 0 sample_record_1)) = [] /\
  validation_flag
    (record_after (validate example_today (new_validator validation_config)
                     (with_amounts 0 0 sample_record_1))) = OK /\
  errors_in (other_rule_issues example_today (new_validator validation_config)
               (with_amounts (-1) 0 sample_record_1)) = [] /\
  validation_flag
    (record_after (validate example_today (new_validator validation_config)
                     (with_amounts (-1) 0 sample_record_1))) = FLAG.
Proof.
  assert (errors_in (other_rule_issues example_today (new_validator validation_config)
                       (with_amounts 0 0 sample_record_1)) = []) as Hzero
      by (vm_compute; reflexivity).
  assert (errors_in (other_rule_issues example_today (new_validator validation_config)
                       (with_amounts (-1) 0 sample_record_1)) = []) as Hneg
      by (vm_compute; reflexivity).
  split; [exact Hzero|]. split; [|split; [exact Hneg|]].
  - pose proof (amount_sanity example_today (new_validator validation_config)
                  (with_amounts 0 0 sample_record_1) Hzero) as A.
    cbv zeta in A. destruct A as (A & _).
    destruct (A 0%float eq_refl eq_refl) as (_ & _ & Hflag). exact Hflag.
  - pose proof (amount_sanity example_today (new_validator validation_config)
                  (with_amounts (-1) 0 sample_record_1) Hneg) as A.
    cbv zeta in A. destruct A as (_ & A & _).
    destruct (A (-1)%float eq_refl eq_refl) as (_ & _ & Hflag). exact Hflag.
Defined.

Example negative_amount_message :
  List.map message
    (errors_in (issues (result_of (validate example_today (new_validator validation_config)
                                     (with_amounts (-1) 0 sample_record_1))))) =
  ["Negative total amount: -1.0"%string].
Proof. vm_compute. reflexivity. Qed.

(** The page with a comma for an amount: the pattern of the total amount
    captures the comma, which does not parse. *)
Lemma parse_failure_confidence_witness :
  TextExtractor._parse_amount "," = None /\
  exists emitted,
    PyDict.get "total_amount"
      (TextExtractor._extract_fields validation_config garbled_text) = Some emitted /\
    value emitted = VNone /\
    confidence emitted = 0.3%float.
Proof.
  assert (TextExtractor._parse_amount "," = None) as Hn by (vm_compute; reflexivity).
  split; [exact Hn|].
  destruct (PyDict.get "total_amount" TextExtractor.FIELD_PATTERNS) as [pattern|] eqn:Hp;
    [|discriminate].
  assert (re_search_group1 pattern garbled_text IgnoreCaseMultiline = Some ","%string) as Hc
    by (injection Hp as <-; vm_compute; reflexivity).
  destruct (parse_failure_confidence validation_config garbled_text "total_amount" pattern ","
              Hp Hc) as (emitted & G & _ & _ & A & _).
  exists emitted. split; [exact G|].
  exact (proj1 (A eq_refl) Hn).
Defined.

(** C8, the claim as stated fails: on that page the captured amount, a
    comma, does not parse and [_extract_fields] emits the field with
    0.3, not 0.6; the captured date [07/Oct/2025] parses under none of
    the configured formats and the field is emitted with 0.3, not 0.5. *)
Lemma unparseable_confidence :
  let fields := TextExtractor._extract_fields validation_config garbled_text in
  TextExtractor._parse_amount "," = None /\
  PyDict.get "total_amount" fields =
    Some (mkFieldConfidence VNone 0.3 "text_regex" (Some ","%string)) /\
  PyFloat.eq 0.3 0.6 = false /\
  TextExtractor._parse_date validation_config "07/Oct/2025" = None /\
  PyDict.get "date_of_deposit" fields =
    Some (mkFieldConfidence VNone 0.3 "text_regex" (Some "07/Oct/2025"%string)) /\
  PyFloat.eq 0.3 0.5 = false.
Proof. vm_compute. repeat split; reflexivity. Qed.

(** A date with a year below 1000 is written back without padding. *)
Example short_year_date :
  TextExtractor._parse_date validation_config "01-02-0999" = Some "999-02-01"%string /\
  PyDate.isoformat (mkDate 999 2 1) = "0999-02-01"%string.
Proof. vm_compute. repeat split; reflexivity. Qed.

Example parsed_amounts :
  TextExtractor._parse_amount "19,395.00" = Some 1939500%float /\
  TextExtractor._parse_amount "₹ 22,500" = Some 22500%float /\
  confidence (TextExtractor.matched_field validation_config "total_amount" "0") = 0.6%float /\
  value (TextExtractor.matched_field validation_config "date_of_deposit" "07-Oct-2025") =
    VStr "2025-10-07".
Proof. vm_compute. repeat split; reflexivity. Qed.

(** C9, the claim as stated fails: a record that carries notes from an
    earlier validation and now validates with no issue keeps those notes;
    the join of no issue is the empty text. *)
Lemma notes_kept_without_issues :
  let out :=
    validate example_today (new_validator validation_config)
      (set_notes "tan: TAN is missing" sample_record_1) in
  issues (result_of out) = [] /\
  notes_text (issues (result_of out)) = ""%string /\
  notes (record_after out) = "tan: TAN is missing"%string.
Proof. vm_compute. repeat split; reflexivity. Qed.

End Examples.

(** ** The further properties on concrete inputs *)

Section FurtherExamples.

Local Existing Instance Reference.python.
Local Existing Instance python_rounding.
Local Existing Instance example_regex.
Local Existing Instance example_documents.

(** The computed [round] on known values. *)
Example round_values :
  FloatRound.round 0.9471428571428572 4 = 0.9471%float /\
  FloatRound.round 0.00005 4 = 0.0001%float /\
  FloatRound.round 0.00015 4 = 0.0001%float /\
  FloatRound.round 2.675 2 = 2.67%float /\
  FloatRound.round 0.95 4 = 0.95%float.
Proof. vm_compute. repeat split; reflexivity. Qed.

(** What the text strategy reads on the sample page. *)
Example sample_text_fields :
  let fields := TextExtractor._extract_fields validation_config sample_text in
  PyDict.keys fields =
    ["tan"; "deductor_name"; "assessment_year"; "nature_of_payment"; "total_amount";
     "cin"; "bsr_code"; "challan_no"; "date_of_deposit"; "bank_name"] /\
  option_map value (PyDict.get "total_amount" fields) = Some (VFloat 19395) /\
  option_map value (PyDict.get "date_of_deposit" fields) = Some (VStr "2025-10-07") /\
  option_map confidence (PyDict.get "tan" fields) = Some 0.98%float.
Proof. vm_compute. repeat split; reflexivity. Qed.

(** A batch with the sample record twice: the second copy, at position 2,
    is the duplicate. *)
Lemma validate_batch_duplicates_witness :
  let records := [sample_record_1; split_ab_1; sample_record_1] in
  exists result,
    snd (validate_batch example_today (new_validator validation_config) records) !! 2%nat =
      Some result /\
    List.filter (has_type "duplicate") (issues result) =
      [duplicate_issue (hash_of sample_record_1)].
Proof.
  cbv zeta.
  destruct (snd (validate_batch example_today (new_validator validation_config)
                   [sample_record_1; split_ab_1; sample_record_1]) !! 2%nat)
    as [result|] eqn:E; [|vm_compute in E; discriminate].
  exists result. split; [reflexivity|].
  rewrite (validate_batch_duplicates example_today (new_validator validation_config)
             [sample_record_1; split_ab_1; sample_record_1] 2 sample_record_1 result
             eq_refl E).
  vm_compute. reflexivity.
Defined.

(** The sample record, deposited 392 days before the day of the examples. *)
Lemma date_warnings_exclusive_witness :
  PyDate.valid example_today = true /\
  PyDate.valid (mkDate 2025 10 7) = true /\
  (List.length (emitted (_validate_dates example_today (new_validator validation_config)
                           sample_record_1)) <= 1)%nat.
Proof.
  split; [reflexivity|]. split; [reflexivity|].
  exact (proj2 (date_warnings_exclusive example_today (new_validator validation_config)
                  sample_record_1 (mkDate 2025 10 7) eq_refl eq_refl eq_refl)).
Defined.

Lemma sample_layout_fields_wf : PyDict.wf sample_layout_fields.
Proof.
  unfold PyDict.wf. cbn.
  repeat (apply NoDup_cons_2; [rewrite ?elem_of_cons, elem_of_nil; intuition discriminate|]).
  apply NoDup_nil_2.
Qed.

(** The tax component the text strategy stored by default, merged with
    the layout map: its confidence does not go down. *)
Lemma merge_keeps_best_witness :
  PyDict.wf sample_layout_fields /\
  exists m,
    PyDict.get "tax_b" (_merge_fields [("tax_b", tax_default)] sample_layout_fields) = Some m /\
    PyFloat.lt (confidence m) (confidence tax_default) = false.
Proof.
  split; [exact sample_layout_fields_wf|].
  destruct (merge_keeps_best [("tax_b", tax_default)] sample_layout_fields
              sample_layout_fields_wf "tax_b") as [Hp _].
  exact (Hp tax_default eq_refl).
Defined.

Lemma merge_fields_keys_witness :
  PyDict.wf sample_layout_fields /\
  PyDict.keys (_merge_fields [("tax_b", tax_default); ("cin", tax_default)]
                 sample_layout_fields) =
    ["tax_b"; "cin"; "tan"; "bank_name"; "tax_a"].
Proof.
  split; [exact sample_layout_fields_wf|].
  rewrite (merge_fields_keys _ _ sample_layout_fields_wf). reflexivity.
Defined.

Lemma merge_fields_neutral_witness :
  PyDict.wf sample_layout_fields /\
  _merge_fields sample_layout_fields sample_layout_fields = sample_layout_fields.
Proof.
  split; [exact sample_layout_fields_wf|].
  exact (proj2 (proj2 (merge_fields_neutral sample_layout_fields sample_layout_fields_wf))).
Defined.

(** The amount 19395.00 is read as 1939500. *)
Lemma parse_amount_drops_point_witness :
  TextExtractor._parse_amount "19395.00" = Some 1939500%float.
Proof.
  destruct (parse_amount_drops_point "19395" "00" ltac:(discriminate) eq_refl) as [_ D].
  change (TextExtractor._parse_amount ("19395" ++ "." ++ "00")%string = Some 1939500%float).
  rewrite (D eq_refl eq_refl). vm_compute. reflexivity.
Defined.

(** The record of the empty map. *)
Lemma build_record_spec_witness :
  _build_record validation_config [] "scan.pdf" = Returned (blank_record "scan.pdf") /\
  total_amount (blank_record "scan.pdf") = Some 0%float /\
  ~ In missing_amount_issue
      (issues (result_of (validate example_today (new_validator validation_config)
                            (blank_record "scan.pdf")))).
Proof.
  assert (_build_record validation_config [] "scan.pdf" = Returned (blank_record "scan.pdf"))
    as E by reflexivity.
  split; [exact E|].
  destruct (build_record_spec validation_config [] "scan.pdf" _ E)
    as (_ & Hz & _ & _ & _ & _ & _ & Hm).
  split; [exact (Hz eq_refl) | apply Hm].
Defined.

Lemma build_record_typed_witness :
  fields_typed sample_layout_fields = true /\
  exists record,
    _build_record validation_config sample_layout_fields "scan.pdf" = Returned record.
Proof.
  split; [reflexivity|].
  exact (build_record_typed validation_config sample_layout_fields "scan.pdf" eq_refl).
Defined.

Lemma example_layout_typed (pdf_path : string) fields :
  layout_extract pdf_path = Returned fields -> fields_typed fields = true.
Proof.
  cbn. destruct (String.eqb pdf_path "missing.pdf"); [discriminate|].
  intros [= <-]. reflexivity.
Qed.

Lemma example_ocr_typed (pdf_path : string) fields text conf :
  ocr_extract pdf_path = Returned (fields, text, conf) -> fields_typed fields = true.
Proof. discriminate. Qed.

(** The document [scan.pdf]. *)
Lemma process_succeeds_witness :
  exists result record,
    process validation_config example_pipeline ("scan.pdf" : @Path example_documents) 0 1 = Returned result /\
    ExtractionResult.success result = true /\
    ExtractionResult.record result = Some record /\
    total_amount record <> None.
Proof.
  destruct (process_succeeds validation_config example_pipeline ("scan.pdf" : @Path example_documents) 0 1
              (example_layout_typed "scan.pdf") (example_ocr_typed "scan.pdf"))
    as (result & record & E & S & R & _ & A & _).
  exists result, record. auto.
Defined.

(** The document [missing.pdf]. *)
Lemma process_unreadable_witness :
  process validation_config example_pipeline ("missing.pdf" : @Path example_documents) 0 1 =
    Returned (ExtractionResult.mk true (Some (blank_record "missing.pdf")) None "text"
                ((1 - 0) * 1000)%float []) /\
  validation_flag
    (record_after (validate example_today (new_validator validation_config)
                     (blank_record "missing.pdf"))) = FLAG.
Proof.
  destruct (process_unreadable validation_config example_pipeline ("missing.pdf" : @Path example_documents) 0 1
              not_found not_found eq_refl eq_refl ltac:(discriminate)) as [P V].
  split; [exact P | apply V].
Defined.

(** The default of the text strategy for the surcharge against the OCR
    reading of the sample page. *)
Lemma ocr_keeps_confident_fields_witness :
  option_map confidence
    (PyDict.get "tax_b" (OCRExtractor._extract_fields_from_ocr sample_text)) =
    Some 0.75%float /\
  PyDict.get "tax_b"
    (_merge_fields [("tax_b", tax_default)]
       (OCRExtractor._extract_fields_from_ocr sample_text)) = Some tax_default.
Proof.
  split; [vm_compute; reflexivity|].
  exact (ocr_keeps_confident_fields [("tax_b", tax_default)] sample_text "tax_b" tax_default
           eq_refl eq_refl).
Defined.

(** The row of the sample record: the cell under [Tax_A], the sixteenth
    header, is empty, though the record has a tax of 19395.0. *)
Lemma data_sheet_cells_witness :
  tax_a (tax_breakup sample_record_1) = 19395%float /\
  exists cell,
    sheet_cell (ExcelWriter._write_data_sheet [sample_record_1]) 1 15 = Some cell /\
    cell_value cell = VStr "".
Proof.
  split; [reflexivity|].
  destruct (data_sheet_cells [sample_record_1] 0 sample_record_1 15 "Tax_A" eq_refl eq_refl)
    as (cell & E & Htax & _).
  exists cell. split; [exact E|]. apply Htax. unfold tax_headers. cbn. tauto.
Defined.

(** The two documents in one run of the loop: both give a record, the
    one that cannot be opened too. *)
Lemma process_pdfs_all_recorded_witness :
  let '(records, errors) :=
    process_pdfs validation_config "Extraction failed" example_today example_pipeline
      [(("scan.pdf" : @Path example_documents), 0%float, 1%float); (("missing.pdf" : @Path example_documents), 1%float, 2%float)] in
  errors = [] /\ List.length records = 2%nat.
Proof.
  pose proof (process_pdfs_all_recorded validation_config "Extraction failed" example_today
                example_pipeline
                [(("scan.pdf" : @Path example_documents), 0%float, 1%float);
                 (("missing.pdf" : @Path example_documents), 1%float, 2%float)]
                example_layout_typed example_ocr_typed) as P.
  revert P.
  destruct (process_pdfs validation_config "Extraction failed" example_today example_pipeline _)
    as [records errors].
  intros P. exact P.
Defined.

(** The sample page through the pipeline and the validator. *)
Example sample_page_processed :
  match process validation_config example_pipeline ("scan.pdf" : @Path example_documents) 0 1 with
  | Returned result =>
      ExtractionResult.extraction_method result = "text" /\
      match ExtractionResult.record result with
      | Some record =>
          tan record = Some "BLRS05586H" /\
          total_amount record = Some 19395%float /\
          date_of_deposit record = Some (mkDate 2025 10 7) /\
          tax_breakup record = mkTaxBreakup 19395 0 0 0 0 0 /\
          validation_flag
            (record_after (validate example_today (new_validator validation_config) record)) =
            OK
      | None => False
      end
  | Raised _ => False
  end.
Proof. vm_compute. repeat split; reflexivity. Qed.

(** Two distinct objects in the list: as many flagged records as results
    that are not valid. *)
Lemma summary_counts_after_validation_witness :
  NoDup [0%nat; 1%nat] /\
  let out :=
    validate_batch_objects example_today (new_validator validation_config) example_store
      [0%nat; 1%nat] in
  List.length (ExcelWriter.flagged_records (objects (snd (fst out)) [0%nat; 1%nat])) =
  List.length (List.filter (fun result => negb (is_valid result)) (snd out)).
Proof.
  assert (NoDup [0%nat; 1%nat]) as Hd by (apply (bool_decide_unpack _); vm_compute; exact I).
  split; [exact Hd|]. cbv zeta.
  destruct (summary_counts_after_validation example_today (new_validator validation_config)
              example_store [0%nat; 1%nat]) as (_ & _ & _ & _ & E).
  exact (E Hd).
Defined.

(** One object at both positions of the list: the first result is valid,
    the second is the duplicate, and the list read after the call shows
    the flag of the second validation twice, where a list of two copies
    shows [OK] and [FLAG]. *)
Example one_object_twice :
  let out :=
    validate_batch_objects example_today (new_validator validation_config) example_store
      [0%nat; 0%nat] in
  List.map is_valid (snd out) = [true; false] /\
  List.map validation_flag (objects (snd (fst out)) [0%nat; 0%nat]) = [FLAG; FLAG] /\
  List.map validation_flag
    (snd (fst (validate_batch example_today (new_validator validation_config)
                 (objects example_store [0%nat; 0%nat])))) = [OK; FLAG].
Proof. vm_compute. repeat split; reflexivity. Qed.

End FurtherExamples.

